(** * ContraxSuite document tasks: a shallow embedding of
      [apps/document/tasks.py] and the properties of its task entry points.

    The tasks are orchestration code: they read rows through the ORM, call
    collaborators (trainer, exporter, classifier, file storage) and write
    rows back.  The embedding keeps that shape: every task is a computation
    in a small state-and-exception monad over the part of the database it
    touches; collaborators whose code lives elsewhere are section variables. *)

From stdpp Require Import gmap strings list sorting.
From Stdlib Require Import ZArith QArith Lia.

Set Default Proof Using "Type".
Open Scope Z_scope.

(** ** Python exceptions and the task monad *)

Module Py.

(** The exception classes the tasks raise or let through. *)
Inductive exn : Type :=
| RuntimeError (msg : string)
| DoesNotExist
| KeyError (key : string)
| ValueError
| ZeroDivisionError
| FileExistsError
| AttributeError
| External (what : string).

Inductive result (A : Type) : Type :=
| Ok (a : A)
| Raise (e : exn).
Arguments Ok {A} a.
Arguments Raise {A} e.

(** A computation on a store [S]: the store survives an exception, as the
    effects of a Python function do when it raises half-way. *)
Definition M (S A : Type) : Type := S -> result A * S.

Definition ret {S A} (a : A) : M S A := fun s => (Ok a, s).

Definition bind {S A B} (m : M S A) (k : A -> M S B) : M S B :=
  fun s => match m s with
           | (Ok a, s') => k a s'
           | (Raise e, s') => (Raise e, s')
           end.

Definition raise {S A} (e : exn) : M S A := fun s => (Raise e, s).
Definition get {S} : M S S := fun s => (Ok s, s).
Definition modify {S} (f : S -> S) : M S unit := fun s => (Ok tt, f s).

(** [lift r]: a pure, fallible step. *)
Definition lift {S A} (r : result A) : M S A := fun s => (r, s).

(** [try: body finally: fin]. The finaliser runs on both exits; an
    exception of the finaliser replaces the pending one. *)
Definition try_finally {S A} (body : M S A) (fin : M S unit) : M S A :=
  fun s => match body s with
           | (r, s') => match fin s' with
                        | (Ok _, s'') => (r, s'')
                        | (Raise e, s'') => (Raise e, s'')
                        end
           end.

(** [for x in xs: body x]. *)
Fixpoint for_each {S A} (xs : list A) (body : A -> M S unit) : M S unit :=
  match xs with
  | [] => ret tt
  | x :: xs' => bind (body x) (fun _ => for_each xs' body)
  end.

Definition is_ok {A} (r : result A) : bool :=
  match r with Ok _ => true | Raise _ => false end.

End Py.

Import Py.

Notation "'let!' x ':=' m 'in' k" := (Py.bind m (fun x => k))
  (at level 10, x name, m at level 100, k at level 200).
Notation "'run!' m 'in' k" := (Py.bind m (fun _ => k))
  (at level 10, m at level 100, k at level 200).

(** ** [apps.common.collection_utils.chunks] *)

Module CollectionUtils.
Section Chunks.
Context {A : Type}.

Fixpoint chunks_fuel (fuel : nat) (l : list A) (n : nat) : list (list A) :=
  match fuel with
  | O => []
  | S fuel' =>
      match l with
      | [] => []
      | _ :: _ => take n l :: chunks_fuel fuel' (drop n l) n
      end
  end.

(** Modelled from the spec: [chunks] of [apps/common/collection_utils.py]
    is not part of this file set.  It yields the successive slices
    [l[0:n]], [l[n:2n]], ... of its argument, each of at most [n]
    elements ("N doc ids per task").  At most [len(l)] slices exist,
    which is the fuel.  The chunk size is a positive constant at every
    call site. *)
Definition chunks (l : list A) (n : nat) : list (list A) :=
  chunks_fuel (length l) l n.
End Chunks.
End CollectionUtils.

Import CollectionUtils.

(** ** The task queue *)

Module TaskQueue.

(** The task functions that the planners of this file hand to the queue. *)
Inductive task_func : Type :=
| process_documents_status_changed
| process_documents_assignee_changed.

(** One queued task: the function, its positional arguments
    [(doc_ids, new_id, changed_by_user_id)] and the user it runs for. *)
Record queued_task : Type := QueuedTask {
  qt_func : task_func;
  qt_doc_ids : list Z;
  qt_new_id : option Z;
  qt_changed_by : option Z;
  qt_user_id : option Z
}.

Definition queue : Type := list queued_task.

(** Modelled from the spec: [call_task_func] of [apps/task/tasks.py] is not
    part of this file set.  It hands one unit of work to the host task
    queue; the queue is the list of units in the order they were started. *)
Definition call_task_func (f : task_func) (args : list Z * option Z * option Z)
    (user_id : option Z) : M queue unit :=
  let '(ids, new_id, by_user) := args in
  modify (fun q => q ++ [QueuedTask f ids new_id by_user user_id]).

End TaskQueue.

Import TaskQueue.

(** ** Planning of status and assignee changes *)

Section Plan.
(** [apps.document.constants.DOC_NUMBER_PER_MAIN_TASK]; the constants
    module is not part of this file set. *)
Variable DOC_NUMBER_PER_MAIN_TASK : nat.

Definition plan_process_documents_status_changed
    (doc_ids : list Z) (new_status_id : option Z) (changed_by_user_id : option Z)
    : M queue unit :=
  for_each (chunks doc_ids DOC_NUMBER_PER_MAIN_TASK) (fun doc_ids_chunk =>
    call_task_func process_documents_status_changed
      (doc_ids_chunk, new_status_id, changed_by_user_id)
      changed_by_user_id).

Definition plan_process_documents_assignee_changed
    (doc_ids : list Z) (new_assignee_id : option Z) (changed_by_user_id : option Z)
    : M queue unit :=
  for_each (chunks doc_ids DOC_NUMBER_PER_MAIN_TASK) (fun doc_ids_chunk =>
    call_task_func process_documents_assignee_changed
      (doc_ids_chunk, new_assignee_id, changed_by_user_id)
      changed_by_user_id).
End Plan.

(** ** [ExportDocuments] *)

Module ExportDocuments.

Definition bytes : Type := list Byte.byte.

(** The entries [process] creates directly under its temporary directory:
    the part files [part_{first_id}_{last_id}.zip] and the per-pack
    subfolders [str(first_id)].  Both name formats are injective in the ids
    and no part name is a subfolder name, which is all the constructors
    say. *)
Inductive tmp_name : Type :=
| PartZip (first_id last_id : Z)
| SubFolder (first_id : Z).

#[global] Instance tmp_name_eq_dec : EqDecision tmp_name.
Proof. solve_decision. Defined.

#[global] Instance tmp_name_countable : Countable tmp_name.
Proof.
  refine (inj_countable'
    (fun n => match n with
              | PartZip a b => inl (a, b)
              | SubFolder a => inr a
              end)
    (fun s => match s with
              | inl (a, b) => PartZip a b
              | inr a => SubFolder a
              end) _).
  by intros [].
Defined.

Inductive tmp_entry : Type :=
| File (content : bytes)
| Dir.

Abbreviation tmp_dir := (gmap tmp_name tmp_entry).

(** A zip archive: member name to content. *)
Abbreviation zip_archive := (gmap tmp_name bytes).

(** The file storage: path to the archive written there. *)
Abbreviation storage := (gmap string zip_archive).

(** [min(l)] and [max(l)] on a list of ints. *)
Definition pmin (l : list Z) : Z :=
  match l with [] => 0 | x :: l' => foldl Z.min x l' end.
Definition pmax (l : list Z) : Z :=
  match l with [] => 0 | x :: l' => foldl Z.max x l' end.
Definition py_min (l : list Z) : result Z :=
  match l with [] => Raise ValueError | _ :: _ => Ok (pmin l) end.
Definition py_max (l : list Z) : result Z :=
  match l with [] => Raise ValueError | _ :: _ => Ok (pmax l) end.

(** [os.mkdir]: fails when the name is taken. *)
Definition mkdir (name : tmp_name) : M tmp_dir unit :=
  fun d => match d !! name with
           | Some _ => (Raise FileExistsError, d)
           | None => (Ok tt, <[name := Dir]> d)
           end.

(** [open(name, 'wb')] followed by [write]: creates or truncates. *)
Definition write_part (name : tmp_name) (content : bytes) : M tmp_dir unit :=
  modify (fun d => <[name := File content]> d).

(** The members of the combined archive: the regular files among
    [os.listdir(temp_dir)], under their own names. *)
Definition zip_files (d : tmp_dir) : zip_archive :=
  omap (fun e => match e with File c => Some c | Dir => None end) d.

Section Process.
(** [ExportDocuments.DOC_PER_PACK]. *)
Definition DOC_PER_PACK : nat := 10.

(** [DocumentExporter.in_memory_export(ids_pack, subfolder, export_files)]
    of [apps/document/migration/document_export.py], which is not part of
    this file set: the zipped pack, or an exception.  The subfolder is
    named by its first id. *)
Variable in_memory_export : list Z -> Z -> bool -> result bytes.

(** The body of the [for ids_pack in ...] loop. *)
Definition export_pack (export_files : bool) (ids_pack : list Z) : M tmp_dir unit :=
  let! first_id := lift (py_min ids_pack) in
  let! last_id := lift (py_max ids_pack) in
  run! mkdir (SubFolder first_id) in
  let! zipped_stream := lift (in_memory_export ids_pack first_id export_files) in
  write_part (PartZip first_id last_id) zipped_stream.

(** [process], up to [storage.write_file]; the bookkeeping on the
    [ExportFile] row and the e-mail that follow do not touch the storage.
    The temporary directory is fresh and is removed on both exits
    ([finally: rmtree]), so it is a local value here.  [document_ids.sort()]
    sorts the caller's list in place; nothing modelled here reads it again
    through another name, so the sorted list is a local value too. *)
Definition process (document_ids : list Z) (file_path : string)
    (export_files : bool) : M storage unit :=
  let document_ids := merge_sort Z.le document_ids in
  let temp_dir : tmp_dir := ∅ in
  match for_each (chunks document_ids DOC_PER_PACK) (export_pack export_files) temp_dir with
  | (Raise e, _) => raise e
  | (Ok _, temp_dir) =>
      modify (fun st : storage => <[file_path := zip_files temp_dir]> st)
  end.
End Process.

End ExportDocuments.

(** ** [DbCache] *)

Module DbCache.
(** Modelled from the spec: [DbCache] of [apps/common/db_cache/db_cache.py]
    is not part of this file set.  It is a keyed store of cached byte
    strings: [get] reads the entry of a key ([None] when there is none) and
    [clean_cache] removes it. *)
Definition get {V} (key : string) (c : gmap string V) : option V := c !! key.
Definition clean_cache {V} (key : string) (c : gmap string V) : gmap string V :=
  delete key c.
End DbCache.

(** ** [ImportDocumentType] *)

Module ImportDocumentType.
Section Process.
(** The relational database and the document types stored in it, which
    only the collaborators below look into. *)
Context {DB DocumentType : Type}.

(** The effects the task has: the cache of uploaded files, the database,
    and the sub-tasks it has started (each with its list of document
    ids). *)
Record world : Type := World {
  db_cache : gmap string ExportDocuments.bytes;
  db : DB;
  sub_tasks : list (list Z)
}.

Definition set_db_cache (f : gmap string ExportDocuments.bytes -> gmap string ExportDocuments.bytes)
    (w : world) : world :=
  {| db_cache := f (db_cache w); db := db w; sub_tasks := sub_tasks w |}.
Definition set_db (d : DB) (w : world) : world :=
  {| db_cache := db_cache w; db := d; sub_tasks := sub_tasks w |}.
Definition add_sub_task (ids : list Z) (w : world) : world :=
  {| db_cache := db_cache w; db := db w; sub_tasks := sub_tasks w ++ [ids] |}.

(** [apps.document.scheme_migrations.scheme_migration.CURRENT_VERSION]. *)
Variable CURRENT_VERSION : Z.
(** Python's [int(s)] on a string: [None] stands for [ValueError]. *)
Variable py_int : string -> option Z.
(** [apps.dump.document_type_import.import_document_type(json_bytes, save,
    auto_fix_validation_errors, remove_missed_in_dump_objects,
    source_version, task)]: works on the database and returns the
    document type, or raises. *)
Variable import_document_type :
  option ExportDocuments.bytes -> bool -> bool -> bool -> Z -> DB -> result DocumentType * DB.
(** [APP_VAR_DISABLE_RAW_DB_CACHING.val], [adapt_table_structure] and the
    query [Document.all_objects.filter(document_type=...)] of the tail. *)
Variable APP_VAR_DISABLE_RAW_DB_CACHING : DB -> bool.
Variable adapt_table_structure : DocumentType -> DB -> result unit * DB.
Variable document_ids_of_type : DocumentType -> DB -> list Z.

(** The [if action == ...] chain: [(save, auto_fix_validation_errors,
    remove_missed_objects)]. *)
Definition action_flags (action : string) : result (bool * bool * bool) :=
  if decide (action = "validate") then Ok (false, false, false)
  else if decide (action = "validate|import") then Ok (true, false, false)
  else if decide (action = "import|auto_fix|retain_missing_objects") then Ok (true, true, false)
  else if decide (action = "import|auto_fix|remove_missing_objects") then Ok (true, true, true)
  else Raise (RuntimeError "Unknown action").

(** [int(source_version) if source_version else CURRENT_VERSION]. *)
Definition resolve_version (source_version : option string) : result Z :=
  match source_version with
  | None => Ok CURRENT_VERSION
  | Some s =>
      if decide (s = "") then Ok CURRENT_VERSION
      else match py_int s with Some v => Ok v | None => Raise ValueError end
  end.

(** [d['cache_key']] on the dict argument. *)
Definition cache_key (document_type_config_json_file : gmap string string) : result string :=
  match document_type_config_json_file !! "cache_key" with
  | Some k => Ok k
  | None => Raise (KeyError "cache_key")
  end.

(** A collaborator that works on the database only. *)
Definition on_db {A} (f : DB -> result A * DB) : M world A :=
  fun w => let '(r, d) := f (db w) in (r, set_db d w).

(** [self.run_sub_tasks(name, func, [(list(chunk),)])]: one sub-task. *)
Definition run_sub_tasks (args : list (list Z)) : M world unit :=
  for_each args (fun ids => modify (add_sub_task ids)).

Definition process (document_type_config_json_file : gmap string string)
    (action : string) (update_cache : bool) (source_version : option string)
    : M world unit :=
  let! flags := lift (action_flags action) in
  let '(save, auto_fix_validation_errors, remove_missed_objects) := flags in
  let! source_version := lift (resolve_version source_version) in
  let! document_type :=
    try_finally
      (let! key := lift (cache_key document_type_config_json_file) in
       let! w := get in
       let json_bytes := DbCache.get key (db_cache w) in
       on_db (import_document_type json_bytes save auto_fix_validation_errors
                remove_missed_objects source_version))
      (let! key := lift (cache_key document_type_config_json_file) in
       modify (set_db_cache (DbCache.clean_cache key))) in
  if negb (save && update_cache) then ret tt
  else
    let! w := get in
    run! (if negb (APP_VAR_DISABLE_RAW_DB_CACHING (db w))
          then on_db (adapt_table_structure document_type)
          else ret tt) in
    let! w := get in
    let ids := document_ids_of_type document_type (db w) in
    for_each (chunks ids 50) (fun chunk => run_sub_tasks [chunk]).
End Process.
End ImportDocumentType.

(** ** Field detector training: [TrainDocumentFieldDetectorModel],
       [TrainDirtyDocumentFieldDetectorModel], [TrainAndTest] *)

Module Training.

(** A [DocumentField] row, with the columns the training tasks read or
    write. *)
Record DocumentField : Type := mkDocumentField {
  df_uid : string;
  df_code : string;
  df_document_type : string;
  df_dirty : bool;
  df_trained_after_documents_number : Z
}.

(** A [ClassifierModel] instance: the field it belongs to, the trained model
    and the accuracy measured by the tests.  A saved instance is a row of
    the table below under its primary key. *)
Record ClassifierModel : Type := mkClassifierModel {
  cm_document_field : string;
  cm_trained_model : ExportDocuments.bytes;
  cm_field_detection_accuracy : option Q
}.

(** The sub-tasks the tasks start. *)
Inductive sub_task : Type :=
| TestFieldDetectorModel (field_uid : string) (document_id : Z)
| JoinFieldDetectorModelTests (field_uid : string) (classifier_model_id : option Z).

Record db : Type := mkDb {
  document_fields : gmap string DocumentField;
  classifier_models : gmap Z ClassifierModel;
  started : list sub_task
}.

Definition set_document_fields (f : gmap string DocumentField -> gmap string DocumentField)
    (d : db) : db :=
  {| document_fields := f (document_fields d);
     classifier_models := classifier_models d;
     started := started d |}.

Definition set_classifier_models (f : gmap Z ClassifierModel -> gmap Z ClassifierModel)
    (d : db) : db :=
  {| document_fields := document_fields d;
     classifier_models := f (classifier_models d);
     started := started d |}.

Definition add_started (ts : list sub_task) (d : db) : db :=
  {| document_fields := document_fields d;
     classifier_models := classifier_models d;
     started := started d ++ ts |}.

(** [DocumentField.objects.get(pk=...)]. *)
Definition get_document_field (pk : string) : M db DocumentField :=
  fun d => match document_fields d !! pk with
           | Some f => (Ok f, d)
           | None => (Raise DoesNotExist, d)
           end.

(** [field.dirty = b] on a loaded instance. *)
Definition set_dirty (b : bool) (f : DocumentField) : DocumentField :=
  {| df_uid := df_uid f;
     df_code := df_code f;
     df_document_type := df_document_type f;
     df_dirty := b;
     df_trained_after_documents_number := df_trained_after_documents_number f |}.

(** [field.save()] of a loaded row. *)
Definition save_document_field (f : DocumentField) : M db unit :=
  modify (set_document_fields (fun t => <[df_uid f := f]> t)).

(** [ClassifierModel.objects.filter(document_field=field).delete()]. *)
Definition delete_classifier_models_of (field : DocumentField) : M db unit :=
  modify (set_classifier_models
            (filter (fun kv => cm_document_field kv.2 <> df_uid field))).

(** The primary key the database gives to an inserted row: one above the
    keys in use. *)
Definition fresh_pk (t : gmap Z ClassifierModel) : Z :=
  1 + foldr Z.max 0 (map fst (map_to_list t)).

(** [new_model.save()] on an instance that was never saved: inserts it and
    returns the key it got. *)
Definition save_new_classifier_model (m : ClassifierModel) : M db Z :=
  fun d => let pk := fresh_pk (classifier_models d) in
           (Ok pk, set_classifier_models (fun t => <[pk := m]> t) d).

(** The classifier models persisted for a field. *)
Definition models_of_field (uid : string) (d : db) : gmap Z ClassifierModel :=
  filter (fun kv => cm_document_field kv.2 = uid) (classifier_models d).

(** The optional arguments of the trainer that only [TrainAndTest] passes. *)
Inductive train_options : Type :=
| DefaultOptions
| Options (use_only_confirmed_field_values split_and_log_out_of_sample_test_report : bool).

(** [if xs:] on an optional list. *)
Definition truthy_list {A} (xs : option (list A)) : bool :=
  match xs with Some (_ :: _) => true | _ => false end.

Section Tasks.
(** [field_detection.train_document_field_detector_model(log, field,
    train_data_project_ids, ...)] of
    [apps/document/field_detection/field_detection.py]: reads the database
    and returns an unsaved model, [None], or raises. *)
Variable train_document_field_detector_model :
  db -> DocumentField -> option (list Z) -> train_options -> result (option ClassifierModel).
(** [DocumentField.can_retrain()]. *)
Variable can_retrain : DocumentField -> bool.
(** [FieldDetectionRepository.get_approved_documents_number(field, None)]. *)
Variable get_approved_documents_number : db -> DocumentField -> Z.
(** The three queries that select the test documents of [TrainAndTest]. *)
Variable documents_of_projects : db -> list Z -> string -> list Z.
Variable get_qs_active_modified_document_ids : db -> DocumentField -> list Z -> list Z.
Variable get_qs_finished_document_ids : db -> string -> list Z -> list Z.

Definition train (field : DocumentField) (project_ids : option (list Z))
    (opts : train_options) : M db (option ClassifierModel) :=
  let! d := get in
  lift (train_document_field_detector_model d field project_ids opts).

(** [if new_model: ClassifierModel.objects.filter(...).delete();
    new_model.save()]; returns [new_model.pk]. *)
Definition replace_model (field : DocumentField) (new_model : option ClassifierModel)
    : M db (option Z) :=
  match new_model with
  | Some m =>
      run! delete_classifier_models_of field in
      let! pk := save_new_classifier_model m in
      ret (Some pk)
  | None => ret None
  end.

Definition train_model_for_field (field_uid : string) : M db unit :=
  let! field := get_document_field field_uid in
  let! new_model := train field None DefaultOptions in
  run! replace_model field new_model in
  ret tt.

Definition train_model_for_dirty_field (dirty_field_id : string) : M db unit :=
  let! dirty_field := get_document_field dirty_field_id in
  if can_retrain dirty_field then
    let dirty_field := set_dirty false dirty_field in
    run! save_document_field dirty_field in
    let! d := get in
    let train_docs_count := get_approved_documents_number d dirty_field in
    if Z.leb (df_trained_after_documents_number dirty_field) train_docs_count then
      let! new_model := train dirty_field None DefaultOptions in
      run! replace_model dirty_field new_model in
      ret tt
    else ret tt
  else ret tt.

(** The keyword arguments of [TrainAndTest.process]. *)
Record train_and_test_kwargs : Type := mkKwargs {
  document_field_id : string;
  skip_training : bool;
  use_only_confirmed_field_values_for_training : bool;
  train_data_project_ids : option (list Z);
  split_and_log_out_of_sample_test_report : bool;
  skip_testing : bool;
  use_only_confirmed_field_values_for_testing : bool;
  test_data_projects_ids : option (list Z)
}.

(** The testing half of [TrainAndTest.process], from [if skip_testing:] on:
    it selects the test documents and starts one test sub-task per document
    and the joining task after them. *)
Definition start_tests (kwargs : train_and_test_kwargs) (field : DocumentField)
    (new_model_pk : option Z) : M db unit :=
  if skip_testing kwargs then ret tt
  else if negb (truthy_list (test_data_projects_ids kwargs)) then ret tt
  else
    let projects := default [] (test_data_projects_ids kwargs) in
    let! d := get in
    let test_document_ids :=
      if negb (use_only_confirmed_field_values_for_testing kwargs)
      then documents_of_projects d projects (df_document_type field)
      else remove_dups (get_qs_active_modified_document_ids d field projects
                        ++ get_qs_finished_document_ids d (df_document_type field) projects) in
    let test_tasks_args := map (fun doc_id => (df_uid field, doc_id)) test_document_ids in
    match test_tasks_args with
    | [] => ret tt
    | _ :: _ =>
        run! modify (add_started (map (fun a => TestFieldDetectorModel a.1 a.2) test_tasks_args)) in
        modify (add_started [JoinFieldDetectorModelTests (df_uid field) new_model_pk])
    end.

(** [TrainAndTest.process]; log lines are not modelled. *)
Definition train_and_test_process (kwargs : train_and_test_kwargs) : M db unit :=
  let! field := get_document_field (document_field_id kwargs) in
  let! new_model_pk :=
    (if negb (skip_training kwargs) then
       let! new_model :=
         train field (train_data_project_ids kwargs)
           (Options (use_only_confirmed_field_values_for_training kwargs)
                    (split_and_log_out_of_sample_test_report kwargs)) in
       replace_model field new_model
     else ret None) in
  start_tests kwargs field new_model_pk.
End Tasks.

End Training.

(** ** [TrainAndTest.join_field_detector_model_tests] *)

Module JoinTests.
Import Training.

(** The dict a [test_field_detector_model] sub-task returns; [.get] gives
    [None] for a missing key. *)
Record test_result : Type := mkTestResult {
  actual_field_value : option string;
  text_units_number : option Z;
  value_matches_expected : bool
}.

(** The counters of the loop over the results. *)
Record counters : Type := mkCounters {
  test_text_units_number : Z;
  match_number : nat;
  test_doc_number : nat;
  matches_per_value : gmap string nat;
  total_per_value : gmap string nat
}.

Definition counters0 : counters := mkCounters 0 0 0 ∅ ∅.

(** [if actual_field_value:] on an optional string. *)
Definition truthy_str (s : option string) : option string :=
  match s with
  | Some v => if decide (v = "") then None else Some v
  | None => None
  end.

(** [if v not in d: d[v] = 0] followed by [d[v] += 1]. *)
Definition count_up (v : string) (d : gmap string nat) : gmap string nat :=
  <[v := S (default 0%nat (d !! v))]> d.

(** The body of [for res in results]; a [NULL] result has no [.get]. *)
Definition count_result (c : counters) (res : option test_result) : result counters :=
  match res with
  | None => Raise AttributeError
  | Some res =>
      let value := truthy_str (actual_field_value res) in
      let total := match value with
                   | Some v => count_up v (total_per_value c)
                   | None => total_per_value c
                   end in
      let units := test_text_units_number c + default 0 (text_units_number res) in
      if value_matches_expected res then
        Ok (mkCounters units (S (match_number c)) (S (test_doc_number c))
              (match value with
               | Some v => count_up v (matches_per_value c)
               | None => matches_per_value c
               end)
              total)
      else Ok (mkCounters units (match_number c) (S (test_doc_number c))
                 (matches_per_value c) total)
  end.

Fixpoint count_results (c : counters) (results : list (option test_result)) : result counters :=
  match results with
  | [] => Ok c
  | res :: results' =>
      match count_result c res with
      | Ok c' => count_results c' results'
      | Raise e => Raise e
      end
  end.

(** [a / b] on two counts: the exact quotient (Python rounds it to the
    nearest float, which keeps it between the same integers). *)
Definition py_div (a b : nat) : result Q :=
  match b with
  | O => Raise ZeroDivisionError
  | S _ => Ok (Z.of_nat a # Pos.of_nat b)
  end.

(** The dict comprehension [{v: (matches.get(v) or 0) / total for v, total
    in total_per_value.items()}]. *)
Fixpoint accuracy_items (matches : gmap string nat) (items : list (string * nat))
    : result (list (string * Q)) :=
  match items with
  | [] => Ok []
  | (v, total) :: items' =>
      match py_div (default 0%nat (matches !! v)) total with
      | Raise e => Raise e
      | Ok q =>
          match accuracy_items matches items' with
          | Ok rest => Ok ((v, q) :: rest)
          | Raise e => Raise e
          end
      end
  end.

(** What the task writes to its log. *)
Record report : Type := mkReport {
  rp_test_doc_number : nat;
  rp_test_text_units_number : Z;
  rp_accuracy : Q;
  rp_accuracy_per_value : option (list (string * Q))
}.

(** [classifier_model.field_detection_accuracy = accuracy;
    classifier_model.save()] on the row loaded by [get(pk=...)]. *)
Definition save_accuracy (pk : Z) (accuracy : Q) : M db unit :=
  fun d => match classifier_models d !! pk with
           | None => (Raise DoesNotExist, d)
           | Some m =>
               (Ok tt,
                set_classifier_models
                  (fun t => <[pk := mkClassifierModel (cm_document_field m)
                                      (cm_trained_model m) (Some accuracy)]> t) d)
           end.

(** [if classifier_model_id:] on an optional key. *)
Definition truthy_id (pk : option Z) : option Z :=
  match pk with
  | Some k => if decide (k = 0) then None else Some k
  | None => None
  end.

Section Join.
(** The [result] column of the [test_field_detector_model] sub-tasks of this
    main task, as [Task.objects.filter(...).values_list('result')] gives it. *)
Variable results : list (option test_result).
(** [TypedField.by(field).is_choice_field]. *)
Variable is_choice_field : DocumentField -> bool.

Definition join_field_detector_model_tests (field_uid : string)
    (classifier_model_id : option Z) : M db report :=
  let! c := lift (count_results counters0 results) in
  let! accuracy := lift (py_div (match_number c) (test_doc_number c)) in
  run! (match truthy_id classifier_model_id with
        | Some pk => save_accuracy pk accuracy
        | None => ret tt
        end) in
  let! field := get_document_field field_uid in
  if is_choice_field field then
    let! accuracy_per_value :=
      lift (accuracy_items (matches_per_value c) (map_to_list (total_per_value c))) in
    ret (mkReport (test_doc_number c) (test_text_units_number c) accuracy
           (Some accuracy_per_value))
  else
    ret (mkReport (test_doc_number c) (test_text_units_number c) accuracy None).
End Join.

End JoinTests.

(** ** [_process_documents_status_changed] *)

Module StatusChanged.

(** What the task does to its collaborators, in order. *)
Inductive event : Type :=
| DeleteHiddenFieldValuesIfNeeded (doc : Z)
| FireDocumentsStatusChanged (documents : list Z) (new_status_id : Z)
    (changed_by_user : option Z).

(** The tables the task reads ([ReviewStatus.is_active] by key, the keys of
    [Document] in table order, the keys of [User]) and the calls it made. *)
Record world : Type := mkWorld {
  review_statuses : gmap Z bool;
  documents : list Z;
  users : gset Z;
  events : list event
}.

Definition emit (e : event) : M world unit :=
  modify (fun w => {| review_statuses := review_statuses w;
                      documents := documents w;
                      users := users w;
                      events := events w ++ [e] |}).

(** [ReviewStatus.objects.get(pk=...)], read for [is_active]. *)
Definition get_review_status (pk : Z) : M world bool :=
  fun w => match review_statuses w !! pk with
           | Some is_active => (Ok is_active, w)
           | None => (Raise DoesNotExist, w)
           end.

(** [User.objects.get(pk=...) if pk is not None else None]. *)
Definition get_changed_by_user (changed_by_user_id : option Z) : M world (option Z) :=
  fun w => match changed_by_user_id with
           | None => (Ok None, w)
           | Some pk => if decide (pk ∈ users w) then (Ok (Some pk), w)
                        else (Raise DoesNotExist, w)
           end.

(** [Document.objects.filter(pk__in=doc_ids)], evaluated. *)
Definition docs_qr (doc_ids : list Z) (w : world) : list Z :=
  filter (fun pk => pk ∈ doc_ids) (documents w).

Definition _process_documents_status_changed (doc_ids : list Z) (new_status_id : Z)
    (changed_by_user_id : option Z) : M world unit :=
  let! is_active := get_review_status new_status_id in
  let! changed_by_user := get_changed_by_user changed_by_user_id in
  run! (if negb is_active then
          let! w := get in
          for_each (docs_qr doc_ids w) (fun doc => emit (DeleteHiddenFieldValuesIfNeeded doc))
        else ret tt) in
  let! w := get in
  emit (FireDocumentsStatusChanged (docs_qr doc_ids w) new_status_id changed_by_user).

End StatusChanged.

(** ** [LoadDocumentWithFields] *)

Module LoadDocumentWithFields.

(** A [DocumentField] row as this task uses it: the key (which is also what
    a dict keyed by fields compares) and the code. *)
Record field : Type := mkField {
  f_uid : string;
  f_code : string
}.

(** A [DocumentType]: its code, the JSON dict [field_code_aliases] (alias to
    field code, in dict order; [None] when the column is null) and its
    fields. *)
Record document_type : Type := mkDocumentType {
  dt_code : string;
  dt_field_code_aliases : option (list (string * string));
  dt_fields : list field
}.

Record document : Type := mkDocument {
  doc_name : option string;
  doc_project : Z;
  doc_document_type : option document_type
}.

(** A value of the incoming alias-to-value dict: [None], a list of candidate
    texts, or anything else, handed to the typed field as it is. *)
Inductive field_input : Type :=
| VNone
| VList (possible_value_texts : list string)
| VText (field_value_text : string).

#[global] Instance field_input_eq_dec : EqDecision field_input.
Proof. solve_decision. Defined.

(** The warnings written with [task.log_warn]. *)
Inductive warning : Type :=
| FieldAliasNotFound (field_alias : string) (document_type_code : string)
| UnableToCast (msg : string).

Section LoadFieldValues.
(** Python values of a field and their JSON form. *)
Context {value json : Type}.
(** [str.lower]. *)
Variable lower : string -> string.
(** [TypedField.by(field).extract_from_possible_value_text(text)]: a value,
    nothing (a result that [if maybe_value:] rejects), or an exception. *)
Variable extract_from_possible_value_text : field -> string -> result (option value).
(** [TypedField.by(field).field_value_python_to_json(value)]. *)
Variable field_value_python_to_json : field -> value -> result json.
(** The text of the [RuntimeError] and of the warning for a value that could
    not be cast. *)
Variable unable_to_cast_msg : field_input -> field -> string.

(** [{f.code.lower(): f for f in document_type.fields.all()}]. *)
Definition codes_to_fields (fields : list field) : gmap string field :=
  foldl (fun m f => <[lower (f_code f) := f]> m) ∅ fields.

(** [field_codes_to_fields.update({alias.lower(): field_codes_to_fields.get(
    code.lower()) for alias, code in aliases.items() if alias and code})]:
    the right-hand sides are looked up before the update, and an alias of an
    unknown code is entered with [None]. *)
Definition with_aliases (base : gmap string field) (aliases : list (string * string))
    : gmap string (option field) :=
  foldl (fun m ac =>
           if decide (ac.1 <> "" /\ ac.2 <> "")
           then <[lower ac.1 := base !! lower ac.2]> m
           else m)
        (Some <$> base) aliases.

Definition field_codes_to_fields (dt : document_type) : gmap string (option field) :=
  let base := codes_to_fields (dt_fields dt) in
  match dt_field_code_aliases dt with
  | Some (a :: aliases) => with_aliases base (a :: aliases)
  | _ => Some <$> base
  end.

(** [field_codes_to_fields.get(field_alias.lower())], with [if not field]. *)
Definition resolve (dt : document_type) (field_alias : string) : option field :=
  mjoin (field_codes_to_fields dt !! lower field_alias).

(** One candidate text: extract and, if something came out, convert. *)
Definition extract_json (f : field) (text : string) : result (option json) :=
  match extract_from_possible_value_text f text with
  | Raise e => Raise e
  | Ok None => Ok None
  | Ok (Some v) =>
      match field_value_python_to_json f v with
      | Ok j => Ok (Some j)
      | Raise e => Raise e
      end
  end.

(** [for possible_value_text in list(field_value_text): ... break]. *)
Fixpoint first_extracted (f : field) (texts : list string) : result (option json) :=
  match texts with
  | [] => Ok None
  | text :: texts' =>
      match extract_json f text with
      | Raise e => Raise e
      | Ok (Some j) => Ok (Some j)
      | Ok None => first_extracted f texts'
      end
  end.

(** The body of the [try]: the value to store for the field, if any. *)
Definition extract_entry (f : field) (v : field_input) : result (option json) :=
  match v with
  | VNone => Ok None
  | VList texts => first_extracted f texts
  | VText text => extract_json f text
  end.

(** The body of the loop over the incoming dict; the state is
    [fields_to_values] (keyed by field) and the warnings logged so far. *)
Definition load_entry (dt : document_type) (ignore_parsing_errors : bool)
    (st : gmap string json * list warning) (entry : string * field_input)
    : result (gmap string json * list warning) :=
  let '(fields_to_values, warnings) := st in
  let '(field_alias, field_value_text) := entry in
  match field_value_text with
  | VNone => Ok st
  | _ =>
      match resolve dt field_alias with
      | None => Ok (fields_to_values, warnings ++ [FieldAliasNotFound field_alias (dt_code dt)])
      | Some f =>
          match extract_entry f field_value_text with
          | Ok (Some j) => Ok (<[f_uid f := j]> fields_to_values, warnings)
          | Ok None => Ok st
          | Raise _ =>
              let msg := unable_to_cast_msg field_value_text f in
              if ignore_parsing_errors
              then Ok (fields_to_values, warnings ++ [UnableToCast msg])
              else Raise (RuntimeError msg)
          end
      end
  end.

Fixpoint load_entries (dt : document_type) (ignore_parsing_errors : bool)
    (st : gmap string json * list warning) (entries : list (string * field_input))
    : result (gmap string json * list warning) :=
  match entries with
  | [] => Ok st
  | entry :: entries' =>
      match load_entry dt ignore_parsing_errors st entry with
      | Ok st' => load_entries dt ignore_parsing_errors st' entries'
      | Raise e => Raise e
      end
  end.

(** [load_field_values(task, document, document_fields_alias_to_value,
    ignore_parsing_errors)]: the mapping and the warnings logged. *)
Definition load_field_values (doc : document)
    (document_fields_alias_to_value : list (string * field_input))
    (ignore_parsing_errors : bool) : result (gmap string json * list warning) :=
  match doc_document_type doc with
  | None => Ok (∅, [])
  | Some dt => load_entries dt ignore_parsing_errors (∅, []) document_fields_alias_to_value
  end.
End LoadFieldValues.

End LoadDocumentWithFields.

(** ** [LoadDocumentWithFields.process] and [load_doc] *)

Module LoadProcess.
Import LoadDocumentWithFields.

Section Process.
Context {value json : Type}.
Variable lower : string -> string.
Variable extract_from_possible_value_text : field -> string -> result (option value).
Variable field_value_python_to_json : field -> value -> result json.
Variable unable_to_cast_msg : field_input -> field -> string.
(** [file_storage.list_documents(path)]. *)
Variable list_documents : string -> list string.
(** The [transaction.atomic()] block of [load_doc]: saving the document and
    its metadata, [update_field_value_with_dto] for every field, and field
    detection or the document-changed signal; it completes or raises. *)
Variable store_document : document -> gmap string json -> bool -> result unit.

(** What the task leaves behind, in order. *)
Inductive event : Type :=
| Warned (w : warning)
| LoadedDocument (doc : document) (fields_to_values : gmap string json)
    (run_detect_field_values : bool)
| CreateDocumentSubTask (uri : string) (project_id : Z) (run_detect_field_values : bool).

(** The [Project] table (a project has a key and a document type) and the
    events. *)
Record world : Type := mkWorld {
  projects : gmap Z (option document_type);
  events : list event
}.

Definition emit (es : list event) : M world unit :=
  modify (fun w => {| projects := projects w; events := events w ++ es |}).

(** [Project.objects.get(pk=...)], read for its type. *)
Definition get_project (pk : Z) : M world (option document_type) :=
  fun w => match projects w !! pk with
           | Some ty => (Ok ty, w)
           | None => (Raise DoesNotExist, w)
           end.

(** [load_doc(task, document, field_values_alias_to_value,
    run_detect_field_values)], with [ignore_parsing_errors] at its default
    [False]. *)
Definition load_doc (doc : document) (field_values_alias_to_value : list (string * field_input))
    (run_detect_field_values : bool) : M world unit :=
  let! loaded :=
    lift (load_field_values lower extract_from_possible_value_text
            field_value_python_to_json unable_to_cast_msg doc
            field_values_alias_to_value false) in
  run! emit (map Warned loaded.2) in
  let! _ := lift (store_document doc loaded.1 run_detect_field_values) in
  emit [LoadedDocument doc loaded.1 run_detect_field_values].

(** Modelled from the spec: [run_sub_tasks] of [ExtendedTask]
    ([apps/task/tasks.py]) is not part of this file set.  It starts one
    queued sub-task per argument tuple, in order. *)
Definition run_sub_tasks (load_docs_args : list (string * Z * bool)) : M world unit :=
  emit (map (fun a => CreateDocumentSubTask a.1.1 a.1.2 a.2) load_docs_args).

(** The keyword arguments: [document_fields] after [or {}], in dict order;
    [source_data] is [None] here when the key is missing, which
    [kwargs['source_data']] answers with [KeyError]. *)
Record kwargs : Type := mkKwargs {
  document_name : option string;
  project_id : Z;
  run_detect_field_values : bool;
  document_fields : list (string * field_input);
  source_data : option (option string)
}.

(** [if path:] on an optional string. *)
Definition truthy_path (p : option string) : option string :=
  match p with
  | Some s => if decide (s = "") then None else Some s
  | None => None
  end.

Definition process (kw : kwargs) : M world unit :=
  let! project_type := get_project (project_id kw) in
  run! (match document_fields kw with
        | [] => ret tt
        | _ :: _ =>
            load_doc (mkDocument (document_name kw) (project_id kw) project_type)
              (document_fields kw) (run_detect_field_values kw)
        end) in
  let! path := lift (match source_data kw with
                     | Some p => Ok p
                     | None => Raise (KeyError "source_data")
                     end) in
  match truthy_path path with
  | None => ret tt
  | Some path =>
      let file_list := list_documents path in
      if decide (length file_list = 0%nat) then
        raise (RuntimeError ("Wrong file or directory name or directory is empty: " +:+ path))
      else
        run_sub_tasks (map (fun file_path =>
                              (file_path, project_id kw, run_detect_field_values kw))
                           file_list)
  end.
End Process.

End LoadProcess.

(** ** [identify_document_classes] *)

Module IdentifyClasses.

(** A [Document] row, with the columns the task reads or sets. *)
Record document : Type := mkDocument {
  doc_pk : Z;
  doc_name : string;
  doc_document_class : option string;
  doc_type_code : string;
  doc_project_id : Z;
  doc_full_text : option string
}.

Definition set_document_class (c : string) (doc : document) : document :=
  {| doc_pk := doc_pk doc;
     doc_name := doc_name doc;
     doc_document_class := Some c;
     doc_type_code := doc_type_code doc;
     doc_project_id := doc_project_id doc;
     doc_full_text := doc_full_text doc |}.

Section Task.
(** The values kept in the JSON dict [DocumentMetadata.metadata]; a
    probability is one of them. *)
Context {json : Type}.
(** [DocumentClass.CONTRACT], [DocumentClass.GENERIC] and
    [DOC_METADATA_DOCUMENT_CLASS_PROB], defined outside this file set. *)
Variable CONTRACT GENERIC DOC_METADATA_DOCUMENT_CLASS_PROB : string.
(** lexnlp's [is_contract(text, return_probability=True)]: a pair, a result
    that [if not res:] rejects, or an exception. *)
Variable is_contract : string -> result (option (bool * json)).

Inductive event : Type :=
| ProgressSaved (progress : Z)
| CacheDocumentFields (doc : document).

(** The [Document] table in query order, the [DocumentMetadata] rows by
    document id, the progress of the task row, and the calls made. *)
Record world : Type := mkWorld {
  documents : list document;
  metadata : gmap Z (gmap string json);
  progress : Z;
  events : list event
}.

Definition emit (e : event) : M world unit :=
  modify (fun w => {| documents := documents w; metadata := metadata w;
                      progress := progress w; events := events w ++ [e] |}).

(** Python's [round(n / d)] for non-negative [n] and positive [d]: to the
    nearest integer, ties to the even one. *)
Definition py_round_div (n d : Z) : Z :=
  let q := n / d in
  let r := n mod d in
  if 2 * r <? d then q
  else if d <? 2 * r then q + 1
  else if Z.even q then q else q + 1.

(** [if new_task_progress != task.task.progress: ...; task.task.save()]. *)
Definition report_progress (counter total : Z) : M world unit :=
  let! w := get in
  let new_task_progress := py_round_div (counter * 100) total in
  if decide (new_task_progress <> progress w) then
    run! modify (fun w => {| documents := documents w; metadata := metadata w;
                             progress := new_task_progress; events := events w |}) in
    emit (ProgressSaved new_task_progress)
  else ret tt.

(** [DocumentMetadata.objects.get(document_id=doc.pk)]: the ORM's [get]
    raises [DoesNotExist] when there is no row. *)
Definition get_metadata (document_id : Z) : M world (gmap string json) :=
  fun w => match metadata w !! document_id with
           | Some meta => (Ok meta, w)
           | None => (Raise DoesNotExist, w)
           end.

(** [meta.metadata[key] = value; meta.save()]. *)
Definition save_metadata (document_id : Z) (meta : gmap string json) : M world unit :=
  modify (fun w => {| documents := documents w;
                      metadata := <[document_id := meta]> (metadata w);
                      progress := progress w; events := events w |}).

(** The three [filter] steps on [Document.objects.all()]. *)
Definition select_documents (document_type_code : option string) (force_recheck : bool)
    (project_id : option Z) (docs : list document) : list document :=
  let docs :=
    if negb force_recheck
    then filter (fun doc => doc_document_class doc = Some "" \/ doc_document_class doc = None) docs
    else docs in
  let docs :=
    match document_type_code with
    | Some code => if decide (code = "") then docs
                   else filter (fun doc => doc_type_code doc = code) docs
    | None => docs
    end in
  match project_id with
  | Some pid => if decide (pid = 0) then docs
                else filter (fun doc => doc_project_id doc = pid) docs
  | None => docs
  end.

(** The body of [for doc in docs], from the call of [is_contract] on; it
    returns the document object as the iteration leaves it.  The source
    follows [get] with [if not meta: meta = DocumentMetadata(...)]; [get]
    returns a row or raises, so that branch has nothing to model. *)
Definition classify (doc : document) : M world document :=
  let doc_text := default "" (doc_full_text doc) in
  match is_contract doc_text with
  | Raise _ => ret doc
  | Ok None => ret doc
  | Ok (Some res) =>
      let! meta := get_metadata (doc_pk doc) in
      let doc := set_document_class (if res.1 then CONTRACT else GENERIC) doc in
      run! save_metadata (doc_pk doc) (<[DOC_METADATA_DOCUMENT_CLASS_PROB := res.2]> meta) in
      run! emit (CacheDocumentFields doc) in
      ret doc
  end.

(** The loop, with [counter] and [total]. *)
Fixpoint classify_all (counter total : Z) (docs : list document) : M world (list document) :=
  match docs with
  | [] => ret []
  | doc :: docs' =>
      run! report_progress counter total in
      let! doc := classify doc in
      let! rest := classify_all (counter + 1) total docs' in
      ret (doc :: rest)
  end.

(** [identify_document_classes(task, document_type_code, force_recheck,
    project_id)]; it returns the document objects of the loop.  Log lines
    and the two totals that are only logged are not modelled. *)
Definition identify_document_classes (document_type_code : option string)
    (force_recheck : bool) (project_id : option Z) : M world (list document) :=
  let! w := get in
  let docs := select_documents document_type_code force_recheck project_id (documents w) in
  let total := Z.of_nat (length docs) in
  classify_all 0 total docs.
End Task.

End IdentifyClasses.

(** ** Predicates of the statements below *)

(** Computations of [ImportDocumentType] that leave the cache of uploaded
    files alone. *)
Definition keeps_cache {DB A : Type} (m : M (@ImportDocumentType.world DB) A) : Prop :=
  forall w, ImportDocumentType.db_cache (m w).2 = ImportDocumentType.db_cache w.

(** The training state after [delete(); save()], and the key the new row
    gets. *)
Definition replaced (field : Training.DocumentField) (m : Training.ClassifierModel)
    (d : Training.db) : Training.db :=
  Training.set_classifier_models
    (fun t => <[Training.fresh_pk
                  (filter (fun kv => Training.cm_document_field kv.2 <> Training.df_uid field) t)
                := m]>
                (filter (fun kv => Training.cm_document_field kv.2 <> Training.df_uid field) t)) d.

Definition replaced_pk (field : Training.DocumentField) (d : Training.db) : Z :=
  Training.fresh_pk
    (filter (fun kv => Training.cm_document_field kv.2 <> Training.df_uid field)
            (Training.classifier_models d)).

(** The classifier models of [field] in [d'] are those of [d] with every row
    of the field deleted and [m] inserted: the field has exactly [m]. *)
Definition model_replaced (field : Training.DocumentField) (m : Training.ClassifierModel)
    (d d' : Training.db) : Prop :=
  Training.classifier_models d'
  = <[replaced_pk field d := m]>
      (filter (fun kv => Training.cm_document_field kv.2 <> Training.df_uid field)
              (Training.classifier_models d))
  /\ Training.models_of_field (Training.df_uid field) d' = {[replaced_pk field d := m]}.

(** The invariant of the loop of [join_field_detector_model_tests]: matches
    never exceed totals, overall and per value, and a value has a total only
    once it was counted. *)
Definition counters_ok (c : JoinTests.counters) : Prop :=
  (JoinTests.match_number c <= JoinTests.test_doc_number c)%nat
  /\ (forall v, (default 0 (JoinTests.matches_per_value c !! v)
                 <= default 0 (JoinTests.total_per_value c !! v))%nat)
  /\ (forall v t, JoinTests.total_per_value c !! v = Some t -> (1 <= t)%nat).

(** An entry of the incoming dict whose extraction raises. *)
Definition entry_raises {value json : Type} (lower : string -> string)
    (extract : LoadDocumentWithFields.field -> string -> result (option value))
    (to_json : LoadDocumentWithFields.field -> value -> result json)
    (dt : LoadDocumentWithFields.document_type)
    (entry : string * LoadDocumentWithFields.field_input) : Prop :=
  exists f e, LoadDocumentWithFields.resolve lower dt entry.1 = Some f
              /\ LoadDocumentWithFields.extract_entry extract to_json f entry.2 = Raise e.

(** An entry that cannot set the field [uid]: a [None] value, or an alias of
    another field or of none. *)
Definition entry_misses (lower : string -> string) (dt : LoadDocumentWithFields.document_type)
    (uid : string) (entry : string * LoadDocumentWithFields.field_input) : Prop :=
  entry.2 = LoadDocumentWithFields.VNone
  \/ forall g, LoadDocumentWithFields.resolve lower dt entry.1 = Some g ->
               LoadDocumentWithFields.f_uid g <> uid.

(** What the loop of [identify_document_classes] does to one document. *)
Definition classified {json : Type} (CONTRACT GENERIC : string)
    (is_contract : string -> result (option (bool * json)))
    (doc doc' : IdentifyClasses.document) : Prop :=
  match is_contract (default "" (IdentifyClasses.doc_full_text doc)) with
  | Ok (Some res) =>
      doc' = IdentifyClasses.set_document_class (if res.1 then CONTRACT else GENERIC) doc
  | _ => doc' = doc
  end.

(** A small instance: one integer field [amount] with the alias [total]. *)
Module LoadExample.
Import LoadDocumentWithFields.

Definition amount : field := mkField "u1" "amount".
Definition lease : document_type := mkDocumentType "lease" (Some [("total", "amount")]) [amount].
Definition doc : document := mkDocument (Some "lease-17.json") 1 (Some lease).

Definition extract (_ : field) (text : string) : result (option Z) :=
  if decide (text = "42") then Ok (Some 42)
  else if decide (text = "") then Ok None
  else Raise ValueError.

Definition to_json (_ : field) (v : Z) : result Z := Ok v.

Definition cast_msg (_ : field_input) (f : field) : string :=
  "Unable to cast value to the target type of " +:+ f_code f.

Definition load := load_field_values (fun s => s) extract to_json cast_msg doc.
End LoadExample.

(** ** Predicates of the further properties *)

(** In the temporary directory of [ExportDocuments.process] only [os.mkdir]
    writes under a subfolder name, and it writes a directory. *)
Definition subfolders_are_dirs (d : gmap ExportDocuments.tmp_name ExportDocuments.tmp_entry)
    : Prop :=
  forall a e, d !! ExportDocuments.SubFolder a = Some e -> e = ExportDocuments.Dir.

(** The test documents [TrainAndTest.process] selects in state [d]. *)
Definition test_document_ids_of
    (documents_of_projects : Training.db -> list Z -> string -> list Z)
    (active_modified_ids : Training.db -> Training.DocumentField -> list Z -> list Z)
    (finished_ids : Training.db -> string -> list Z -> list Z)
    (kwargs : Training.train_and_test_kwargs) (field : Training.DocumentField)
    (d : Training.db) : list Z :=
  let projects := default [] (Training.test_data_projects_ids kwargs) in
  if negb (Training.use_only_confirmed_field_values_for_testing kwargs)
  then documents_of_projects d projects (Training.df_document_type field)
  else remove_dups (active_modified_ids d field projects
                    ++ finished_ids d (Training.df_document_type field) projects).

(** Reading the collected test results: whether a result matched, the
    choice value it reports (if any), and its text units. *)
Definition result_matches (r : option JoinTests.test_result) : bool :=
  match r with Some res => JoinTests.value_matches_expected res | None => false end.

Definition result_value (r : option JoinTests.test_result) : option string :=
  match r with Some res => JoinTests.truthy_str (JoinTests.actual_field_value res) | None => None end.

Definition result_units (r : option JoinTests.test_result) : Z :=
  match r with Some res => default 0 (JoinTests.text_units_number res) | None => 0 end.

(** How many results report the value [v], and how many of them matched. *)
Definition count_value (v : string) (results : list (option JoinTests.test_result)) : nat :=
  length (filter (fun r => result_value r = Some v) results).

Definition count_value_matches (v : string) (results : list (option JoinTests.test_result))
    : nat :=
  length (filter (fun r => result_value r = Some v /\ result_matches r = true) results).

(** ** [LoadDocumentWithFields.create_document] *)

Module CreateDocument.
Import LoadDocumentWithFields.

Section CreateDocument.
Context {value json : Type}.
Variable lower : string -> string.
Variable extract_from_possible_value_text : field -> string -> result (option value).
Variable field_value_python_to_json : field -> value -> result json.
Variable unable_to_cast_msg : field_input -> field -> string.
Variable store_document : document -> gmap string json -> bool -> result unit.
(** [file_storage.get_document_as_local_fn(uri)] and [json.loads] of what the
    local file holds: the file's name and the parsed dict, or the exception
    of a missing file or of text that is not JSON.  The text is taken to
    hold a JSON object, which is what [load_field_values] iterates over. *)
Variable read_json : string -> result (string * list (string * field_input)).

Definition create_document (uri : string) (project_id : Z) (run_detect_field_values : bool)
    : M (@LoadProcess.world json) unit :=
  let! file := lift (read_json uri) in
  let! document_type := LoadProcess.get_project project_id in
  LoadProcess.load_doc lower extract_from_possible_value_text field_value_python_to_json
    unable_to_cast_msg store_document
    (mkDocument (Some file.1) project_id document_type) file.2 run_detect_field_values.
End CreateDocument.

End CreateDocument.

(** ** [process_documents_status_changed] and its sub-tasks *)

Module StatusSubTasks.
Import StatusChanged.

Section SubTasks.
(** [apps.document.constants.DOC_NUMBER_PER_SUB_TASK]; the constants module
    is not part of this file set. *)
Variable DOC_NUMBER_PER_SUB_TASK : nat.

(** Modelled from the spec: [run_sub_tasks] of [ExtendedTask]
    ([apps/task/tasks.py]) is not part of this file set.  It starts one
    sub-task per argument tuple; the task is modelled by the tuples it hands
    over, in order. *)
Definition process_documents_status_changed (doc_ids : list Z) (new_status_id : Z)
    (changed_by_user_id : option Z) : list (list Z * Z * option Z) :=
  map (fun l => (l, new_status_id, changed_by_user_id))
      (chunks doc_ids DOC_NUMBER_PER_SUB_TASK).
End SubTasks.

(** The started sub-tasks, executed one after the other in the order they
    were started. *)
Definition run_sub_tasks (args : list (list Z * Z * option Z)) : M world unit :=
  for_each args (fun a => _process_documents_status_changed a.1.1 a.1.2 a.2).

(** The documents named by the status-changed signals among some events,
    and the documents [delete_hidden_field_values_if_needed] was called
    for. *)
Definition fired_documents (es : list event) : list Z :=
  flat_map (fun e => match e with
                     | FireDocumentsStatusChanged docs _ _ => docs
                     | DeleteHiddenFieldValuesIfNeeded _ => []
                     end) es.

Definition hidden_values_deleted (es : list event) : list Z :=
  flat_map (fun e => match e with
                     | DeleteHiddenFieldValuesIfNeeded doc => [doc]
                     | FireDocumentsStatusChanged _ _ _ => []
                     end) es.

Definition signals (es : list event) : nat :=
  length (flat_map (fun e => match e with
                             | FireDocumentsStatusChanged _ _ _ => [e]
                             | DeleteHiddenFieldValuesIfNeeded _ => []
                             end) es).

(** The calls of one sub-task for the chunk [c], over the [Document] keys
    [docs]. *)
Definition chunk_events (docs : list Z) (is_active : bool) (new_status_id : Z)
    (user : option Z) (c : list Z) : list event :=
  (if is_active then []
   else map DeleteHiddenFieldValuesIfNeeded (filter (fun pk => pk ∈ c) docs))
  ++ [FireDocumentsStatusChanged (filter (fun pk => pk ∈ c) docs) new_status_id user].

End StatusSubTasks.

(** ** [_process_documents_assignee_changed] and
    [process_documents_assignee_changed] *)

Module AssigneeChanged.

Inductive event : Type :=
| FireDocumentsAssigneeChanged (doc_ids : list Z) (new_assignee_id : option Z)
    (changed_by_user : option Z).

(** The keys of [User] and the signals sent. *)
Record world : Type := mkWorld {
  users : gset Z;
  events : list event
}.

Definition emit (e : event) : M world unit :=
  modify (fun w => {| users := users w; events := events w ++ [e] |}).

(** [User.objects.get(pk=...) if pk is not None else None]. *)
Definition get_changed_by_user (changed_by_user_id : option Z) : M world (option Z) :=
  fun w => match changed_by_user_id with
           | None => (Ok None, w)
           | Some pk => if decide (pk ∈ users w) then (Ok (Some pk), w)
                        else (Raise DoesNotExist, w)
           end.

Definition _process_documents_assignee_changed (doc_ids : list Z)
    (new_assignee_id : option Z) (changed_by_user_id : option Z) : M world unit :=
  let! changed_by_user := get_changed_by_user changed_by_user_id in
  emit (FireDocumentsAssigneeChanged doc_ids new_assignee_id changed_by_user).

Section SubTasks.
Variable DOC_NUMBER_PER_SUB_TASK : nat.

(** Modelled from the spec: [run_sub_tasks], as for the status change. *)
Definition process_documents_assignee_changed (doc_ids : list Z)
    (new_assignee_id : option Z) (changed_by_user_id : option Z)
    : list (list Z * option Z * option Z) :=
  map (fun l => (l, new_assignee_id, changed_by_user_id))
      (chunks doc_ids DOC_NUMBER_PER_SUB_TASK).
End SubTasks.

Definition run_sub_tasks (args : list (list Z * option Z * option Z)) : M world unit :=
  for_each args (fun a => _process_documents_assignee_changed a.1.1 a.1.2 a.2).

(** The document ids named by the signals, in order. *)
Definition signalled_doc_ids (es : list event) : list Z :=
  flat_map (fun e => match e with FireDocumentsAssigneeChanged ids _ _ => ids end) es.

End AssigneeChanged.

(** ** Predicates for [identify_document_classes] *)

Module IdentifyFigures.
Import IdentifyClasses.

(** The progress values written to the task row among some calls are
    percentages. *)
Definition progress_in_range (es : list event) : Prop :=
  Forall (fun e => match e with
                   | ProgressSaved p => 0 <= p <= 100
                   | CacheDocumentFields _ => True
                   end) es.

(** The documents handed to [cache_document_fields], in order. *)
Definition cached_documents (es : list event) : list document :=
  flat_map (fun e => match e with
                     | CacheDocumentFields doc => [doc]
                     | ProgressSaved _ => []
                     end) es.

(** The metadata dict of a document after its iteration of the loop. *)
Definition stored_metadata {json : Type} (PROB_KEY : string)
    (is_contract : string -> result (option (bool * json)))
    (doc : document) (meta : gmap string json) : gmap string json :=
  match is_contract (default "" (doc_full_text doc)) with
  | Ok (Some res) => <[PROB_KEY := res.2]> meta
  | _ => meta
  end.

(** The documents of a list for which [is_contract] gives a result, with
    the class that result sets. *)
Definition with_result {json : Type} (CONTRACT GENERIC : string)
    (is_contract : string -> result (option (bool * json)))
    (docs : list document) : list document :=
  flat_map (fun doc => match is_contract (default "" (doc_full_text doc)) with
                       | Ok (Some res) =>
                           [set_document_class (if res.1 then CONTRACT else GENERIC) doc]
                       | _ => []
                       end) docs.

End IdentifyFigures.

(** ** [ImportCSVFieldDetectionConfig] *)

Module ImportCSVFieldDetectionConfig.
Section Process.
(** The relational database and a [DocumentField] row, which only the
    collaborators below look into. *)
Context {DB DocumentField : Type}.

Record world : Type := World {
  db_cache : gmap string ExportDocuments.bytes;
  db : DB
}.

Definition set_db_cache (f : gmap string ExportDocuments.bytes -> gmap string ExportDocuments.bytes)
    (w : world) : world :=
  {| db_cache := f (db_cache w); db := db w |}.
Definition set_db (d : DB) (w : world) : world :=
  {| db_cache := db_cache w; db := d |}.

(** The flags handed on to [CsvDetectorImporter]. *)
Record options : Type := mkOptions {
  drop_previous_field_detectors : bool;
  update_field_choice_values : bool;
  csv_contains_regexps : bool;
  selected_columns : option string;
  wrap_in_wordbreaks : bool;
  save_in_csv_format : bool
}.

(** [DocumentField.objects.get(pk=...)]: [None] when there is no row. *)
Variable get_document_field : string -> DB -> option DocumentField.
(** [CsvDetectorImporter(log, document_field, ...).process_csv(csv_bytes)]:
    works on the database, or raises. *)
Variable process_csv : DocumentField -> options -> option ExportDocuments.bytes -> DB
                       -> result unit * DB.

(** [d[key]] on a dict argument. *)
Definition item (d : gmap string string) (key : string) : result string :=
  match d !! key with
  | Some v => Ok v
  | None => Raise (KeyError key)
  end.

Definition process (document_field config_csv_file : gmap string string) (opts : options)
    : M world unit :=
  try_finally
    (let! pk := lift (item document_field "pk") in
     let! w := get in
     let! document_field :=
       lift (match get_document_field pk (db w) with
             | Some f => Ok f
             | None => Raise DoesNotExist
             end) in
     let! key := lift (item config_csv_file "cache_key") in
     let csv_bytes := DbCache.get key (db_cache w) in
     fun w => let '(r, d) := process_csv document_field opts csv_bytes (db w) in
              (r, set_db d w))
    (let! key := lift (item config_csv_file "cache_key") in
     modify (set_db_cache (DbCache.clean_cache key))).
End Process.
End ImportCSVFieldDetectionConfig.

(** ** [FindBrokenDocumentFieldValues] *)

Module FindBrokenDocumentFieldValues.

(** The two model classes the task checks. *)
Inductive model : Type := FieldValue | FieldAnnotation.

Section Task.
Context {Field Json : Type}.

(** A [FieldValue] or [FieldAnnotation] object, with what the task reads. *)
Record object : Type := mkObject {
  obj_class : model;
  obj_pk : Z;
  obj_field : Field;
  obj_value : Json
}.

(** The line [process_broken] logs: the class, the id, and whether the
    object was deleted (otherwise the line gives its admin URL). *)
Inductive event : Type :=
| FoundBroken (cls : model) (pk : Z) (deleted : bool).

(** The two tables, by key, and the log. *)
Record world : Type := mkWorld {
  field_values : gmap Z (Field * Json);
  annotations : gmap Z (Field * Json);
  log : list event
}.

(** [TypedField.by(field).is_json_field_value_ok(value)] and
    [is_json_annotation_value_ok]. *)
Variable is_json_field_value_ok : Field -> Json -> bool.
Variable is_json_annotation_value_ok : Field -> Json -> bool.
(** The queries of [DocumentFieldRepository] (not part of this file set):
    the rows for a list of ids, and the ids for a document field. *)
Variable get_field_values_by_ids : list Z -> gmap Z (Field * Json) -> list (Z * (Field * Json)).
Variable get_ants_by_ids : list Z -> gmap Z (Field * Json) -> list (Z * (Field * Json)).
Variable get_field_value_ids_by_doc_field : option Z -> gmap Z (Field * Json) -> list Z.
Variable get_fieldant_ids_by_doc_field : option Z -> gmap Z (Field * Json) -> list Z.

(** [obj.delete()]. *)
Definition delete_object (obj : object) : M world unit :=
  modify (fun w =>
    match obj_class obj with
    | FieldValue => {| field_values := delete (obj_pk obj) (field_values w);
                       annotations := annotations w; log := log w |}
    | FieldAnnotation => {| field_values := field_values w;
                            annotations := delete (obj_pk obj) (annotations w);
                            log := log w |}
    end).

Definition log_info (e : event) : M world unit :=
  modify (fun w => {| field_values := field_values w; annotations := annotations w;
                      log := log w ++ [e] |}).

Definition process_broken (obj : object) (delete_broken : bool) : M world unit :=
  if delete_broken then
    run! delete_object obj in
    log_info (FoundBroken (obj_class obj) (obj_pk obj) true)
  else
    log_info (FoundBroken (obj_class obj) (obj_pk obj) false).

Definition check_annotations (annotation_ids : list Z) (delete_broken : bool) : M world unit :=
  let! w := get in
  let qa_ants := get_ants_by_ids annotation_ids (annotations w) in
  for_each qa_ants (fun row =>
    let ant := mkObject FieldAnnotation row.1 row.2.1 row.2.2 in
    if negb (is_json_annotation_value_ok (obj_field ant) (obj_value ant))
    then process_broken ant delete_broken
    else ret tt).

Definition check_field_values (field_value_ids : list Z) (delete_broken : bool) : M world unit :=
  let! w := get in
  let qa_field_values := get_field_values_by_ids field_value_ids (field_values w) in
  for_each qa_field_values (fun row =>
    let fv := mkObject FieldValue row.1 row.2.1 row.2.2 in
    if negb (is_json_field_value_ok (obj_field fv) (obj_value fv))
    then process_broken fv delete_broken
    else ret tt).

(** The sub-tasks [process] starts. *)
Inductive sub_task : Type :=
| CheckFieldValues (id_list : list Z) (delete_broken : bool)
| CheckAnnotations (id_list : list Z) (delete_broken : bool).

(** [document_field_arg['pk'] if document_field_arg else None]: an absent or
    empty dict gives [None]. *)
Definition document_field_id_of (document_field_arg : option (gmap string Z))
    : result (option Z) :=
  match document_field_arg with
  | None => Ok None
  | Some d => if decide (d = ∅) then Ok None
              else match d !! "pk" with
                   | Some pk => Ok (Some pk)
                   | None => Raise (KeyError "pk")
                   end
  end.

(** Modelled from the spec: [run_sub_tasks] of [ExtendedTask]
    ([apps/task/tasks.py]) is not part of this file set.  It starts one
    sub-task per argument tuple; [process] is modelled by the sub-tasks it
    starts, in order. *)
Definition process (document_field_arg : option (gmap string Z)) (delete_broken : bool)
    (w : world) : result (list sub_task) :=
  match document_field_id_of document_field_arg with
  | Raise e => Raise e
  | Ok document_field_id =>
      let qs_field_values :=
        get_field_value_ids_by_doc_field document_field_id (field_values w) in
      let qs_ants := get_fieldant_ids_by_doc_field document_field_id (annotations w) in
      Ok (map (fun id_list => CheckFieldValues id_list delete_broken)
              (chunks qs_field_values 100)
          ++ map (fun id_list => CheckAnnotations id_list delete_broken)
                 (chunks qs_ants 100))
  end.

(** The started sub-tasks, executed one after the other in the order they
    were started. *)
Definition run_sub_task (st : sub_task) : M world unit :=
  match st with
  | CheckFieldValues id_list delete_broken => check_field_values id_list delete_broken
  | CheckAnnotations id_list delete_broken => check_annotations id_list delete_broken
  end.

Definition run_sub_tasks (sts : list sub_task) : M world unit :=
  for_each sts run_sub_task.

(** The rows of a list that fail a validator, and their keys. *)
Definition broken_rows (ok : Field -> Json -> bool) (rows : list (Z * (Field * Json)))
    : list (Z * (Field * Json)) :=
  filter (fun row => ok row.2.1 row.2.2 = false) rows.

(** [rows_by_ids get]: the query [get] returns the rows of the table whose
    key is among the ids. *)
Definition rows_by_ids
    (get : list Z -> gmap Z (Field * Json) -> list (Z * (Field * Json))) : Prop :=
  forall ids t pk x, (pk, x) ∈ get ids t <-> t !! pk = Some x /\ pk ∈ ids.

(** The table of a class, and a table without some keys. *)
Definition table (cls : model) (w : world) : gmap Z (Field * Json) :=
  match cls with
  | FieldValue => field_values w
  | FieldAnnotation => annotations w
  end.

Definition delete_keys (pks : list Z) (t : gmap Z (Field * Json)) : gmap Z (Field * Json) :=
  foldl (fun t pk => delete pk t) t pks.

(** What a check of the rows [rows] of class [cls] leaves behind: one log
    line per broken row, in order; the other table as it was; the table of
    [cls] as it was without [delete_broken], and without exactly the broken
    rows with it. *)
Definition checked (cls : model) (ok : Field -> Json -> bool)
    (rows : list (Z * (Field * Json))) (delete_broken : bool) (w w' : world) : Prop :=
  log w' = log w ++ map (fun row => FoundBroken cls row.1 delete_broken) (broken_rows ok rows)
  /\ (forall c, c <> cls -> table c w' = table c w)
  /\ (delete_broken = false -> table cls w' = table cls w)
  /\ (delete_broken = true ->
      forall pk, table cls w' !! pk
                 = if decide (pk ∈ (broken_rows ok rows).*1) then None
                   else table cls w !! pk).

(** The rows of [t'] are the rows of [t] except the broken ones among the
    keys [ids]. *)
Definition only_valid_left (ok : Field -> Json -> bool) (ids : list Z)
    (t t' : gmap Z (Field * Json)) : Prop :=
  forall pk x, t' !! pk = Some x <-> t !! pk = Some x /\ (pk ∈ ids -> ok x.1 x.2 = true).
End Task.
End FindBrokenDocumentFieldValues.

(** ** [TrainDirtyDocumentFieldDetectorModel.process] *)

Module TrainDirty.
Import Training.

Section Process.
Variable train_document_field_detector_model :
  db -> DocumentField -> option (list Z) -> train_options -> result (option ClassifierModel).
Variable can_retrain : DocumentField -> bool.
Variable get_approved_documents_number : db -> DocumentField -> Z.
(** [DocumentField.objects.get_dirty_fields()]; the manager is not part of
    this file set. *)
Variable get_dirty_fields : db -> list DocumentField.

(** Modelled from the spec: [run_sub_tasks] of [ExtendedTask]
    ([apps/task/tasks.py]) is not part of this file set.  It starts one
    sub-task per argument tuple; [process] is modelled by the keys it hands
    over, in order. *)
Definition process (d : db) : list string :=
  match get_dirty_fields d with
  | [] => []
  | _ :: _ => map df_uid (get_dirty_fields d)
  end.

(** The started sub-tasks, executed one after the other in the order they
    were started; each one runs whether or not the ones before it raised. *)
Definition run_sub_tasks (args : list string) (d : db) : db :=
  foldl (fun d dirty_field_id =>
           (train_model_for_dirty_field train_document_field_detector_model can_retrain
              get_approved_documents_number dirty_field_id d).2) d args.
End Process.
End TrainDirty.

(** ** Properties of [chunks] *)

Section ChunksFacts.
Context {A : Type}.
Implicit Types (l : list A) (n fuel : nat).

Lemma chunks_fuel_concat n fuel l :
  (0 < n)%nat -> (length l <= fuel)%nat -> concat (chunks_fuel fuel l n) = l.
Proof.
  intros Hn. revert l. induction fuel as [|fuel IH]; intros l Hl.
  - destruct l; simpl in *; [done | lia].
  - destruct l as [|x l']; [done |].
    cbn [chunks_fuel concat]. rewrite IH.
    + apply take_drop.
    + rewrite length_drop. simpl in *. lia.
Qed.

Lemma chunks_fuel_bounds n fuel l :
  (0 < n)%nat ->
  Forall (fun c => (0 < length c <= n)%nat) (chunks_fuel fuel l n).
Proof.
  intros Hn. revert l. induction fuel as [|fuel IH]; intros l; [constructor |].
  destruct l as [|x l']; [constructor |].
  cbn [chunks_fuel]. constructor; [| apply IH].
  rewrite length_take. simpl. lia.
Qed.

(** All chunks but the last are full. *)
Lemma chunks_fuel_full n fuel l c cs :
  (0 < n)%nat -> (length l <= fuel)%nat ->
  chunks_fuel fuel l n = c :: cs -> cs <> [] -> length c = n.
Proof.
  intros Hn Hl. destruct fuel as [|fuel]; [done |].
  destruct l as [|x l']; [done |]. cbn [chunks_fuel].
  intros [= <- <-] Hcs. rewrite length_take.
  destruct (decide (n <= length (x :: l'))%nat) as [|Hlt]; [lia |].
  exfalso. apply Hcs. rewrite drop_ge by lia. by destruct fuel.
Qed.

Lemma chunks_concat l n : (0 < n)%nat -> concat (chunks l n) = l.
Proof. intros. by apply chunks_fuel_concat. Qed.

Lemma chunks_bounds l n :
  (0 < n)%nat -> Forall (fun c => (0 < length c <= n)%nat) (chunks l n).
Proof. intros. by apply chunks_fuel_bounds. Qed.
End ChunksFacts.

(** ** Planning: one queued task per chunk *)

Section PlanFacts.
Variable N : nat.

Lemma for_each_call_task_func f (packs : list (list Z)) new_id by_user (q : queue) :
  for_each packs (fun c => call_task_func f (c, new_id, by_user) by_user) q
  = (Ok tt, q ++ map (fun c => QueuedTask f c new_id by_user by_user) packs).
Proof.
  revert q. induction packs as [|c packs IH]; intros q; simpl.
  - by rewrite app_nil_r.
  - unfold bind, call_task_func, modify. rewrite IH. by rewrite <- app_assoc.
Qed.

Lemma concat_qt_doc_ids f (packs : list (list Z)) new_id by_user :
  concat (map qt_doc_ids (map (fun c => QueuedTask f c new_id by_user by_user) packs))
  = concat packs.
Proof. induction packs as [|c packs IH]; simpl; [done | by rewrite IH]. Qed.
End PlanFacts.

(** C1. With a positive chunk size, both planners start exactly one queued
    task per chunk of [chunks doc_ids DOC_NUMBER_PER_MAIN_TASK], in chunk
    order, after whatever was queued before; every chunk holds between one
    and [DOC_NUMBER_PER_MAIN_TASK] ids; and the document ids of the started
    tasks, read off in queue order, are the input sequence itself, so every
    id is queued exactly once and in its original order. *)
Theorem plan_process_documents_chunked
    (N : nat) (doc_ids : list Z) (new_id by_user : option Z) (q : queue) :
  (0 < N)%nat ->
  let packs := chunks doc_ids N in
  let started f := map (fun c => QueuedTask f c new_id by_user by_user) packs in
  plan_process_documents_status_changed N doc_ids new_id by_user q
    = (Ok tt, q ++ started process_documents_status_changed)
  /\ plan_process_documents_assignee_changed N doc_ids new_id by_user q
    = (Ok tt, q ++ started process_documents_assignee_changed)
  /\ Forall (fun c => (0 < length c <= N)%nat) packs
  /\ concat packs = doc_ids
  /\ concat (map qt_doc_ids (started process_documents_status_changed)) = doc_ids
  /\ concat (map qt_doc_ids (started process_documents_assignee_changed)) = doc_ids.
Proof.
  intros HN packs started.
  unfold plan_process_documents_status_changed, plan_process_documents_assignee_changed.
  rewrite !for_each_call_task_func. subst started. cbv beta.
  rewrite !concat_qt_doc_ids. subst packs.
  repeat split; auto using chunks_bounds, chunks_concat.
Qed.

Lemma plan_process_documents_chunked_witness :
  plan_process_documents_status_changed 2 [7; 3; 9; 4; 1] (Some 5) (Some 1) []
  = (Ok tt,
     [ QueuedTask process_documents_status_changed [7; 3] (Some 5) (Some 1) (Some 1);
       QueuedTask process_documents_status_changed [9; 4] (Some 5) (Some 1) (Some 1);
       QueuedTask process_documents_status_changed [1] (Some 5) (Some 1) (Some 1) ]).
Proof.
  pose proof (plan_process_documents_chunked 2 [7; 3; 9; 4; 1] (Some 5) (Some 1) []) as H.
  destruct H as [H _]; [lia |]. exact H.
Defined.

(** ** [ExportDocuments.process] *)

Section ExportFacts.
Import ExportDocuments.

Lemma foldl_min_lower x (l : list Z) : Forall (fun y => x <= y) l -> foldl Z.min x l = x.
Proof.
  induction 1 as [|y l Hy _ IH]; simpl; [done |].
  by rewrite Z.min_l.
Qed.

Lemma pmin_sorted x (l : list Z) : StronglySorted Z.le (x :: l) -> pmin (x :: l) = x.
Proof. intros H. apply StronglySorted_inv in H as [_ H]. by apply foldl_min_lower. Qed.

Lemma pmax_sorted x (l : list Z) :
  StronglySorted Z.le (x :: l) -> last (x :: l) = Some (pmax (x :: l)).
Proof.
  revert x. induction l as [|y l IH]; intros x H; [done |].
  apply StronglySorted_inv in H as [Hs Hx].
  change (last (y :: l) = Some (foldl Z.max (Z.max x y) l)).
  rewrite Z.max_r by (by inversion Hx). by apply IH.
Qed.

Lemma StronglySorted_concat_inv {A} (R : relation A) (ls : list (list A)) :
  StronglySorted R (concat ls) -> Forall (StronglySorted R) ls.
Proof.
  induction ls as [|l ls IH]; simpl; intros H; constructor.
  - by eapply StronglySorted_app_1_l.
  - apply IH. by eapply StronglySorted_app_1_r.
Qed.

(** Heads of the parts of a duplicate-free list are pairwise distinct. *)
Lemma NoDup_concat_heads (ls : list (list Z)) :
  Forall (fun p => p <> []) ls -> NoDup (concat ls) -> NoDup (map (hd 0) ls).
Proof.
  induction 1 as [|p ls Hp Hls IH]; simpl; intros Hnd; [constructor |].
  apply NoDup_app in Hnd as (_ & Hdisj & Hnd). constructor; [| by apply IH].
  destruct p as [|x p]; [done |]. simpl.
  intros Hin. apply (Hdisj x); [left |].
  apply list_elem_of_fmap in Hin as (q & -> & Hq).
  rewrite Forall_forall in Hls. specialize (Hls q Hq).
  destruct q as [|y q]; [done |].
  apply list_elem_of_In, in_concat. exists (y :: q).
  split; [by apply list_elem_of_In | by left].
Qed.

(** An element of a duplicate-free concatenation lies in one part only. *)
Lemma NoDup_concat_unique_part (ls : list (list Z)) i j p q x :
  NoDup (concat ls) -> ls !! i = Some p -> ls !! j = Some q ->
  x ∈ p -> x ∈ q -> i = j.
Proof.
  revert i j. induction ls as [|l ls IH]; intros i j Hnd Hi Hj Hp Hq; [done |].
  simpl in Hnd. apply NoDup_app in Hnd as (_ & Hdisj & Hnd).
  assert (Hsub : forall k r, ls !! k = Some r -> x ∈ r -> x ∈ concat ls).
  { intros k r Hk Hr. apply list_elem_of_In, in_concat. exists r.
    split; apply list_elem_of_In; [by eapply list_elem_of_lookup_2 | done]. }
  destruct i as [|i], j as [|j]; simpl in *; simplify_eq.
  - done.
  - exfalso. eapply Hdisj; [exact Hp | by eapply Hsub].
  - exfalso. eapply Hdisj; [exact Hq | by eapply Hsub].
  - f_equal. by eapply IH.
Qed.

Variable in_memory_export : list Z -> Z -> bool -> result bytes.
Variable export_files : bool.

Lemma export_pack_step (p : list Z) (d : tmp_dir) z :
  p <> [] -> d !! SubFolder (pmin p) = None ->
  in_memory_export p (pmin p) export_files = Ok z ->
  export_pack in_memory_export export_files p d
  = (Ok tt, <[PartZip (pmin p) (pmax p) := File z]> (<[SubFolder (pmin p) := Dir]> d)).
Proof.
  intros Hp Hd Hz. destruct p as [|x p]; [done |].
  unfold export_pack, py_min, py_max, bind, lift, mkdir, write_part, modify.
  by rewrite Hd, Hz.
Qed.

(** The loop over packs whose first ids are pairwise distinct: every part
    file is written and stays, nothing else changes. *)
Lemma export_packs_ok (packs : list (list Z)) (d : tmp_dir) :
  Forall (fun p => p <> []) packs ->
  Forall (fun p => is_ok (in_memory_export p (pmin p) export_files) = true) packs ->
  NoDup (map pmin packs) ->
  Forall (fun p => d !! SubFolder (pmin p) = None) packs ->
  exists d',
    for_each packs (export_pack in_memory_export export_files) d = (Ok tt, d')
    /\ (forall p z, p ∈ packs ->
          in_memory_export p (pmin p) export_files = Ok z ->
          d' !! PartZip (pmin p) (pmax p) = Some (File z))
    /\ (forall name, (forall p, p ∈ packs ->
                        name <> PartZip (pmin p) (pmax p) /\ name <> SubFolder (pmin p)) ->
          d' !! name = d !! name).
Proof.
  revert d. induction packs as [|p packs IH]; intros d Hne Hok Hnd Hfree.
  - exists d. split; [done |]. split; [| done]. intros p z Hp. by inversion Hp.
  - apply Forall_cons in Hne as [Hp Hne]. apply Forall_cons in Hok as [Hz Hok].
    apply Forall_cons in Hfree as [Hd Hfree].
    simpl in Hnd. apply NoDup_cons in Hnd as [Hfresh Hnd].
    destruct (in_memory_export p (pmin p) export_files) as [z|] eqn:Ez; [| done].
    set (d1 := <[PartZip (pmin p) (pmax p) := File z]> (<[SubFolder (pmin p) := Dir]> d)).
    assert (Hother : forall q, q ∈ packs -> pmin q <> pmin p).
    { intros q Hq Heq. apply Hfresh. rewrite <- Heq. by apply list_elem_of_fmap_2. }
    destruct (IH d1) as (d' & Hrun & Hparts & Hframe); [done | done | done | |].
    { rewrite Forall_forall in Hfree |- *. intros q Hq. subst d1.
      rewrite lookup_insert_ne by done.
      rewrite lookup_insert_ne by (intros [=]; by eapply Hother).
      by apply Hfree. }
    exists d'. split; [| split].
    + cbn [for_each]. unfold bind at 1.
      rewrite (export_pack_step p d z) by done. exact Hrun.
    + intros q zq Hq Hzq. apply elem_of_cons in Hq as [-> | Hq]; [| by eapply Hparts].
      rewrite Hframe.
      * subst d1. rewrite lookup_insert_eq. congruence.
      * intros r Hr. split; [| done]. intros [=]. by eapply Hother.
    + intros name Hname. rewrite Hframe.
      * destruct (Hname p) as [H1 H2]; [by left |]. subst d1.
        by rewrite !lookup_insert_ne.
      * intros r Hr. apply Hname. by right.
Qed.
End ExportFacts.

Section ExportProcess.
Import ExportDocuments.

Lemma pack_sorted_ends (p : list Z) :
  p <> [] -> StronglySorted Z.le p ->
  py_min p = Ok (pmin p) /\ py_max p = Ok (pmax p)
  /\ head p = Some (pmin p) /\ last p = Some (pmax p) /\ hd 0 p = pmin p.
Proof.
  intros Hp Hs. destruct p as [|x p]; [done |].
  pose proof (pmin_sorted x p Hs) as Hmin. pose proof (pmax_sorted x p Hs) as Hmax.
  repeat split; [by rewrite Hmin | done | by rewrite Hmin].
Qed.

Lemma zip_files_part (d : tmp_dir) a b z :
  d !! PartZip a b = Some (File z) -> zip_files d !! PartZip a b = Some z.
Proof. intros H. unfold zip_files. by rewrite lookup_omap, H. Qed.

(** What sorting and chunking give for a duplicate-free id list. *)
Lemma sorted_packs_facts (document_ids : list Z) :
  NoDup document_ids ->
  let sorted := merge_sort Z.le document_ids in
  let packs := chunks sorted DOC_PER_PACK in
  concat packs = sorted
  /\ Forall (fun p => (0 < length p <= DOC_PER_PACK)%nat) packs
  /\ Forall (fun p => p <> []) packs
  /\ Forall (StronglySorted Z.le) packs
  /\ NoDup (concat packs)
  /\ NoDup (map pmin packs).
Proof.
  intros Hnd sorted packs.
  assert (Hcat : concat packs = sorted) by (apply chunks_concat; unfold DOC_PER_PACK; lia).
  assert (Hb : Forall (fun p => (0 < length p <= DOC_PER_PACK)%nat) packs)
    by (apply chunks_bounds; unfold DOC_PER_PACK; lia).
  assert (Hne : Forall (fun p : list Z => p <> []) packs).
  { eapply Forall_impl; [exact Hb |]. intros [|x p] Hp; simpl in *; [lia | done]. }
  assert (Hss : Forall (StronglySorted Z.le) packs).
  { apply StronglySorted_concat_inv. rewrite Hcat. apply StronglySorted_merge_sort; apply _. }
  assert (Hndc : NoDup (concat packs)).
  { rewrite Hcat. subst sorted. by rewrite merge_sort_Permutation. }
  repeat split; try done.
  replace (map pmin packs) with (map (hd 0) packs); [by apply NoDup_concat_heads |].
  apply map_ext_in. intros p Hp%list_elem_of_In.
  rewrite Forall_forall in Hne, Hss. by apply pack_sorted_ends; auto.
Qed.
End ExportProcess.

(** C2 (as amended). For every list of pairwise distinct document ids,
    [ExportDocuments.process] sorts the ids ascending and exports the
    consecutive packs of one to [DOC_PER_PACK] = 10 ids of the sorted list;
    [min] of a pack is its first element and [max] its last; every id lies in
    exactly one pack; and, the exporter succeeding on each pack, the task
    writes one archive to the storage path, which holds the part
    [part_{first}_{last}.zip] of every pack with that pack's zipped bytes. *)
Theorem export_documents_process_packs
    (in_memory_export : list Z -> Z -> bool -> result ExportDocuments.bytes)
    (document_ids : list Z) (file_path : string) (export_files : bool)
    (st : gmap string (gmap ExportDocuments.tmp_name ExportDocuments.bytes)) :
  NoDup document_ids ->
  Forall (fun p => is_ok (in_memory_export p (ExportDocuments.pmin p) export_files) = true)
         (chunks (merge_sort Z.le document_ids) ExportDocuments.DOC_PER_PACK) ->
  let sorted := merge_sort Z.le document_ids in
  let packs := chunks sorted ExportDocuments.DOC_PER_PACK in
  Sorted Z.le sorted /\ sorted ≡ₚ document_ids
  /\ concat packs = sorted
  /\ Forall (fun p => (0 < length p <= 10)%nat) packs
  /\ Forall (fun p => exists first_id last_id,
               ExportDocuments.py_min p = Ok first_id /\ head p = Some first_id
               /\ ExportDocuments.py_max p = Ok last_id /\ last p = Some last_id) packs
  /\ (forall id, id ∈ document_ids ->
        exists i p, packs !! i = Some p /\ id ∈ p
                    /\ forall j q, packs !! j = Some q -> id ∈ q -> j = i)
  /\ exists archive,
       ExportDocuments.process in_memory_export document_ids file_path export_files st
       = (Ok tt, <[file_path := archive]> st)
       /\ forall p z, p ∈ packs ->
            in_memory_export p (ExportDocuments.pmin p) export_files = Ok z ->
            archive !! ExportDocuments.PartZip (ExportDocuments.pmin p) (ExportDocuments.pmax p)
            = Some z.
Proof.
  intros Hnd Hexp sorted packs.
  destruct (sorted_packs_facts document_ids Hnd) as (Hcat & Hb & Hne & Hss & Hndc & Hmins).
  fold sorted packs in Hcat, Hb, Hne, Hss, Hndc, Hmins, Hexp.
  split; [apply Sorted_merge_sort; apply _ |].
  split; [apply merge_sort_Permutation |].
  split; [done |]. split; [done |]. split; [| split].
  - rewrite Forall_forall in Hne, Hss |- *. intros p Hp.
    destruct (pack_sorted_ends p (Hne p Hp) (Hss p Hp)) as (H1 & H2 & H3 & H4 & _).
    by exists (ExportDocuments.pmin p), (ExportDocuments.pmax p).
  - intros id Hid.
    assert (Hin : id ∈ concat packs).
    { rewrite Hcat. subst sorted. by rewrite merge_sort_Permutation. }
    apply list_elem_of_In, in_concat in Hin as (p & Hp%list_elem_of_In & Hidp%list_elem_of_In).
    apply list_elem_of_lookup in Hp as [i Hi].
    exists i, p. repeat split; [done | done |].
    intros j q Hj Hq. by eapply (NoDup_concat_unique_part packs j i q p id).
  - destruct (export_packs_ok in_memory_export export_files packs ∅)
      as (d' & Hrun & Hparts & _); [done | done | done | |].
    { apply Forall_forall. intros p _. apply lookup_empty. }
    exists (ExportDocuments.zip_files d'). split.
    + unfold ExportDocuments.process. fold sorted. fold packs. by rewrite Hrun.
    + intros p z Hp Hz. apply zip_files_part. by apply Hparts.
Qed.

Lemma export_documents_process_packs_witness :
  let exporter := fun (p : list Z) (_ : Z) (_ : bool) =>
                    Ok (if decide (p = [1; 2; 3]) then [Byte.x61] else []) in
  exists archive,
    ExportDocuments.process exporter [3; 1; 2] "export.zip" false ∅
    = (Ok tt, {["export.zip" := archive]})
    /\ archive !! ExportDocuments.PartZip 1 3 = Some [Byte.x61].
Proof.
  intros exporter.
  assert (Hnd : NoDup [3; 1; 2]) by (apply (bool_decide_unpack _); reflexivity).
  assert (Hexp : Forall (fun p => is_ok (exporter p (ExportDocuments.pmin p) false) = true)
                        (chunks (merge_sort Z.le [3; 1; 2]) ExportDocuments.DOC_PER_PACK))
    by (repeat constructor).
  destruct (export_documents_process_packs exporter [3; 1; 2] "export.zip" false ∅ Hnd Hexp)
    as (_ & _ & _ & _ & _ & _ & archive & Hrun & Hpart).
  exists archive. split; [exact Hrun |].
  apply (Hpart [1; 2; 3]); [left | reflexivity].
Defined.

(** C2, counterexample to the claim as stated (for every list): eleven copies
    of one id sort into two packs with the same first id; the second
    [os.mkdir] raises [FileExistsError], nothing is written to the storage,
    and the id lies in both packs. *)
Lemma export_documents_duplicate_ids_counterexample :
  let exporter := fun (_ : list Z) (_ : Z) (_ : bool) => Ok [] in
  let ids := replicate 11 5 in
  let packs := chunks (merge_sort Z.le ids) ExportDocuments.DOC_PER_PACK in
  packs = [replicate 10 5; [5]]
  /\ ExportDocuments.process exporter ids "export.zip" false ∅ = (Raise FileExistsError, ∅)
  /\ ~ (forall id, id ∈ ids ->
          exists i p, packs !! i = Some p /\ id ∈ p
                      /\ forall j q, packs !! j = Some q -> id ∈ q -> j = i).
Proof.
  intros exporter ids packs.
  assert (Hpacks : packs = [replicate 10 5; [5]]) by reflexivity.
  split; [exact Hpacks |]. split; [reflexivity |].
  intros H. destruct (H 5) as (i & p & _ & _ & Huniq); [by left |].
  rewrite Hpacks in Huniq.
  pose proof (Huniq 0%nat (replicate 10 5) eq_refl ltac:(by left)) as H0.
  pose proof (Huniq 1%nat [5] eq_refl ltac:(by left)) as H1.
  congruence.
Qed.

(** ** [ImportDocumentType.process] *)

Section ImportFacts.
Import ImportDocumentType.
Context {DB DocumentType : Type}.
Local Abbreviation world := (@world DB).

Lemma keeps_cache_ret {A} (a : A) : @keeps_cache DB _ (ret a).
Proof. done. Qed.

Lemma keeps_cache_bind {A B} (m : M world A) (k : A -> M world B) :
  @keeps_cache DB _ m -> (forall a, @keeps_cache DB _ (k a)) -> @keeps_cache DB _ (bind m k).
Proof.
  intros Hm Hk w. unfold bind. specialize (Hm w).
  destruct (m w) as [[a|e] w']; simpl in *; [| done].
  by rewrite Hk.
Qed.

Lemma keeps_cache_on_db {A} (f : DB -> result A * DB) : @keeps_cache DB _ (on_db f).
Proof. intros w. unfold on_db. by destruct (f (db w)). Qed.

Lemma keeps_cache_for_each {A} (xs : list A) (body : A -> M world unit) :
  (forall x, @keeps_cache DB _ (body x)) -> @keeps_cache DB _ (for_each xs body).
Proof.
  intros Hb. induction xs as [|x xs IH]; simpl; [done |].
  apply keeps_cache_bind; auto.
Qed.

Lemma keeps_cache_run_sub_tasks args : @keeps_cache DB _ (run_sub_tasks args).
Proof. apply keeps_cache_for_each. by intros ids w. Qed.
End ImportFacts.

Section ImportSteps.
Import ImportDocumentType.
Context {DB DocumentType : Type}.

Lemma bind_lift_Ok {S A B} (a : A) (k : A -> M S B) : bind (lift (Ok a)) k = k a.
Proof. reflexivity. Qed.

(** The [try ... finally] block: the result of the import with the cache
    entry removed, on both exits. *)
Lemma import_try_finally
    (import_document_type :
       option ExportDocuments.bytes -> bool -> bool -> bool -> Z -> DB -> result DocumentType * DB)
    (cfg : gmap string string) key save auto_fix remove_missed v (w : @world DB) :
  cfg !! "cache_key" = Some key ->
  let imported := import_document_type (db_cache w !! key) save auto_fix remove_missed v (db w) in
  try_finally
    (let! key := lift (cache_key cfg) in
     let! w := get in
     on_db (import_document_type (DbCache.get key (db_cache w))
              save auto_fix remove_missed v))
    (let! key := lift (cache_key cfg) in
     modify (set_db_cache (DbCache.clean_cache key))) w
  = (imported.1, World (delete key (db_cache w)) imported.2 (sub_tasks w)).
Proof.
  intros Hkey imported. subst imported.
  unfold try_finally, bind, lift, cache_key, get, on_db, modify, DbCache.get.
  rewrite Hkey.
  destruct (import_document_type _ _ _ _ _ _) as [[dt|e] d]; reflexivity.
Qed.
End ImportSteps.

(** C3. The four action strings select the flags
    [(save, auto_fix_validation_errors, remove_missed_objects)] =
    (False, False, False), (True, False, False), (True, True, False) and
    (True, True, True); any other action makes [process] raise
    [RuntimeError] at once.  For a known action (the version resolved and the
    cache key present) [import_document_type] is called with the cached bytes
    and exactly these flags, and the cache entry is gone afterwards whether
    that call returns or raises; when it raises, its exception is what
    [process] raises. *)
Theorem import_document_type_process_actions
    {DB DocumentType : Type} (CURRENT_VERSION : Z) (py_int : string -> option Z)
    (import_document_type :
       option ExportDocuments.bytes -> bool -> bool -> bool -> Z -> DB -> result DocumentType * DB)
    (raw_db_disabled : DB -> bool)
    (adapt_table_structure : DocumentType -> DB -> result unit * DB)
    (document_ids_of_type : DocumentType -> DB -> list Z) :
  let process := ImportDocumentType.process CURRENT_VERSION py_int import_document_type
                   raw_db_disabled adapt_table_structure document_ids_of_type in
  ImportDocumentType.action_flags "validate" = Ok (false, false, false)
  /\ ImportDocumentType.action_flags "validate|import" = Ok (true, false, false)
  /\ ImportDocumentType.action_flags "import|auto_fix|retain_missing_objects"
     = Ok (true, true, false)
  /\ ImportDocumentType.action_flags "import|auto_fix|remove_missing_objects"
     = Ok (true, true, true)
  /\ (forall action cfg update_cache source_version w,
        action <> "validate" -> action <> "validate|import" ->
        action <> "import|auto_fix|retain_missing_objects" ->
        action <> "import|auto_fix|remove_missing_objects" ->
        process cfg action update_cache source_version w
        = (Raise (RuntimeError "Unknown action"), w))
  /\ (forall action cfg update_cache source_version w save auto_fix remove_missed v key,
        ImportDocumentType.action_flags action = Ok (save, auto_fix, remove_missed) ->
        ImportDocumentType.resolve_version CURRENT_VERSION py_int source_version = Ok v ->
        cfg !! "cache_key" = Some key ->
        let imported := import_document_type (ImportDocumentType.db_cache w !! key)
                          save auto_fix remove_missed v (ImportDocumentType.db w) in
        let out := process cfg action update_cache source_version w in
        ImportDocumentType.db_cache out.2 = delete key (ImportDocumentType.db_cache w)
        /\ ImportDocumentType.db_cache out.2 !! key = None
        /\ (forall e, imported.1 = Raise e ->
              out = (Raise e,
                     ImportDocumentType.World (delete key (ImportDocumentType.db_cache w))
                       imported.2 (ImportDocumentType.sub_tasks w)))
        /\ (forall dt, imported.1 = Ok dt -> save && update_cache = false ->
              out = (Ok tt,
                     ImportDocumentType.World (delete key (ImportDocumentType.db_cache w))
                       imported.2 (ImportDocumentType.sub_tasks w)))).
Proof.
  intros process.
  split; [reflexivity |]. split; [reflexivity |]. split; [reflexivity |].
  split; [reflexivity |]. split.
  - intros action cfg uc sv w H1 H2 H3 H4. subst process.
    unfold ImportDocumentType.process, ImportDocumentType.action_flags, bind, lift.
    by repeat case_decide.
  - intros action cfg uc sv w save auto_fix remove_missed v key Hflags Hver Hkey imported out.
    set (w1 := ImportDocumentType.World (delete key (ImportDocumentType.db_cache w))
                 imported.2 (ImportDocumentType.sub_tasks w)).
    assert (Hout : exists tail : DocumentType -> M _ unit,
               (forall dt, keeps_cache (tail dt))
               /\ (save && uc = false -> forall dt, tail dt = ret tt)
               /\ out = match imported.1 with
                        | Ok dt => tail dt w1
                        | Raise e => (Raise e, w1)
                        end).
    { eexists (fun dt => if negb (save && uc) then ret tt else _).
      split; [| split].
      2: { intros ->. reflexivity. }
      2: { subst out process. unfold ImportDocumentType.process.
           rewrite Hflags, bind_lift_Ok. cbv beta iota.
           rewrite Hver, bind_lift_Ok.
           unfold bind at 1.
           rewrite (import_try_finally import_document_type cfg key save auto_fix
                      remove_missed v w Hkey).
           fold imported. fold w1. destruct imported.1; reflexivity. }
      intros dt. destruct (negb (save && uc)); [apply keeps_cache_ret |].
      apply keeps_cache_bind; [intros w'; reflexivity |]. intros w'.
      apply keeps_cache_bind.
      { destruct (negb _); [apply keeps_cache_on_db | apply keeps_cache_ret]. }
      intros _. apply keeps_cache_bind; [intros w''; reflexivity |]. intros w''.
      apply keeps_cache_for_each. intros x. apply keeps_cache_run_sub_tasks. }
    destruct Hout as (tail & Hkeep & Hskip & Hout).
    assert (Hcache : ImportDocumentType.db_cache out.2
                     = delete key (ImportDocumentType.db_cache w)).
    { rewrite Hout. destruct imported.1 as [dt|e]; [| reflexivity]. by rewrite Hkeep. }
    split; [exact Hcache |]. split; [rewrite Hcache; apply lookup_delete_eq |]. split.
    + intros e He. rewrite Hout, He. reflexivity.
    + intros dt Hdt Hsu. rewrite Hout, Hdt, Hskip by done. reflexivity.
Qed.

Lemma import_document_type_process_actions_witness :
  let import_fails := fun (_ : option ExportDocuments.bytes) (_ _ _ : bool) (_ : Z) (d : unit) =>
                        (@Raise unit (External "broken dump"), d) in
  let w := ImportDocumentType.World {["upload-1" := [Byte.x7b; Byte.x7d]]} tt [] in
  ImportDocumentType.process 75 (fun _ => Some 74) import_fails (fun _ => false)
    (fun _ d => (Ok tt, d)) (fun _ _ => [])
    {["cache_key" := "upload-1"]} "validate|import" true (Some "74") w
  = (Raise (External "broken dump"), ImportDocumentType.World (delete "upload-1" {["upload-1" := [Byte.x7b; Byte.x7d]]}) tt []).
Proof.
  intros import_fails w.
  pose proof (import_document_type_process_actions 75 (fun _ => Some 74) import_fails
                (fun _ => false) (fun _ d => (Ok tt, d)) (fun _ _ => [])) as H.
  destruct H as (_ & _ & _ & _ & _ & H).
  destruct (H "validate|import" {["cache_key" := "upload-1"]} true (Some "74") w
              true false false 74 "upload-1") as (_ & _ & Hraise & _);
    [reflexivity | reflexivity | reflexivity |].
  apply Hraise. reflexivity.
Defined.

(** ** Training tasks: replacing the classifier models of a field *)

Section TrainingFacts.
Import Training.

Lemma models_after_replace (uid : string) (m : ClassifierModel) (pk : Z)
    (t : gmap Z ClassifierModel) :
  cm_document_field m = uid ->
  filter (fun kv : Z * ClassifierModel => cm_document_field kv.2 = uid)
    (<[pk := m]> (filter (fun kv : Z * ClassifierModel => cm_document_field kv.2 <> uid) t))
  = {[pk := m]}.
Proof.
  intros Hm. apply map_eq. intros k. destruct (decide (k = pk)) as [-> | Hk].
  - rewrite lookup_singleton_eq. apply map_lookup_filter_Some.
    split; [apply lookup_insert_eq | done].
  - rewrite lookup_singleton_ne by done. apply map_lookup_filter_None. right.
    intros x Hx. rewrite lookup_insert_ne in Hx by done.
    apply map_lookup_filter_Some in Hx as [_ Hx]. simpl in *. congruence.
Qed.

(** Rows of other fields are not touched by the deletion. *)
Lemma other_models_after_delete (uid : string) (t : gmap Z ClassifierModel) k x :
  t !! k = Some x -> cm_document_field x <> uid ->
  filter (fun kv : Z * ClassifierModel => cm_document_field kv.2 <> uid) t !! k = Some x.
Proof. intros Hk Hx. by apply map_lookup_filter_Some. Qed.

Lemma replace_model_Some field m d :
  replace_model field (Some m) d = (Ok (Some (replaced_pk field d)), replaced field m d).
Proof. reflexivity. Qed.

Lemma replace_model_None field d : replace_model field None d = (Ok None, d).
Proof. reflexivity. Qed.

Lemma models_of_field_replaced field m d :
  cm_document_field m = df_uid field ->
  models_of_field (df_uid field) (replaced field m d) = {[replaced_pk field d := m]}.
Proof. intros Hm. unfold models_of_field, replaced. simpl. by apply models_after_replace. Qed.

Lemma get_document_field_Some uid field d :
  document_fields d !! uid = Some field -> get_document_field uid d = (Ok field, d).
Proof. intros H. unfold get_document_field. by rewrite H. Qed.

Variable trainer :
  db -> DocumentField -> option (list Z) -> train_options -> result (option ClassifierModel).
Variable can_retrain : DocumentField -> bool.
Variable approved_number : db -> DocumentField -> Z.
Variable documents_of_projects : db -> list Z -> string -> list Z.
Variable active_modified_ids : db -> DocumentField -> list Z -> list Z.
Variable finished_ids : db -> string -> list Z -> list Z.

Lemma train_model_for_field_run uid field d r :
  document_fields d !! uid = Some field ->
  trainer d field None DefaultOptions = Ok r ->
  train_model_for_field trainer uid d
  = (Ok tt, match r with Some m => replaced field m d | None => d end).
Proof.
  intros Hf Hr. unfold train_model_for_field, bind at 1.
  rewrite (get_document_field_Some _ _ _ Hf).
  unfold train, bind, get, lift. rewrite Hr. by destruct r.
Qed.

(** [train_model_for_dirty_field] when the field may be retrained: the state
    right after [dirty_field.save()] and what follows from it. *)
Lemma train_model_for_dirty_field_run uid field d :
  document_fields d !! uid = Some field ->
  can_retrain field = true ->
  let field' := set_dirty false field in
  let d1 := set_document_fields (fun t => <[df_uid field := field']> t) d in
  train_model_for_dirty_field trainer can_retrain approved_number uid d
  = if Z.leb (df_trained_after_documents_number field) (approved_number d1 field')
    then match trainer d1 field' None DefaultOptions with
         | Ok (Some m) => (Ok tt, replaced field' m d1)
         | Ok None => (Ok tt, d1)
         | Raise e => (Raise e, d1)
         end
    else (Ok tt, d1).
Proof.
  intros Hf Hc field' d1. unfold train_model_for_dirty_field, bind at 1.
  rewrite (get_document_field_Some _ _ _ Hf), Hc.
  unfold bind at 1. unfold save_document_field, modify. fold field'.
  change (set_document_fields _ d) with d1.
  unfold bind at 1. unfold get.
  change (df_trained_after_documents_number field')
    with (df_trained_after_documents_number field).
  destruct (Z.leb _ _); [| reflexivity].
  unfold train, bind, get, lift.
  destruct (trainer d1 field' None DefaultOptions) as [[m|]|e]; reflexivity.
Qed.

(** The testing half of [TrainAndTest.process] only starts sub-tasks. *)
Lemma start_tests_run kwargs field pk d :
  exists ts,
    start_tests documents_of_projects active_modified_ids finished_ids kwargs field pk d
    = (Ok tt, add_started ts d).
Proof.
  assert (Hd : add_started [] d = d).
  { destruct d. unfold add_started. simpl. by rewrite app_nil_r. }
  unfold start_tests.
  destruct (skip_testing kwargs); [exists []; by rewrite Hd |].
  destruct (negb (truthy_list _)); [exists []; by rewrite Hd |].
  cbv zeta. unfold bind at 1, get.
  destruct (map _ _) as [|a args] eqn:E; [exists []; by rewrite Hd |].
  eexists (_ ++ _). unfold bind, modify. f_equal.
  destruct d. unfold add_started. simpl. by rewrite app_assoc.
Qed.

Lemma train_and_test_process_run kwargs field d :
  document_fields d !! document_field_id kwargs = Some field ->
  let opts := Options (use_only_confirmed_field_values_for_training kwargs)
                      (split_and_log_out_of_sample_test_report kwargs) in
  let trained := if skip_training kwargs then Ok None
                 else trainer d field (train_data_project_ids kwargs) opts in
  let tests := start_tests documents_of_projects active_modified_ids finished_ids kwargs field in
  train_and_test_process trainer documents_of_projects active_modified_ids finished_ids kwargs d
  = match trained with
    | Raise e => (Raise e, d)
    | Ok None => tests None d
    | Ok (Some m) => tests (Some (replaced_pk field d)) (replaced field m d)
    end.
Proof.
  intros Hf opts trained tests. unfold train_and_test_process. unfold bind at 1.
  rewrite (get_document_field_Some _ _ _ Hf). unfold bind at 1. subst trained.
  destruct (skip_training kwargs); cbn [negb]; [reflexivity |].
  unfold train, bind at 1, bind at 1, get, lift. fold opts.
  destruct (trainer d field _ opts) as [[m|]|e]; reflexivity.
Qed.
End TrainingFacts.

Lemma model_replaced_replaced field m d :
  Training.cm_document_field m = Training.df_uid field ->
  model_replaced field m d (replaced field m d).
Proof. intros Hm. split; [reflexivity | by apply models_of_field_replaced]. Qed.



(** C5. On a dirty field that may be retrained, [train_model_for_dirty_field]
    clears the dirty flag and saves the field before it counts the approved
    documents: whatever happens next (too few documents, no model, a new
    model, an exception of the trainer) the saved field has [dirty = False].
    Below the threshold nothing else changes and no model is trained; the
    classifier models change only when the count reaches
    [trained_after_documents_number], and then a returned model replaces the
    old ones. *)
Theorem dirty_field_flag_cleared_before_threshold
    (trainer : Training.db -> Training.DocumentField -> option (list Z) ->
               Training.train_options -> result (option Training.ClassifierModel))
    (can_retrain : Training.DocumentField -> bool)
    (approved_number : Training.db -> Training.DocumentField -> Z)
    (d : Training.db) (uid : string) (field : Training.DocumentField) :
  Training.document_fields d !! uid = Some field ->
  can_retrain field = true ->
  let field' := Training.set_dirty false field in
  let d1 := Training.set_document_fields (fun t => <[Training.df_uid field := field']> t) d in
  let count := approved_number d1 field' in
  let out := Training.train_model_for_dirty_field trainer can_retrain approved_number uid d in
  Training.df_dirty field' = false
  /\ Training.document_fields out.2 !! Training.df_uid field = Some field'
  /\ (count < Training.df_trained_after_documents_number field -> out = (Ok tt, d1))
  /\ (Training.classifier_models out.2 <> Training.classifier_models d ->
      Training.df_trained_after_documents_number field <= count)
  /\ (Training.df_trained_after_documents_number field <= count ->
      forall m, trainer d1 field' None Training.DefaultOptions = Ok (Some m) ->
        out = (Ok tt, replaced field' m d1)
        /\ (Training.cm_document_field m = Training.df_uid field ->
            model_replaced field m d out.2)).
Proof.
  intros Hf Hc field' d1 count out.
  assert (Hout := train_model_for_dirty_field_run trainer can_retrain approved_number
                    uid field d Hf Hc).
  cbv zeta in Hout. fold field' d1 out in Hout. subst count.
  assert (Hd1 : Training.document_fields d1 !! Training.df_uid field = Some field')
    by apply lookup_insert_eq.
  split; [reflexivity |].
  destruct (Z.leb_spec (Training.df_trained_after_documents_number field)
              (approved_number d1 field')) as [Hle | Hlt].
  - split; [| split; [| split]].
    + rewrite Hout.
      destruct (trainer d1 field' None Training.DefaultOptions) as [[m|]|e]; exact Hd1.
    + intros Hlt. lia.
    + done.
    + intros _ m Hm. rewrite Hout, Hm. split; [reflexivity |].
      intros Hmf. exact (model_replaced_replaced field' m d1 Hmf).
  - split; [| split; [| split]].
    + by rewrite Hout.
    + done.
    + intros Hne. exfalso. apply Hne. by rewrite Hout.
    + intros Hle. lia.
Qed.

Lemma dirty_field_flag_cleared_before_threshold_witness :
  let f1 := Training.mkDocumentField "f1" "effective_date" "lease" true 3 in
  let old := Training.mkClassifierModel "f1" [Byte.x01] None in
  let d := Training.mkDb {["f1" := f1]} {[1 := old]} [] in
  let trainer := fun (_ : Training.db) (_ : Training.DocumentField) (_ : option (list Z))
                     (_ : Training.train_options) => Ok (Some old) in
  Training.train_model_for_dirty_field trainer (fun _ => true) (fun _ _ => 2) "f1" d
  = (Ok tt, Training.mkDb {["f1" := Training.set_dirty false f1]} {[1 := old]} []).
Proof.
  intros f1 old d trainer.
  destruct (dirty_field_flag_cleared_before_threshold trainer (fun _ => true) (fun _ _ => 2)
              d "f1" f1) as (_ & _ & Hbelow & _); [reflexivity | reflexivity |].
  rewrite Hbelow; [| reflexivity]. reflexivity.
Defined.

(** ** [join_field_detector_model_tests]: the accuracy figures *)

Section JoinTestsFacts.
Import Training JoinTests.

Lemma counters0_ok : counters_ok counters0.
Proof. repeat split; simpl; intros; rewrite ?lookup_empty in *; simpl; done || lia. Qed.

Lemma count_up_lookup v w (d : gmap string nat) :
  default 0%nat (count_up v d !! w)
  = if decide (v = w) then S (default 0%nat (d !! v)) else default 0%nat (d !! w).
Proof.
  unfold count_up. case_decide as Hvw.
  - subst. by rewrite lookup_insert_eq.
  - by rewrite lookup_insert_ne.
Qed.

Lemma count_up_positive v w (d : gmap string nat) t :
  (forall u s, d !! u = Some s -> (1 <= s)%nat) ->
  count_up v d !! w = Some t -> (1 <= t)%nat.
Proof.
  intros Hd. unfold count_up. destruct (decide (v = w)) as [-> | Hvw].
  - rewrite lookup_insert_eq. intros [= <-]. lia.
  - rewrite lookup_insert_ne by done. apply Hd.
Qed.

Lemma count_result_ok c res c' :
  counters_ok c -> count_result c res = Ok c' ->
  counters_ok c' /\ test_doc_number c' = S (test_doc_number c).
Proof.
  intros (Hm & Hv & Ht) Hres. destruct res as [res|]; [| done]. simpl in Hres.
  destruct (value_matches_expected res), (truthy_str (actual_field_value res)) as [v|];
    injection Hres as <-; (split; [| reflexivity]); repeat split; simpl; try lia; try done.
  - intros w. rewrite !count_up_lookup. case_decide; [specialize (Hv v) | specialize (Hv w)]; lia.
  - intros w t. by apply count_up_positive.
  - intros w. rewrite count_up_lookup. case_decide; [specialize (Hv w) | specialize (Hv w)].
    + subst. lia.
    + lia.
  - intros w t. by apply count_up_positive.
Qed.

Lemma count_results_ok results c c' :
  counters_ok c -> count_results c results = Ok c' ->
  counters_ok c' /\ test_doc_number c' = (test_doc_number c + length results)%nat.
Proof.
  revert c. induction results as [|res results IH]; intros c Hc Hres; simpl in *.
  - injection Hres as <-. split; [done | lia].
  - destruct (count_result c res) as [c1|e] eqn:E; [| done].
    destruct (count_result_ok c res c1 Hc E) as [Hc1 Hn].
    destruct (IH c1 Hc1 Hres) as [Hc' Hn']. split; [done | lia].
Qed.

Lemma count_results_total results c :
  Forall is_Some results -> exists c', count_results c results = Ok c'.
Proof.
  intros H. revert c. induction H as [|res results [r ->] _ IH]; intros c; simpl.
  - by exists c.
  - destruct (value_matches_expected r); apply IH.
Qed.

Lemma py_div_bounds a b q :
  (a <= b)%nat -> py_div a b = Ok q -> (0 <= q)%Q /\ (q <= 1)%Q.
Proof.
  intros Hab. destruct b as [|b]; [done |]. intros [= <-].
  unfold Qle. simpl. rewrite <- Pos.of_nat_succ, Zpos_P_of_succ_nat. lia.
Qed.

Lemma accuracy_items_bounds (matches : gmap string nat) items :
  Forall (fun vt => (1 <= vt.2)%nat /\ (default 0 (matches !! vt.1) <= vt.2)%nat) items ->
  exists l, accuracy_items matches items = Ok l
            /\ Forall (fun vq => (0 <= vq.2)%Q /\ (vq.2 <= 1)%Q) l.
Proof.
  induction 1 as [|[v t] items [Ht Hm] _ (l & Hl & Hb)]; simpl in *.
  - by exists [].
  - destruct (py_div (default 0%nat (matches !! v)) t) as [q|e] eqn:E.
    + rewrite Hl. exists ((v, q) :: l). split; [done |]. constructor; [| done].
      by eapply py_div_bounds.
    + destruct t; [lia | done].
Qed.

Lemma counters_ok_items c :
  counters_ok c ->
  Forall (fun vt => (1 <= vt.2)%nat /\ (default 0 (matches_per_value c !! vt.1) <= vt.2)%nat)
         (map_to_list (total_per_value c)).
Proof.
  intros (_ & Hv & Ht). apply Forall_forall. intros [v t] Hin%elem_of_map_to_list. simpl.
  split; [by eapply Ht |]. specialize (Hv v). by rewrite Hin in Hv.
Qed.
End JoinTestsFacts.

Section JoinRun.
Import Training JoinTests.

(** The task, once the loop and the division went through. *)
Lemma join_run results is_choice_field field_uid classifier_model_id d c accuracy :
  count_results counters0 results = Ok c ->
  py_div (match_number c) (test_doc_number c) = Ok accuracy ->
  join_field_detector_model_tests results is_choice_field field_uid classifier_model_id d
  = match (match truthy_id classifier_model_id with
           | Some pk => save_accuracy pk accuracy
           | None => ret tt
           end) d with
    | (Raise e, d1) => (Raise e, d1)
    | (Ok _, d1) =>
        match document_fields d1 !! field_uid with
        | None => (Raise DoesNotExist, d1)
        | Some field =>
            if is_choice_field field then
              match accuracy_items (matches_per_value c) (map_to_list (total_per_value c)) with
              | Ok l => (Ok (mkReport (test_doc_number c) (test_text_units_number c)
                               accuracy (Some l)), d1)
              | Raise e => (Raise e, d1)
              end
            else (Ok (mkReport (test_doc_number c) (test_text_units_number c)
                        accuracy None), d1)
        end
    end.
Proof.
  intros Hc Ha. unfold join_field_detector_model_tests.
  rewrite Hc, bind_lift_Ok, Ha, bind_lift_Ok. unfold bind at 1.
  destruct (match truthy_id classifier_model_id with
            | Some pk => save_accuracy pk accuracy
            | None => ret tt
            end d) as [[[]|e] d1]; [| reflexivity].
  unfold bind at 1, get_document_field.
  destruct (document_fields d1 !! field_uid) as [field|]; [| reflexivity].
  destruct (is_choice_field field); [| reflexivity].
  unfold bind, lift, ret.
  destruct (accuracy_items _ _); reflexivity.
Qed.

Lemma join_empty is_choice_field field_uid classifier_model_id d :
  join_field_detector_model_tests [] is_choice_field field_uid classifier_model_id d
  = (Raise ZeroDivisionError, d).
Proof. reflexivity. Qed.

Lemma save_accuracy_run pk accuracy d :
  save_accuracy pk accuracy d
  = match classifier_models d !! pk with
    | None => (Raise DoesNotExist, d)
    | Some m =>
        (Ok tt, set_classifier_models
                  (fun t => <[pk := mkClassifierModel (cm_document_field m)
                                      (cm_trained_model m) (Some accuracy)]> t) d)
    end.
Proof. reflexivity. Qed.
End JoinRun.



(** ** [_process_documents_status_changed] *)

Section StatusChangedFacts.
Import StatusChanged.

Lemma for_each_emit (f : Z -> event) (docs : list Z) (w : world) :
  for_each docs (fun doc => emit (f doc)) w
  = (Ok tt, mkWorld (review_statuses w) (documents w) (users w) (events w ++ map f docs)).
Proof.
  revert w. induction docs as [|doc docs IH]; intros w; simpl.
  - unfold ret. destruct w. simpl. by rewrite app_nil_r.
  - unfold bind, emit, modify. rewrite IH. simpl. by rewrite <- app_assoc.
Qed.
End StatusChangedFacts.

(** C6. With the review status and the changing user found,
    [_process_documents_status_changed] calls
    [delete_hidden_field_values_if_needed] once for each listed document (in
    table order) when the new status is not active and for none when it is,
    and then, in both cases, fires the documents-status-changed signal once
    for the listed documents with the new status id and the changing user. *)
Theorem process_documents_status_changed_events
    (doc_ids : list Z) (new_status_id : Z) (changed_by_user_id : option Z)
    (w : StatusChanged.world) (is_active : bool) :
  StatusChanged.review_statuses w !! new_status_id = Some is_active ->
  (forall pk, changed_by_user_id = Some pk -> pk ∈ StatusChanged.users w) ->
  let docs := StatusChanged.docs_qr doc_ids w in
  let deleted := if is_active then []
                 else map StatusChanged.DeleteHiddenFieldValuesIfNeeded docs in
  let fired := StatusChanged.FireDocumentsStatusChanged docs new_status_id changed_by_user_id in
  StatusChanged._process_documents_status_changed doc_ids new_status_id changed_by_user_id w
  = (Ok tt, StatusChanged.mkWorld (StatusChanged.review_statuses w)
              (StatusChanged.documents w) (StatusChanged.users w)
              (StatusChanged.events w ++ deleted ++ [fired]))
  /\ (forall doc, StatusChanged.DeleteHiddenFieldValuesIfNeeded doc ∈ deleted ++ [fired]
                  <-> is_active = false /\ doc ∈ docs)
  /\ fired ∈ deleted ++ [fired]
  /\ (forall doc, doc ∈ docs <-> doc ∈ doc_ids /\ doc ∈ StatusChanged.documents w).
Proof.
  intros Hstatus Huser docs deleted fired. split; [| split; [| split]].
  - unfold StatusChanged._process_documents_status_changed, bind at 1.
    unfold StatusChanged.get_review_status. rewrite Hstatus.
    unfold bind at 1, StatusChanged.get_changed_by_user.
    assert (Hu : (match changed_by_user_id with
                  | None => (Ok None, w)
                  | Some pk => if decide (pk ∈ StatusChanged.users w) then (Ok (Some pk), w)
                               else (Raise DoesNotExist, w)
                  end) = (Ok changed_by_user_id, w)).
    { destruct changed_by_user_id as [pk|]; [| done]. by rewrite decide_True by auto. }
    rewrite Hu. unfold bind at 1. subst deleted fired docs.
    destruct is_active; cbn [negb].
    + unfold ret, bind, get, StatusChanged.emit, modify. simpl. done.
    + unfold bind at 1, get. rewrite for_each_emit.
      unfold bind, get, StatusChanged.emit, modify. simpl.
      by rewrite <- app_assoc.
  - intros doc. rewrite elem_of_app. subst deleted fired. split.
    + intros [Hin | Hin].
      * destruct is_active; [by apply elem_of_nil in Hin |].
        apply list_elem_of_fmap in Hin as (doc' & [= ->] & Hdoc). done.
      * apply list_elem_of_singleton in Hin. done.
    + intros [-> Hdoc]. left. by apply list_elem_of_fmap_2.
  - rewrite elem_of_app. right. by apply list_elem_of_singleton.
  - intros doc. subst docs. unfold StatusChanged.docs_qr.
    rewrite list_elem_of_filter. done.
Qed.

Lemma process_documents_status_changed_events_witness :
  let w := StatusChanged.mkWorld {[1 := true; 2 := false]} [10; 11; 12] {[7]} [] in
  StatusChanged._process_documents_status_changed [12; 10; 99] 2 (Some 7) w
  = (Ok tt, StatusChanged.mkWorld {[1 := true; 2 := false]} [10; 11; 12] {[7]}
              [StatusChanged.DeleteHiddenFieldValuesIfNeeded 10;
               StatusChanged.DeleteHiddenFieldValuesIfNeeded 12;
               StatusChanged.FireDocumentsStatusChanged [10; 12] 2 (Some 7)]).
Proof.
  intros w.
  destruct (process_documents_status_changed_events [12; 10; 99] 2 (Some 7) w false)
    as [H _]; [reflexivity | |].
  - intros pk [= <-]. subst w. simpl. set_solver.
  - exact H.
Defined.

(** ** [LoadDocumentWithFields.load_field_values] *)

Section LoadFieldValuesFacts.
Import LoadDocumentWithFields.
Context {value json : Type}.
Variable lower : string -> string.
Variable extract : field -> string -> result (option value).
Variable to_json : field -> value -> result json.
Variable cast_msg : field_input -> field -> string.
Variable dt : document_type.

Local Abbreviation resolve_alias := (resolve lower dt).
Local Abbreviation extract_of := (extract_entry extract to_json).
Local Abbreviation entry_step := (load_entry lower extract to_json cast_msg dt).
Local Abbreviation entries_loop := (load_entries lower extract to_json cast_msg dt).
Local Abbreviation raises := (entry_raises lower extract to_json dt).
Local Abbreviation misses := (entry_misses lower dt).

Lemma extract_entry_VNone f : extract_of f VNone = Ok None.
Proof. reflexivity. Qed.

Lemma load_entry_VNone ign st alias : entry_step ign st (alias, VNone) = Ok st.
Proof. by destruct st. Qed.

Lemma load_entry_unknown ign m w alias v :
  v <> VNone -> resolve_alias alias = None ->
  entry_step ign (m, w) (alias, v) = Ok (m, w ++ [FieldAliasNotFound alias (dt_code dt)]).
Proof. intros Hv Hr. unfold load_entry. rewrite Hr. by destruct v. Qed.

Lemma load_entry_known ign m w alias v f :
  resolve_alias alias = Some f ->
  entry_step ign (m, w) (alias, v)
  = match extract_of f v with
    | Ok (Some j) => Ok (<[f_uid f := j]> m, w)
    | Ok None => Ok (m, w)
    | Raise _ => if ign then Ok (m, w ++ [UnableToCast (cast_msg v f)])
                 else Raise (RuntimeError (cast_msg v f))
    end.
Proof. intros Hr. unfold load_entry. rewrite Hr. by destruct v. Qed.

Lemma first_extracted_app f pre t post j :
  Forall (fun t' => extract_json extract to_json f t' = Ok None) pre ->
  extract_json extract to_json f t = Ok (Some j) ->
  first_extracted extract to_json f (pre ++ t :: post) = Ok (Some j).
Proof.
  induction 1 as [|t' pre Ht' _ IH]; intros Ht; simpl.
  - by rewrite Ht.
  - rewrite Ht'. by apply IH.
Qed.

Lemma load_entries_app ign st es1 es2 :
  entries_loop ign st (es1 ++ es2)
  = match entries_loop ign st es1 with
    | Ok st' => entries_loop ign st' es2
    | Raise e => Raise e
    end.
Proof.
  revert st. induction es1 as [|e es1 IH]; intros st; cbn [load_entries app]; [done |].
  destruct (entry_step ign st e); [apply IH | done].
Qed.

(** The warnings already logged do not influence the loop. *)
Lemma load_entry_warnings ign m w entry :
  entry_step ign (m, w) entry
  = match entry_step ign (m, []) entry with
    | Ok (m', w') => Ok (m', w ++ w')
    | Raise e => Raise e
    end.
Proof.
  destruct entry as [alias v]. destruct (resolve_alias alias) as [f|] eqn:Hr.
  - rewrite !(load_entry_known _ _ _ _ _ f Hr).
    destruct (extract_of f v) as [[j|]|e]; rewrite ?app_nil_r; try done.
    destruct ign; done.
  - destruct (decide (v = VNone)) as [-> | Hv].
    + rewrite !load_entry_VNone. by rewrite app_nil_r.
    + by rewrite !load_entry_unknown.
Qed.

Lemma load_entries_warnings ign m w es :
  entries_loop ign (m, w) es
  = match entries_loop ign (m, []) es with
    | Ok (m', w') => Ok (m', w ++ w')
    | Raise e => Raise e
    end.
Proof.
  revert m w. induction es as [|e es IH]; intros m w; cbn [load_entries].
  - by rewrite app_nil_r.
  - rewrite load_entry_warnings.
    destruct (entry_step ign (m, []) e) as [[m1 w1]|]; [| done].
    rewrite (IH m1 (w ++ w1)), (IH m1 w1).
    destruct (entries_loop ign (m1, []) es) as [[m2 w2]|]; [| done].
    by rewrite app_assoc.
Qed.

(** With [ignore_parsing_errors] the loop always completes. *)
Lemma load_entries_ignore_total st es : exists st', entries_loop true st es = Ok st'.
Proof.
  revert st. induction es as [|[alias v] es IH]; intros [m w]; cbn [load_entries]; [by eexists |].
  destruct (resolve_alias alias) as [f|] eqn:Hr.
  - rewrite (load_entry_known _ _ _ _ _ f Hr).
    destruct (extract_of f v) as [[j|]|e]; apply IH.
  - destruct (decide (v = VNone)) as [-> | Hv].
    + rewrite load_entry_VNone. apply IH.
    + rewrite load_entry_unknown by done. apply IH.
Qed.

(** Without it the loop raises exactly when some entry's extraction raises,
    and what it raises is a [RuntimeError]. *)
Lemma load_entry_raise_iff st entry :
  (exists e, entry_step false st entry = Raise e) <-> raises entry.
Proof.
  destruct st as [m w], entry as [alias v]. unfold entry_raises. cbn [fst snd].
  destruct (resolve_alias alias) as [f|] eqn:Hr.
  - rewrite (load_entry_known _ _ _ _ _ f Hr). split.
    + intros [e He]. destruct (extract_of f v) as [[j|]|e'] eqn:E; try done. by exists f, e'.
    + intros (g & e & [= <-] & He). rewrite He. by eexists.
  - split; [| by intros (g & e & [=] & _)].
    intros [e He]. destruct (decide (v = VNone)) as [-> | Hv].
    + by rewrite load_entry_VNone in He.
    + by rewrite load_entry_unknown in He.
Qed.

Lemma load_entry_raise_RuntimeError ign st entry e :
  entry_step ign st entry = Raise e -> ign = false /\ exists msg, e = RuntimeError msg.
Proof.
  destruct st as [m w], entry as [alias v].
  destruct (resolve_alias alias) as [f|] eqn:Hr.
  - rewrite (load_entry_known _ _ _ _ _ f Hr).
    destruct (extract_of f v) as [[j|]|e']; try done.
    destruct ign; [done |]. intros [= <-]. split; [done | by eexists].
  - destruct (decide (v = VNone)) as [-> | Hv].
    + by rewrite load_entry_VNone.
    + by rewrite load_entry_unknown.
Qed.

Lemma load_entries_raise_iff st es :
  (exists e, entries_loop false st es = Raise e) <-> Exists raises es.
Proof.
  revert st. induction es as [|entry es IH]; intros st; cbn [load_entries].
  - split; [by intros [e He] | by intros H%Exists_nil].
  - rewrite Exists_cons, <- (load_entry_raise_iff st entry).
    destruct (entry_step false st entry) as [st'|e] eqn:E.
    + rewrite IH. split; [by right | intros [[e He] | H]; done].
    + split; [intros _; left; by eexists | intros _; by eexists].
Qed.

Lemma load_entries_raise_RuntimeError ign st es e :
  entries_loop ign st es = Raise e -> ign = false /\ exists msg, e = RuntimeError msg.
Proof.
  revert st. induction es as [|entry es IH]; intros st; cbn [load_entries app]; [done |].
  destruct (entry_step ign st entry) as [st'|e'] eqn:E; [apply IH |].
  intros [= <-]. by eapply load_entry_raise_RuntimeError.
Qed.

(** Entries that miss a field leave its value as it was. *)
Lemma load_entries_misses ign uid m w es m' w' :
  Forall (misses uid) es ->
  entries_loop ign (m, w) es = Ok (m', w') -> m' !! uid = m !! uid.
Proof.
  intros H. revert m w. induction H as [|[alias v] es Hmiss _ IH]; intros m w; cbn [load_entries].
  - by intros [= <- <-].
  - destruct (entry_step ign (m, w) (alias, v)) as [[m1 w1]|] eqn:E; [| done].
    intros Hrest. rewrite (IH _ _ Hrest). clear IH Hrest.
    destruct Hmiss as [Hv | Hother]; cbn [fst snd] in *.
    + subst v. rewrite load_entry_VNone in E. by injection E as <- <-.
    + destruct (resolve_alias alias) as [f|] eqn:Hr.
      * rewrite (load_entry_known _ _ _ _ _ f Hr) in E.
        destruct (extract_of f v) as [[j|]|e]; [| | destruct ign]; simplify_eq; try done.
        apply lookup_insert_ne. by apply Hother.
      * destruct (decide (v = VNone)) as [-> | Hv].
        -- rewrite load_entry_VNone in E. by injection E as <- <-.
        -- rewrite load_entry_unknown in E by done. by injection E as <- <-.
Qed.
Lemma load_entries_skip_None ign st pre alias post :
  entries_loop ign st (pre ++ (alias, VNone) :: post) = entries_loop ign st (pre ++ post).
Proof.
  rewrite !load_entries_app. destruct (entries_loop ign st pre) as [st1|]; [| done].
  cbn [load_entries]. by rewrite load_entry_VNone.
Qed.

Lemma load_entries_skip_unknown ign st pre alias v post :
  v <> VNone -> resolve_alias alias = None ->
  match entries_loop ign st (pre ++ post) with
  | Raise e => entries_loop ign st (pre ++ (alias, v) :: post) = Raise e
  | Ok (m, w) =>
      exists w', entries_loop ign st (pre ++ (alias, v) :: post) = Ok (m, w')
                 /\ FieldAliasNotFound alias (dt_code dt) ∈ w'
  end.
Proof.
  intros Hv Hr. rewrite !load_entries_app.
  destruct (entries_loop ign st pre) as [[m1 w1]|]; [| done].
  cbn [load_entries]. rewrite load_entry_unknown by done.
  rewrite (load_entries_warnings ign m1 (w1 ++ _) post), (load_entries_warnings ign m1 w1 post).
  destruct (entries_loop ign (m1, []) post) as [[m2 w2]|]; [| done].
  eexists. split; [reflexivity |]. rewrite !elem_of_app, list_elem_of_singleton. auto.
Qed.

Lemma load_entries_list_first ign st pre alias f texts1 t texts2 j post m w :
  resolve_alias alias = Some f ->
  Forall (fun t' => extract_json extract to_json f t' = Ok None) texts1 ->
  extract_json extract to_json f t = Ok (Some j) ->
  Forall (misses (f_uid f)) post ->
  entries_loop ign st (pre ++ (alias, VList (texts1 ++ t :: texts2)) :: post) = Ok (m, w) ->
  m !! f_uid f = Some j.
Proof.
  intros Hr H1 Ht Hpost. rewrite load_entries_app.
  destruct (entries_loop ign st pre) as [[m1 w1]|]; [| done].
  cbn [load_entries]. rewrite (load_entry_known _ _ _ _ _ f Hr).
  cbn [extract_entry]. rewrite (first_extracted_app f texts1 t texts2 j H1 Ht).
  intros Hrest. rewrite (load_entries_misses _ _ _ _ _ _ _ Hpost Hrest).
  apply lookup_insert_eq.
Qed.

Lemma load_entries_omitted pre alias v f e post :
  resolve_alias alias = Some f -> extract_of f v = Raise e ->
  Forall (misses (f_uid f)) (pre ++ post) ->
  exists m w, entries_loop true (∅, []) (pre ++ (alias, v) :: post) = Ok (m, w)
              /\ m !! f_uid f = None /\ UnableToCast (cast_msg v f) ∈ w.
Proof.
  intros Hr He [Hpre Hpost]%Forall_app. rewrite load_entries_app.
  destruct (load_entries_ignore_total (∅, []) pre) as [[m1 w1] E1]. rewrite E1.
  cbn [load_entries]. rewrite (load_entry_known _ _ _ _ _ f Hr), He.
  rewrite load_entries_warnings.
  destruct (load_entries_ignore_total (m1, []) post) as [[m2 w2] E2]. rewrite E2.
  exists m2, ((w1 ++ [UnableToCast (cast_msg v f)]) ++ w2). split; [done |]. split.
  - rewrite (load_entries_misses _ _ _ _ _ _ _ Hpost E2),
            (load_entries_misses _ _ _ _ _ _ _ Hpre E1). apply lookup_empty.
  - rewrite !elem_of_app, list_elem_of_singleton. auto.
Qed.
End LoadFieldValuesFacts.





(** ** [LoadDocumentWithFields.process] *)



(** ** [identify_document_classes] *)

Section IdentifyClassesFacts.
Import IdentifyClasses.
Context {json : Type}.
Variable CONTRACT GENERIC PROB_KEY : string.
Variable is_contract : string -> result (option (bool * json)).

Local Abbreviation classify_doc := (classify CONTRACT GENERIC PROB_KEY is_contract).
Local Abbreviation classified_doc := (classified CONTRACT GENERIC is_contract).

(** Without [force_recheck] only documents with an empty or null class are
    selected, narrowed by type code and project when these are given. *)
Lemma select_documents_spec code force pid docs doc :
  doc ∈ select_documents code force pid docs ->
  doc ∈ docs
  /\ (force = false -> doc_document_class doc = Some "" \/ doc_document_class doc = None)
  /\ (forall c, code = Some c -> c <> "" -> doc_type_code doc = c)
  /\ (forall p, pid = Some p -> p <> 0 -> doc_project_id doc = p).
Proof.
  unfold select_documents. intros H.
  destruct force, code as [c|], pid as [p|]; cbn [negb] in H;
    repeat case_decide; subst;
    repeat (apply list_elem_of_filter in H as [? H]);
    (split; [done |]); (split; [try done |]); (split; [|]);
    intros; simplify_eq; try done; auto.
Qed.

(** A document for which [is_contract] raises or returns nothing is skipped
    as it is. *)
Lemma classify_skipped doc w :
  (is_contract (default "" (doc_full_text doc)) = Ok None
   \/ exists e, is_contract (default "" (doc_full_text doc)) = Raise e) ->
  classify_doc doc w = (Ok doc, w).
Proof. unfold classify. by intros [-> | [e ->]]. Qed.

(** With a result and a metadata row: the class is set by the first
    component and the probability stored under the key. *)
Lemma classify_with_metadata doc w flag prob meta :
  is_contract (default "" (doc_full_text doc)) = Ok (Some (flag, prob)) ->
  metadata w !! doc_pk doc = Some meta ->
  let doc' := set_document_class (if flag then CONTRACT else GENERIC) doc in
  classify_doc doc w
  = (Ok doc', mkWorld (documents w) (<[doc_pk doc := <[PROB_KEY := prob]> meta]> (metadata w))
                (progress w) (events w ++ [CacheDocumentFields doc'])).
Proof.
  intros Hres Hmeta doc'. unfold classify. rewrite Hres.
  unfold bind at 1, get_metadata. by rewrite Hmeta.
Qed.

(** With a result but no metadata row the lookup raises: nothing is set or
    stored. *)
Lemma classify_without_metadata doc w res :
  is_contract (default "" (doc_full_text doc)) = Ok (Some res) ->
  metadata w !! doc_pk doc = None ->
  classify_doc doc w = (Raise DoesNotExist, w).
Proof.
  intros Hres Hmeta. unfold classify. rewrite Hres.
  unfold bind at 1, get_metadata. by rewrite Hmeta.
Qed.
Lemma report_progress_run counter total (w : @world json) :
  exists p es, report_progress counter total w
               = (Ok tt, mkWorld (documents w) (metadata w) p (events w ++ es)).
Proof.
  unfold report_progress, bind at 1, get. case_decide.
  - eexists _, [_]. reflexivity.
  - exists (progress w), []. unfold ret. destruct w. simpl. by rewrite app_nil_r.
Qed.

(** When every document of the loop has a metadata row, the loop completes
    and leaves each document classified by [is_contract] or, where that
    raised or returned nothing, as it was. *)
Lemma classify_all_with_metadata counter total docs (w : @world json) :
  Forall (fun doc => is_Some (metadata w !! doc_pk doc)) docs ->
  exists docs' w',
    classify_all CONTRACT GENERIC PROB_KEY is_contract counter total docs w = (Ok docs', w')
    /\ Forall2 classified_doc docs docs'.
Proof.
  revert counter w. induction docs as [|doc docs IH]; intros counter w Hmeta.
  - exists [], w. split; [reflexivity | constructor].
  - apply Forall_cons in Hmeta as [[meta Hdoc] Hrest].
    cbn [classify_all]. unfold bind at 1.
    destruct (report_progress_run counter total w) as (p & es & ->).
    set (w0 := mkWorld _ _ p _). unfold bind at 1.
    assert (Hstep : exists doc' w1, classify_doc doc w0 = (Ok doc', w1) /\ classified_doc doc doc'
              /\ forall pk, is_Some (metadata w !! pk) -> is_Some (metadata w1 !! pk)).
    { unfold classified.
      destruct (is_contract (default "" (doc_full_text doc))) as [[[flag prob]|]|e] eqn:Hres.
      - eexists _, _. split; [by apply (classify_with_metadata doc w0 flag prob meta) |].
        split; [done |]. intros pk Hpk. simpl.
        destruct (decide (doc_pk doc = pk)) as [<- | Hne].
        + rewrite lookup_insert_eq. by eexists.
        + by rewrite lookup_insert_ne.
      - exists doc, w0. split; [apply classify_skipped; by left |]. done.
      - exists doc, w0. split; [apply classify_skipped; right; by eexists |]. done. }
    destruct Hstep as (doc' & w1 & -> & Hdoc' & Hkeep).
    destruct (IH (counter + 1) w1) as (docs' & w' & Hrun & Hall).
    { eapply Forall_impl; [exact Hrest |]. intros d Hd. by apply Hkeep. }
    exists (doc' :: docs'), w'. unfold bind at 1. rewrite Hrun.
    split; [reflexivity | by constructor].
Qed.
End IdentifyClassesFacts.


(** C7, the code at the failing input: one unclassified document without a
    [DocumentMetadata] row, for which [is_contract] returns
    [(True, 9/10)].  [DocumentMetadata.objects.get] raises [DoesNotExist]
    (the [if not meta:] fallback after it is never reached); the task stops,
    no class is set and no probability is stored. *)
Theorem identify_document_classes_missing_metadata :
  let doc := IdentifyClasses.mkDocument 1 "nda.pdf" None "generic" 3
               (Some "This Agreement is made between the parties") in
  let w := IdentifyClasses.mkWorld [doc] (∅ : gmap Z (gmap string Q)) 0 [] in
  IdentifyClasses.identify_document_classes "CONTRACT" "GENERIC" "document_class_prob"
    (fun _ => Ok (Some (true, 9 # 10))) None false None w
  = (Raise DoesNotExist, w).
Proof. reflexivity. Qed.

(** * Further properties of the tasks *)

(** ** [ExportDocuments.process]: failures and the content of the archive *)

Section ExportMore.
Import ExportDocuments.
Variable in_memory_export : list Z -> Z -> bool -> result bytes.
Variable export_files : bool.

Local Abbreviation export_one := (export_pack in_memory_export export_files).

Lemma export_pack_subfolders p d r d' :
  export_one p d = (r, d') -> subfolders_are_dirs d -> subfolders_are_dirs d'.
Proof.
  unfold export_pack, bind, lift, mkdir, write_part, modify. intros Hrun Hd.
  destruct (py_min p) as [a|]; [| by simplify_eq].
  destruct (py_max p) as [b|]; [| by simplify_eq].
  destruct (d !! SubFolder a) eqn:Ha; [by simplify_eq |].
  assert (Hd1 : subfolders_are_dirs (<[SubFolder a := Dir]> d)).
  { intros a' e. destruct (decide (a' = a)) as [-> | Hne].
    - rewrite lookup_insert_eq. congruence.
    - rewrite lookup_insert_ne by congruence. apply Hd. }
  destruct (in_memory_export p a export_files) as [z|]; simplify_eq; [| done].
  intros a' e. rewrite lookup_insert_ne by done. apply Hd1.
Qed.

Lemma export_packs_subfolders packs d r d' :
  for_each packs export_one d = (r, d') -> subfolders_are_dirs d -> subfolders_are_dirs d'.
Proof.
  revert d. induction packs as [|p packs IH]; intros d; cbn [for_each].
  - unfold ret. intros [= <- <-]. done.
  - unfold bind at 1. destruct (export_one p d) as [[[]|e] d1] eqn:E.
    + intros Hrun Hd. eapply IH; [exact Hrun |]. by eapply export_pack_subfolders.
    + intros [= <- <-] Hd. by eapply export_pack_subfolders.
Qed.

(** A pack on which the exporter raises stops the loop with that
    exception. *)
Lemma export_pack_raises (p : list Z) (d : tmp_dir) e :
  p <> [] -> d !! SubFolder (pmin p) = None ->
  in_memory_export p (pmin p) export_files = Raise e ->
  (export_one p d).1 = Raise e.
Proof.
  intros Hp Hd He. destruct p as [|x p]; [done |].
  unfold export_pack, py_min, py_max, bind, lift, mkdir.
  by rewrite Hd, He.
Qed.

Lemma for_each_app_raise {S A} (xs ys : list A) (body : A -> M S unit) s s1 y e :
  for_each xs body s = (Ok tt, s1) -> (body y s1).1 = Raise e ->
  (for_each (xs ++ y :: ys) body s).1 = Raise e.
Proof.
  revert s. induction xs as [|x xs IH]; intros s; cbn [for_each app].
  - unfold ret. intros [= <-] Hy. unfold bind.
    by destruct (body y s) as [[[]|e'] s2]; simplify_eq/=.
  - intros Hrun Hy. unfold bind at 1 in Hrun. unfold bind at 1.
    destruct (body x s) as [[[]|e'] s2]; [| done]. by apply IH.
Qed.
End ExportMore.

(** X1. If the exporter raises on a pack of a duplicate-free id list (the
    packs before it exported), [ExportDocuments.process] raises that
    exception and the storage is as before: no partial archive is
    written. *)
Theorem export_documents_exporter_failure
    (in_memory_export : list Z -> Z -> bool -> result ExportDocuments.bytes)
    (document_ids : list Z) (file_path : string) (export_files : bool)
    (st : gmap string (gmap ExportDocuments.tmp_name ExportDocuments.bytes))
    (done_packs : list (list Z)) (failing : list Z) (rest : list (list Z)) (e : exn) :
  NoDup document_ids ->
  chunks (merge_sort Z.le document_ids) ExportDocuments.DOC_PER_PACK
  = done_packs ++ failing :: rest ->
  Forall (fun p => is_ok (in_memory_export p (ExportDocuments.pmin p) export_files) = true)
         done_packs ->
  in_memory_export failing (ExportDocuments.pmin failing) export_files = Raise e ->
  ExportDocuments.process in_memory_export document_ids file_path export_files st
  = (Raise e, st).
Proof.
  intros Hnd Hpacks Hdone Hfail.
  destruct (sorted_packs_facts document_ids Hnd) as (_ & _ & Hne & _ & _ & Hmins).
  cbv zeta in Hne, Hmins. rewrite Hpacks in Hne, Hmins.
  apply Forall_app in Hne as [Hne1 Hne2]. apply Forall_cons in Hne2 as [Hnef _].
  rewrite map_app in Hmins. apply NoDup_app in Hmins as (Hnd1 & Hdisj & _).
  destruct (export_packs_ok in_memory_export export_files done_packs ∅)
    as (d1 & Hrun & _ & Hframe); [done | done | done | |].
  { apply Forall_forall. intros p _. apply lookup_empty. }
  assert (Hfree : d1 !! ExportDocuments.SubFolder (ExportDocuments.pmin failing) = None).
  { rewrite Hframe; [apply lookup_empty |]. intros p Hp. split; [done |].
    intros [= Heq]. eapply (Hdisj (ExportDocuments.pmin p)).
    - by apply list_elem_of_fmap_2.
    - rewrite <- Heq. simpl. left. }
  pose proof (for_each_app_raise done_packs rest
                (ExportDocuments.export_pack in_memory_export export_files) ∅ d1 failing e Hrun
                (export_pack_raises in_memory_export export_files failing d1 e Hnef Hfree Hfail))
    as Hloop.
  unfold ExportDocuments.process. rewrite Hpacks.
  destruct (for_each (done_packs ++ failing :: rest)
              (ExportDocuments.export_pack in_memory_export export_files) ∅) as [r d2].
  simpl in Hloop. subst r. reflexivity.
Qed.

Lemma export_documents_exporter_failure_witness :
  let exporter := fun (p : list Z) (_ : Z) (_ : bool) =>
                    if decide (length p = 10%nat) then Ok [] else Raise (External "disk full") in
  ExportDocuments.process exporter [12; 11; 10; 9; 8; 7; 6; 5; 4; 3; 2; 1] "export.zip" true
    {["old.zip" := ∅]}
  = (Raise (External "disk full"), {["old.zip" := ∅]}).
Proof.
  intros exporter.
  apply (export_documents_exporter_failure exporter _ _ _ _
           [[1; 2; 3; 4; 5; 6; 7; 8; 9; 10]] [11; 12] []).
  - apply (bool_decide_unpack _). reflexivity.
  - reflexivity.
  - repeat constructor.
  - reflexivity.
Defined.

(** X2. For a duplicate-free id list on which the exporter succeeds, the
    members of the archive written to the storage are exactly the part files
    of the packs: a name is in the archive iff it is
    [part_{min}_{max}.zip] of some pack, with that pack's bytes; the
    per-pack subfolders are not archived. *)
Theorem export_documents_archive_members
    (in_memory_export : list Z -> Z -> bool -> result ExportDocuments.bytes)
    (document_ids : list Z) (file_path : string) (export_files : bool)
    (st : gmap string (gmap ExportDocuments.tmp_name ExportDocuments.bytes)) :
  NoDup document_ids ->
  let packs := chunks (merge_sort Z.le document_ids) ExportDocuments.DOC_PER_PACK in
  Forall (fun p => is_ok (in_memory_export p (ExportDocuments.pmin p) export_files) = true)
         packs ->
  exists archive,
    ExportDocuments.process in_memory_export document_ids file_path export_files st
    = (Ok tt, <[file_path := archive]> st)
    /\ (forall name z,
          archive !! name = Some z
          <-> exists p, p ∈ packs
                /\ name = ExportDocuments.PartZip (ExportDocuments.pmin p) (ExportDocuments.pmax p)
                /\ in_memory_export p (ExportDocuments.pmin p) export_files = Ok z)
    /\ (forall first_id, archive !! ExportDocuments.SubFolder first_id = None).
Proof.
  intros Hnd packs Hexp.
  destruct (sorted_packs_facts document_ids Hnd) as (_ & _ & Hne & _ & _ & Hmins).
  fold packs in Hne, Hmins.
  destruct (export_packs_ok in_memory_export export_files packs ∅)
    as (d' & Hrun & Hparts & Hframe); [done | done | done | |].
  { apply Forall_forall. intros p _. apply lookup_empty. }
  assert (Hdirs : subfolders_are_dirs d').
  { eapply export_packs_subfolders; [exact Hrun |]. intros a e. by rewrite lookup_empty. }
  exists (ExportDocuments.zip_files d'). split; [| split].
  - unfold ExportDocuments.process. fold packs. by rewrite Hrun.
  - intros name z. unfold ExportDocuments.zip_files. rewrite lookup_omap. split.
    + intros Hz.
      destruct (decide (Exists (fun p => name = ExportDocuments.PartZip (ExportDocuments.pmin p)
                                                  (ExportDocuments.pmax p)
                                         \/ name = ExportDocuments.SubFolder
                                                     (ExportDocuments.pmin p)) packs))
        as [Hex | Hnex].
      * apply Exists_exists in Hex as (p & Hp & [-> | ->]).
        -- rewrite Forall_forall in Hexp. specialize (Hexp p Hp).
           destruct (in_memory_export p (ExportDocuments.pmin p) export_files) as [zp|] eqn:Ez;
             [| done].
           rewrite (Hparts p zp Hp Ez) in Hz. simpl in Hz. injection Hz as <-.
           by exists p.
        -- destruct (d' !! ExportDocuments.SubFolder (ExportDocuments.pmin p)) as [ent|] eqn:Ed;
             [| done].
           rewrite (Hdirs _ _ Ed) in Hz. done.
      * rewrite Hframe, lookup_empty in Hz; [done |].
        intros p Hp. split; intros ->; apply Hnex, Exists_exists; exists p; auto.
    + intros (p & Hp & -> & Hz). by rewrite (Hparts p z Hp Hz).
  - intros a. unfold ExportDocuments.zip_files. rewrite lookup_omap.
    destruct (d' !! ExportDocuments.SubFolder a) as [ent|] eqn:Ed; [| done].
    by rewrite (Hdirs _ _ Ed).
Qed.

Lemma export_documents_archive_members_witness :
  exists archive,
    ExportDocuments.process (fun p _ _ => Ok (map (fun _ => Byte.x2a) p)) [5; 9; 2] "a.zip" false ∅
    = (Ok tt, {["a.zip" := archive]})
    /\ archive !! ExportDocuments.SubFolder 2 = None.
Proof.
  destruct (export_documents_archive_members (fun p _ _ => Ok (map (fun _ => Byte.x2a) p))
              [5; 9; 2] "a.zip" false ∅) as (archive & Hrun & _ & Hsub).
  - apply (bool_decide_unpack _). reflexivity.
  - repeat constructor.
  - exists archive. split; [exact Hrun | apply Hsub].
Defined.

(** ** [ImportDocumentType.process]: early exits and the caching sub-tasks *)

Section ImportMore.
Import ImportDocumentType.
Context {DB DocumentType : Type}.

Lemma for_each_run_sub_tasks (packs : list (list Z)) (w : @world DB) :
  for_each packs (fun chunk => run_sub_tasks [chunk]) w
  = (Ok tt, World (db_cache w) (db w) (sub_tasks w ++ packs)).
Proof.
  revert w. induction packs as [|p packs IH]; intros w; cbn [for_each].
  - unfold ret. destruct w. simpl. by rewrite app_nil_r.
  - unfold bind at 1. unfold run_sub_tasks at 1. cbn [for_each].
    unfold bind, modify, ret. rewrite IH. simpl. by rewrite <- app_assoc.
Qed.
End ImportMore.

(** X3. For a known action, [ImportDocumentType.process] leaves everything
    as it is when it fails before the import: a non-empty [source_version]
    that [int] rejects raises [ValueError] ahead of the [try], so the cached
    upload stays in [DbCache]; a dict without ['cache_key'] raises
    [KeyError] and the import is not attempted. *)
Theorem import_document_type_early_exits
    {DB DocumentType : Type} (CURRENT_VERSION : Z) (py_int : string -> option Z)
    (import_document_type :
       option ExportDocuments.bytes -> bool -> bool -> bool -> Z -> DB -> result DocumentType * DB)
    (raw_db_disabled : DB -> bool)
    (adapt_table_structure : DocumentType -> DB -> result unit * DB)
    (document_ids_of_type : DocumentType -> DB -> list Z)
    (cfg : gmap string string) (action : string) (update_cache : bool)
    (source_version : option string) (w : ImportDocumentType.world) (flags : bool * bool * bool) :
  ImportDocumentType.action_flags action = Ok flags ->
  let process := ImportDocumentType.process CURRENT_VERSION py_int import_document_type
                   raw_db_disabled adapt_table_structure document_ids_of_type in
  (forall s, source_version = Some s -> s <> "" -> py_int s = None ->
     process cfg action update_cache source_version w = (Raise ValueError, w))
  /\ (forall v, ImportDocumentType.resolve_version CURRENT_VERSION py_int source_version = Ok v ->
        cfg !! "cache_key" = None ->
        process cfg action update_cache source_version w = (Raise (KeyError "cache_key"), w)).
Proof.
  intros Hflags process. subst process. unfold ImportDocumentType.process.
  rewrite Hflags, bind_lift_Ok. destruct flags as [[save autofix] rm]. cbv beta iota. split.
  - intros s -> Hs Hint. unfold ImportDocumentType.resolve_version.
    rewrite decide_False by done. rewrite Hint. reflexivity.
  - intros v Hv Hkey. rewrite Hv, bind_lift_Ok. unfold bind at 1.
    unfold try_finally, bind, lift, ImportDocumentType.cache_key. rewrite Hkey. reflexivity.
Qed.

Lemma import_document_type_early_exits_witness :
  let w := ImportDocumentType.World {["upload-1" := [Byte.x7b]]} tt [] in
  ImportDocumentType.process 75 (fun _ => None) (fun _ _ _ _ _ (d : unit) => (Ok tt, d))
    (fun _ => false) (fun _ d => (Ok tt, d)) (fun _ _ => [1; 2])
    {["cache_key" := "upload-1"]} "validate|import" true (Some "v74") w
  = (Raise ValueError, w).
Proof.
  intros w.
  destruct (import_document_type_early_exits 75 (fun _ => None)
              (fun _ _ _ _ _ (d : unit) => (Ok tt, d))
              (fun _ => false) (fun _ d => (Ok tt, d)) (fun _ _ => [1; 2])
              {["cache_key" := "upload-1"]} "validate|import" true (Some "v74") w
              (true, false, false)) as [H _]; [reflexivity |].
  apply (H "v74"); [reflexivity | discriminate | reflexivity].
Defined.

(** X4. After a successful import with [save] and [update_cache] (and the
    RawDB table adapted, unless RawDB caching is disabled), the task starts
    the field-caching sub-tasks over the documents of the imported type in
    consecutive lists of at most 50 ids that together are the id list: every
    document is cached by exactly one sub-task.  Without [save] or without
    [update_cache] no sub-task is started. *)
Theorem import_document_type_caching_sub_tasks
    {DB DocumentType : Type} (CURRENT_VERSION : Z) (py_int : string -> option Z)
    (import_document_type :
       option ExportDocuments.bytes -> bool -> bool -> bool -> Z -> DB -> result DocumentType * DB)
    (raw_db_disabled : DB -> bool)
    (adapt_table_structure : DocumentType -> DB -> result unit * DB)
    (document_ids_of_type : DocumentType -> DB -> list Z)
    (cfg : gmap string string) (action : string) (update_cache : bool)
    (source_version : option string) (w : ImportDocumentType.world)
    (save auto_fix remove_missed : bool) (v : Z) (key : string)
    (dt : DocumentType) (db1 : DB) :
  ImportDocumentType.action_flags action = Ok (save, auto_fix, remove_missed) ->
  ImportDocumentType.resolve_version CURRENT_VERSION py_int source_version = Ok v ->
  cfg !! "cache_key" = Some key ->
  import_document_type (ImportDocumentType.db_cache w !! key) save auto_fix remove_missed v
    (ImportDocumentType.db w) = (Ok dt, db1) ->
  let out := ImportDocumentType.process CURRENT_VERSION py_int import_document_type
               raw_db_disabled adapt_table_structure document_ids_of_type
               cfg action update_cache source_version w in
  (save && update_cache = false ->
   ImportDocumentType.sub_tasks out.2 = ImportDocumentType.sub_tasks w)
  /\ (save && update_cache = true ->
      forall db2,
        (if raw_db_disabled db1 then (Ok tt, db1) else adapt_table_structure dt db1)
        = (Ok tt, db2) ->
        let ids := document_ids_of_type dt db2 in
        out = (Ok tt, ImportDocumentType.World (delete key (ImportDocumentType.db_cache w)) db2
                        (ImportDocumentType.sub_tasks w ++ chunks ids 50))
        /\ concat (chunks ids 50) = ids
        /\ Forall (fun c => (0 < length c <= 50)%nat) (chunks ids 50)).
Proof.
  intros Hflags Hver Hkey Himp out.
  assert (Hout : out
    = (if negb (save && update_cache) then ret tt
       else
         let! w := get in
         run! (if negb (raw_db_disabled (ImportDocumentType.db w))
               then ImportDocumentType.on_db (adapt_table_structure dt)
               else ret tt) in
         let! w := get in
         let ids := document_ids_of_type dt (ImportDocumentType.db w) in
         for_each (chunks ids 50) (fun chunk => ImportDocumentType.run_sub_tasks [chunk]))
        (ImportDocumentType.World (delete key (ImportDocumentType.db_cache w)) db1
           (ImportDocumentType.sub_tasks w))).
  { subst out. unfold ImportDocumentType.process.
    rewrite Hflags, bind_lift_Ok. cbv beta iota. rewrite Hver, bind_lift_Ok.
    unfold bind at 1.
    rewrite (import_try_finally import_document_type cfg key save auto_fix remove_missed v w Hkey).
    rewrite Himp. reflexivity. }
  split.
  - intros Hs. rewrite Hout, Hs. reflexivity.
  - intros Hs db2 Hadapt ids. rewrite Hout, Hs. cbn [negb].
    unfold bind at 1, get. unfold bind at 1. cbn [ImportDocumentType.db].
    assert (Hstep : (if negb (raw_db_disabled db1)
                     then ImportDocumentType.on_db (adapt_table_structure dt)
                     else ret tt)
                      (ImportDocumentType.World (delete key (ImportDocumentType.db_cache w)) db1
                         (ImportDocumentType.sub_tasks w))
                    = (Ok tt, ImportDocumentType.World (delete key (ImportDocumentType.db_cache w))
                                db2 (ImportDocumentType.sub_tasks w))).
    { destruct (raw_db_disabled db1); cbn [negb].
      - injection Hadapt as <-. reflexivity.
      - unfold ImportDocumentType.on_db. cbn [ImportDocumentType.db]. by rewrite Hadapt. }
    rewrite Hstep. unfold bind at 1, get. cbv zeta. cbn [ImportDocumentType.db].
    rewrite for_each_run_sub_tasks. split; [reflexivity |].
    split; [apply chunks_concat; lia | apply chunks_bounds; lia].
Qed.

Lemma import_document_type_caching_sub_tasks_witness :
  let w := ImportDocumentType.World {["upload-1" := [Byte.x7b]]} tt [] in
  ImportDocumentType.process 75 (fun _ => None) (fun _ _ _ _ _ (d : unit) => (Ok tt, d))
    (fun _ => true) (fun _ d => (Ok tt, d)) (fun _ _ => [4; 8; 15])
    {["cache_key" := "upload-1"]} "validate|import" true None w
  = (Ok tt, ImportDocumentType.World (delete "upload-1" {["upload-1" := [Byte.x7b]]}) tt [[4; 8; 15]]).
Proof.
  intros w.
  destruct (import_document_type_caching_sub_tasks 75 (fun _ => None)
              (fun _ _ _ _ _ (d : unit) => (Ok tt, d))
              (fun _ => true) (fun _ d => (Ok tt, d)) (fun _ _ => [4; 8; 15])
              {["cache_key" := "upload-1"]} "validate|import" true None w
              true false false 75 "upload-1" tt tt) as [_ H];
    [reflexivity | reflexivity | reflexivity | reflexivity |].
  destruct (H eq_refl tt eq_refl) as [Hout _]. exact Hout.
Defined.

(** ** Training tasks: what they leave alone, and the test fan-out *)

Section TrainingMore.
Import Training.

Lemma foldr_max_upper (l : list Z) k : k ∈ l -> k <= foldr Z.max 0 l.
Proof.
  induction l as [|x l IH]; [by intros ?%elem_of_nil |].
  intros [-> | Hk]%elem_of_cons; simpl; [lia |]. specialize (IH Hk). lia.
Qed.

(** The key given to a new row is positive and not in use. *)
Lemma fresh_pk_fresh (t : gmap Z ClassifierModel) : t !! fresh_pk t = None /\ 1 <= fresh_pk t.
Proof.
  unfold fresh_pk. set (l := map fst (map_to_list t)). split.
  - destruct (t !! (1 + foldr Z.max 0 l)) as [x|] eqn:E; [| done].
    apply elem_of_map_to_list in E.
    apply (list_elem_of_fmap_2 fst) in E. change (1 + foldr Z.max 0 l ∈ l) in E.
    apply foldr_max_upper in E. lia.
  - assert (0 <= foldr Z.max 0 l); [| lia].
    clearbody l. induction l; simpl; lia.
Qed.

Lemma replaced_other_rows field m d k x :
  classifier_models d !! k = Some x -> cm_document_field x <> df_uid field ->
  classifier_models (replaced field m d) !! k = Some x.
Proof.
  intros Hk Hx. unfold replaced. simpl.
  pose proof (other_models_after_delete (df_uid field) (classifier_models d) k x Hk Hx) as Hf.
  rewrite lookup_insert_ne; [done |].
  intros <-. destruct (fresh_pk_fresh (filter (fun kv : Z * ClassifierModel =>
                 cm_document_field kv.2 <> df_uid field) (classifier_models d))) as [Hfresh _].
  congruence.
Qed.

Lemma replaced_new_row field m d :
  classifier_models (replaced field m d) !! replaced_pk field d = Some m.
Proof. unfold replaced, replaced_pk. simpl. apply lookup_insert_eq. Qed.

Variable trainer :
  db -> DocumentField -> option (list Z) -> train_options -> result (option ClassifierModel).
Variable documents_of_projects : db -> list Z -> string -> list Z.
Variable active_modified_ids : db -> DocumentField -> list Z -> list Z.
Variable finished_ids : db -> string -> list Z -> list Z.

Lemma add_started_nil (d : db) : add_started [] d = d.
Proof. destruct d. unfold add_started. simpl. by rewrite app_nil_r. Qed.

(** The testing half, when testing is asked for. *)
Lemma start_tests_exact kwargs field pk d :
  skip_testing kwargs = false ->
  truthy_list (test_data_projects_ids kwargs) = true ->
  let ids := test_document_ids_of documents_of_projects active_modified_ids finished_ids
               kwargs field d in
  start_tests documents_of_projects active_modified_ids finished_ids kwargs field pk d
  = (Ok tt,
     match ids with
     | [] => d
     | _ :: _ => add_started (map (TestFieldDetectorModel (df_uid field)) ids
                              ++ [JoinFieldDetectorModelTests (df_uid field) pk]) d
     end).
Proof.
  intros Hskip Hprojects ids. unfold start_tests. rewrite Hskip, Hprojects. cbn [negb].
  cbv zeta. unfold bind at 1, get. fold (test_document_ids_of documents_of_projects
    active_modified_ids finished_ids kwargs field d). fold ids.
  destruct ids as [|doc ids']; [reflexivity |].
  cbn [map]. unfold bind, modify. f_equal.
  destruct d. unfold add_started. simpl. rewrite <- !app_assoc. simpl.
  by rewrite map_map.
Qed.
End TrainingMore.

Section TrainingRuns.
Import Training.
Variable trainer :
  db -> DocumentField -> option (list Z) -> train_options -> result (option ClassifierModel).
Variable can_retrain : DocumentField -> bool.
Variable approved_number : db -> DocumentField -> Z.

Lemma train_model_for_field_eq uid field d :
  document_fields d !! uid = Some field ->
  train_model_for_field trainer uid d
  = match trainer d field None DefaultOptions with
    | Ok (Some m) => (Ok tt, replaced field m d)
    | Ok None => (Ok tt, d)
    | Raise e => (Raise e, d)
    end.
Proof.
  intros Hf. destruct (trainer d field None DefaultOptions) as [r|e] eqn:E.
  - rewrite (train_model_for_field_run trainer uid field d r Hf E). by destruct r.
  - unfold train_model_for_field, bind at 1. rewrite (get_document_field_Some _ _ _ Hf).
    unfold train, bind, get, lift. by rewrite E.
Qed.

Lemma get_document_field_None uid d :
  document_fields d !! uid = None -> get_document_field uid d = (Raise DoesNotExist, d).
Proof. intros H. unfold get_document_field. by rewrite H. Qed.

Lemma train_model_for_dirty_field_blocked uid field d :
  document_fields d !! uid = Some field -> can_retrain field = false ->
  train_model_for_dirty_field trainer can_retrain approved_number uid d = (Ok tt, d).
Proof.
  intros Hf Hc. unfold train_model_for_dirty_field, bind at 1.
  by rewrite (get_document_field_Some _ _ _ Hf), Hc.
Qed.
End TrainingRuns.

(** X5. Training a field never touches the classifier models of other
    fields: in [train_model_for_field], [train_model_for_dirty_field] and
    [TrainAndTest.process], whatever the trainer returns or raises, a
    persisted model of another field is still there, under its key, after
    the task. *)
Theorem training_keeps_models_of_other_fields
    (trainer : Training.db -> Training.DocumentField -> option (list Z) ->
               Training.train_options -> result (option Training.ClassifierModel))
    (can_retrain : Training.DocumentField -> bool)
    (approved_number : Training.db -> Training.DocumentField -> Z)
    (documents_of_projects : Training.db -> list Z -> string -> list Z)
    (active_modified_ids : Training.db -> Training.DocumentField -> list Z -> list Z)
    (finished_ids : Training.db -> string -> list Z -> list Z)
    (d : Training.db) (uid : string) (field : Training.DocumentField)
    (k : Z) (x : Training.ClassifierModel) :
  Training.document_fields d !! uid = Some field ->
  Training.classifier_models d !! k = Some x ->
  Training.cm_document_field x <> Training.df_uid field ->
  Training.classifier_models (Training.train_model_for_field trainer uid d).2 !! k = Some x
  /\ Training.classifier_models
       (Training.train_model_for_dirty_field trainer can_retrain approved_number uid d).2 !! k
     = Some x
  /\ (forall kwargs, Training.document_field_id kwargs = uid ->
        Training.classifier_models
          (Training.train_and_test_process trainer documents_of_projects active_modified_ids
             finished_ids kwargs d).2 !! k = Some x).
Proof.
  intros Hf Hk Hx. split; [| split].
  - rewrite (train_model_for_field_eq trainer uid field d Hf).
    destruct (trainer d field None Training.DefaultOptions) as [[m|]|e]; simpl; try done.
    by apply replaced_other_rows.
  - destruct (can_retrain field) eqn:Hc.
    + rewrite (train_model_for_dirty_field_run trainer can_retrain approved_number uid field d Hf Hc).
      cbv zeta. destruct (Z.leb _ _); [| done].
      destruct (trainer _ _ None Training.DefaultOptions) as [[m|]|e]; simpl; try done.
      by apply (replaced_other_rows (Training.set_dirty false field)).
    + by rewrite (train_model_for_dirty_field_blocked trainer can_retrain approved_number
                    uid field d Hf Hc).
  - intros kwargs <-.
    rewrite (train_and_test_process_run trainer documents_of_projects active_modified_ids
               finished_ids kwargs field d Hf). cbv zeta.
    destruct (if Training.skip_training kwargs then Ok None else _) as [[m|]|e]; [| | done].
    + destruct (start_tests_run documents_of_projects active_modified_ids finished_ids kwargs
                  field (Some (replaced_pk field d)) (replaced field m d)) as [ts ->].
      simpl. by apply replaced_other_rows.
    + destruct (start_tests_run documents_of_projects active_modified_ids finished_ids kwargs
                  field None d) as [ts ->]. done.
Qed.

Lemma training_keeps_models_of_other_fields_witness :
  let f1 := Training.mkDocumentField "f1" "effective_date" "lease" false 3 in
  let other := Training.mkClassifierModel "f2" [Byte.x02] None in
  let new := Training.mkClassifierModel "f1" [Byte.x03] None in
  let d := Training.mkDb {["f1" := f1]}
             {[1 := Training.mkClassifierModel "f1" [Byte.x01] None; 2 := other]} [] in
  Training.classifier_models
    (Training.train_model_for_field (fun _ _ _ _ => Ok (Some new)) "f1" d).2 !! 2 = Some other.
Proof.
  intros f1 other new d.
  destruct (training_keeps_models_of_other_fields (fun _ _ _ _ => Ok (Some new))
              (fun _ => true) (fun _ _ => 0) (fun _ _ _ => []) (fun _ _ _ => [])
              (fun _ _ _ => []) d "f1" f1 2 other) as [H _];
    [reflexivity | reflexivity | discriminate | exact H].
Defined.

(** X6. A training task that fails deletes nothing.  When the field does
    not exist each of the three tasks raises [DoesNotExist] and changes
    nothing; when the trainer raises, its exception is the task's and every
    persisted classifier model is kept ([train_model_for_dirty_field] has
    then already cleared the dirty flag); a field that cannot be retrained is
    left as it is, dirty flag included. *)
Theorem failed_training_keeps_classifier_models
    (trainer : Training.db -> Training.DocumentField -> option (list Z) ->
               Training.train_options -> result (option Training.ClassifierModel))
    (can_retrain : Training.DocumentField -> bool)
    (approved_number : Training.db -> Training.DocumentField -> Z)
    (documents_of_projects : Training.db -> list Z -> string -> list Z)
    (active_modified_ids : Training.db -> Training.DocumentField -> list Z -> list Z)
    (finished_ids : Training.db -> string -> list Z -> list Z)
    (d : Training.db) (uid : string) :
  (Training.document_fields d !! uid = None ->
     Training.train_model_for_field trainer uid d = (Raise DoesNotExist, d)
     /\ Training.train_model_for_dirty_field trainer can_retrain approved_number uid d
        = (Raise DoesNotExist, d)
     /\ forall kwargs, Training.document_field_id kwargs = uid ->
          Training.train_and_test_process trainer documents_of_projects active_modified_ids
            finished_ids kwargs d = (Raise DoesNotExist, d))
  /\ (forall field, Training.document_fields d !! uid = Some field ->
        (forall e, trainer d field None Training.DefaultOptions = Raise e ->
           Training.train_model_for_field trainer uid d = (Raise e, d))
        /\ (forall kwargs e,
              Training.document_field_id kwargs = uid -> Training.skip_training kwargs = false ->
              trainer d field (Training.train_data_project_ids kwargs)
                (Training.Options (Training.use_only_confirmed_field_values_for_training kwargs)
                   (Training.split_and_log_out_of_sample_test_report kwargs)) = Raise e ->
              Training.train_and_test_process trainer documents_of_projects active_modified_ids
                finished_ids kwargs d = (Raise e, d))
        /\ (can_retrain field = false ->
            Training.train_model_for_dirty_field trainer can_retrain approved_number uid d
            = (Ok tt, d))
        /\ (let field' := Training.set_dirty false field in
            let d1 := Training.set_document_fields
                        (fun t => <[Training.df_uid field := field']> t) d in
            forall e, can_retrain field = true ->
              Training.df_trained_after_documents_number field <= approved_number d1 field' ->
              trainer d1 field' None Training.DefaultOptions = Raise e ->
              Training.train_model_for_dirty_field trainer can_retrain approved_number uid d
              = (Raise e, d1)
              /\ Training.classifier_models d1 = Training.classifier_models d)).
Proof.
  split.
  - intros Hnone. split; [| split].
    + unfold Training.train_model_for_field, bind at 1.
      by rewrite (get_document_field_None uid d Hnone).
    + unfold Training.train_model_for_dirty_field, bind at 1.
      by rewrite (get_document_field_None uid d Hnone).
    + intros kwargs <-. unfold Training.train_and_test_process, bind at 1.
      by rewrite (get_document_field_None _ d Hnone).
  - intros field Hf. split; [| split; [| split]].
    + intros e He. by rewrite (train_model_for_field_eq trainer uid field d Hf), He.
    + intros kwargs e <- Hskip He.
      rewrite (train_and_test_process_run trainer documents_of_projects active_modified_ids
                 finished_ids kwargs field d Hf). cbv zeta. by rewrite Hskip, He.
    + by apply train_model_for_dirty_field_blocked.
    + intros field' d1 e Hc Hn He.
      rewrite (train_model_for_dirty_field_run trainer can_retrain approved_number uid field d Hf Hc).
      cbv zeta. fold field' d1. by rewrite (proj2 (Z.leb_le _ _) Hn), He.
Qed.

Lemma failed_training_keeps_classifier_models_witness :
  let d := Training.mkDb ∅ {[1 := Training.mkClassifierModel "f1" [Byte.x01] None]} [] in
  Training.train_model_for_field (fun _ _ _ _ => Ok None) "f1" d = (Raise DoesNotExist, d).
Proof.
  intros d.
  destruct (failed_training_keeps_classifier_models (fun _ _ _ _ => Ok None) (fun _ => true)
              (fun _ _ => 0) (fun _ _ _ => []) (fun _ _ _ => []) (fun _ _ _ => []) d "f1")
    as [H _].
  destruct H as [H _]; [reflexivity | exact H].
Defined.

Section JoinSaves.
Import Training JoinTests.

(** A report with a model id means the accuracy was saved on that row. *)
Lemma join_saves_accuracy results is_choice_field field_uid pk d rep d2 :
  pk <> 0 ->
  join_field_detector_model_tests results is_choice_field field_uid (Some pk) d = (Ok rep, d2) ->
  exists m0, classifier_models d !! pk = Some m0
    /\ classifier_models d2
       = <[pk := mkClassifierModel (cm_document_field m0) (cm_trained_model m0)
                   (Some (rp_accuracy rep))]> (classifier_models d).
Proof.
  intros Hpk Hrun.
  destruct (count_results counters0 results) as [c|e] eqn:Hc.
  2: { unfold join_field_detector_model_tests in Hrun. by rewrite Hc in Hrun. }
  destruct (py_div (match_number c) (test_doc_number c)) as [accuracy|e] eqn:Ha.
  2: { unfold join_field_detector_model_tests in Hrun.
       by rewrite Hc, bind_lift_Ok, Ha in Hrun. }
  rewrite (join_run results is_choice_field field_uid (Some pk) d c accuracy Hc Ha) in Hrun.
  unfold truthy_id in Hrun. rewrite decide_False in Hrun by done.
  rewrite save_accuracy_run in Hrun.
  destruct (classifier_models d !! pk) as [m0|] eqn:Hm; [| done].
  exists m0. split; [done |].
  destruct (document_fields _ !! field_uid) as [field|]; [| done].
  destruct (is_choice_field field).
  - destruct (accuracy_items _ _); [| done]. by injection Hrun as <- <-.
  - by injection Hrun as <- <-.
Qed.
End JoinSaves.





(** ** [join_field_detector_model_tests]: what the figures are *)

Section JoinFigures.
Import Training JoinTests.

Lemma count_result_figures c res c' v :
  count_result c res = Ok c' ->
  match_number c' = (match_number c + (if result_matches res then 1 else 0))%nat
  /\ test_text_units_number c' = test_text_units_number c + result_units res
  /\ default 0%nat (total_per_value c' !! v)
     = (default 0 (total_per_value c !! v)
        + (if decide (result_value res = Some v) then 1 else 0))%nat
  /\ default 0%nat (matches_per_value c' !! v)
     = (default 0 (matches_per_value c !! v)
        + (if decide (result_value res = Some v /\ result_matches res = true) then 1 else 0))%nat.
Proof.
  destruct res as [res|]; [| done]. unfold count_result, result_matches, result_value, result_units.
  assert (Hup : forall u (m : gmap string nat),
            default 0%nat (count_up u m !! v)
            = (default 0 (m !! v) + (if decide (Some u = Some v) then 1 else 0))%nat).
  { intros u m. rewrite count_up_lookup. destruct (decide (u = v)) as [-> | Hne].
    - rewrite decide_True by done. lia.
    - rewrite decide_False by congruence. lia. }
  destruct (value_matches_expected res), (truthy_str (actual_field_value res)) as [u|];
    intros [= <-]; cbn [match_number test_text_units_number total_per_value matches_per_value];
    rewrite ?Hup.
  - repeat split; try lia.
    destruct (decide (Some u = Some v)) as [Huv | Huv].
    + rewrite decide_True by done. lia.
    + rewrite decide_False by (by intros [? _]). lia.
  - rewrite !decide_False by (by intros [? _] || done). repeat split; lia.
  - rewrite (decide_False (P := _ /\ _)) by (by intros [_ ?]). repeat split; lia.
  - rewrite !decide_False by (by intros [? _] || done). repeat split; lia.
Qed.

Lemma count_results_figures results c c' v :
  count_results c results = Ok c' ->
  match_number c' = (match_number c + length (filter (fun r => result_matches r = true) results))%nat
  /\ test_text_units_number c' = test_text_units_number c + foldr Z.add 0 (map result_units results)
  /\ default 0%nat (total_per_value c' !! v)
     = (default 0 (total_per_value c !! v) + count_value v results)%nat
  /\ default 0%nat (matches_per_value c' !! v)
     = (default 0 (matches_per_value c !! v) + count_value_matches v results)%nat.
Proof.
  revert c. induction results as [|res results IH]; intros c; cbn [count_results].
  - intros [= <-]. unfold count_value, count_value_matches. simpl. repeat split; lia.
  - destruct (count_result c res) as [c1|] eqn:E; [| done]. intros Hrest.
    destruct (count_result_figures c res c1 v E) as (H1 & H2 & H3 & H4).
    destruct (IH c1 Hrest) as (G1 & G2 & G3 & G4).
    unfold count_value, count_value_matches in *. rewrite !filter_cons. cbn [map foldr].
    rewrite G1, G2, G3, G4, H1, H2, H3, H4.
    repeat split.
    + destruct (result_matches res); [rewrite decide_True by done | rewrite decide_False by done];
        simpl; lia.
    + lia.
    + repeat case_decide; simpl; try lia; done.
    + repeat case_decide; simpl; try lia; done.
Qed.

(** A null result stops the loop with [AttributeError]. *)
Lemma count_results_null results c :
  None ∈ results -> count_results c results = Raise AttributeError.
Proof.
  revert c. induction results as [|res results IH]; intros c Hin; [by apply elem_of_nil in Hin |].
  cbn [count_results]. destruct res as [res|]; [| reflexivity].
  apply elem_of_cons in Hin as [? | Hin]; [done |].
  destruct (count_result c (Some res)) as [c1|e] eqn:E; [by apply IH |].
  simpl in E. by destruct (value_matches_expected res).
Qed.

(** The per-value quotients, key by key. *)
Lemma accuracy_items_ok (matches : gmap string nat) items l :
  accuracy_items matches items = Ok l ->
  l = map (fun vt => (vt.1, Z.of_nat (default 0%nat (matches !! vt.1)) # Pos.of_nat vt.2)) items
  /\ Forall (fun vt => (1 <= vt.2)%nat) items.
Proof.
  revert l. induction items as [|[v t] items IH]; intros l; cbn [accuracy_items].
  - intros [= <-]. done.
  - destruct (py_div _ t) as [q|] eqn:E; [| done].
    destruct (accuracy_items matches items) as [rest|]; [| done]. intros [= <-].
    destruct (IH rest eq_refl) as [-> Hall].
    destruct t as [|t]; [done |]. injection E as <-. split; [done |].
    constructor; [simpl; lia | done].
Qed.
End JoinFigures.

(** X9. [join_field_detector_model_tests] fails before it writes: if one
    of the collected results is null (a test sub-task that left no result)
    the task raises [AttributeError] and no classifier model is changed, and
    a given classifier model id that has no row raises [DoesNotExist] with
    nothing changed either. *)
Theorem join_tests_failures_write_nothing
    (results : list (option JoinTests.test_result))
    (is_choice_field : Training.DocumentField -> bool)
    (field_uid : string) (classifier_model_id : option Z) (d : Training.db) :
  (None ∈ results ->
   JoinTests.join_field_detector_model_tests results is_choice_field field_uid
     classifier_model_id d = (Raise AttributeError, d))
  /\ (forall pk, classifier_model_id = Some pk -> pk <> 0 ->
        results <> [] -> Forall is_Some results ->
        Training.classifier_models d !! pk = None ->
        JoinTests.join_field_detector_model_tests results is_choice_field field_uid
          classifier_model_id d = (Raise DoesNotExist, d)).
Proof.
  split.
  - intros Hnull. unfold JoinTests.join_field_detector_model_tests.
    by rewrite (count_results_null results _ Hnull).
  - intros pk -> Hpk Hne Hall Hrow.
    destruct (count_results_total results JoinTests.counters0 Hall) as [c Hc].
    destruct (count_results_ok results _ c counters0_ok Hc) as [Hok Hlen]. simpl in Hlen.
    destruct (JoinTests.py_div (JoinTests.match_number c) (JoinTests.test_doc_number c))
      as [accuracy|e] eqn:Ha.
    2: { rewrite Hlen in Ha. destruct results; done. }
    rewrite (join_run results is_choice_field field_uid (Some pk) d c accuracy Hc Ha).
    unfold JoinTests.truthy_id. rewrite decide_False by done.
    by rewrite save_accuracy_run, Hrow.
Qed.

Lemma join_tests_failures_write_nothing_witness :
  let d := Training.mkDb ∅ {[4 := Training.mkClassifierModel "f1" [] None]} [] in
  JoinTests.join_field_detector_model_tests
    [Some (JoinTests.mkTestResult None None true); None] (fun _ => true) "f1" (Some 4) d
  = (Raise AttributeError, d).
Proof.
  intros d.
  destruct (join_tests_failures_write_nothing
              [Some (JoinTests.mkTestResult None None true); None] (fun _ => true) "f1"
              (Some 4) d) as [H _].
  apply H. apply list_elem_of_In. right. left. reflexivity.
Defined.



(** ** [load_field_values]: where the values come from *)

Section LoadFieldValuesMore.
Import LoadDocumentWithFields.
Context {value json : Type}.
Variable lower : string -> string.
Variable extract : field -> string -> result (option value).
Variable to_json : field -> value -> result json.
Variable cast_msg : field_input -> field -> string.

Lemma codes_to_fields_foldl (fields : list field) (m0 : gmap string field) k f :
  foldl (fun m f => <[lower (f_code f) := f]> m) m0 fields !! k = Some f ->
  m0 !! k = Some f \/ (f ∈ fields /\ lower (f_code f) = k).
Proof.
  revert m0. induction fields as [|g fields IH]; intros m0; cbn [foldl]; [by left |].
  intros H. destruct (IH _ H) as [H0 | [Hin Hk]].
  - destruct (decide (lower (f_code g) = k)) as [<- | Hne].
    + rewrite lookup_insert_eq in H0. injection H0 as ->. right. split; [left | done].
    + rewrite lookup_insert_ne in H0 by done. by left.
  - right. split; [by right | done].
Qed.

Lemma codes_to_fields_elem (fields : list field) k f :
  codes_to_fields lower fields !! k = Some f -> f ∈ fields /\ lower (f_code f) = k.
Proof.
  intros H. apply codes_to_fields_foldl in H as [H | H]; [| done].
  by rewrite lookup_empty in H.
Qed.

Lemma with_aliases_foldl (base : gmap string field) aliases (m0 : gmap string (option field)) k f :
  foldl (fun m (ac : string * string) =>
           if decide (ac.1 <> "" /\ ac.2 <> "")
           then <[lower ac.1 := base !! lower ac.2]> m else m) m0 aliases !! k = Some (Some f) ->
  m0 !! k = Some (Some f) \/ exists k', base !! k' = Some f.
Proof.
  revert m0. induction aliases as [|[a c] aliases IH]; intros m0; cbn [foldl]; [by left |].
  intros H. destruct (IH _ H) as [H0 | H0]; [| by right].
  case_decide; [| by left].
  destruct (decide (lower a = k)) as [<- | Hne].
  - rewrite lookup_insert_eq in H0. injection H0 as H0. right. by eexists.
  - rewrite lookup_insert_ne in H0 by done. by left.
Qed.

(** Whatever an alias resolves to is a field of the document type. *)
Lemma resolve_elem dt alias f :
  resolve lower dt alias = Some f -> f ∈ dt_fields dt.
Proof.
  unfold resolve, field_codes_to_fields.
  destruct (_ !! lower alias) as [[g|]|] eqn:E; try done. intros [= ->].
  assert (Hbase : forall k, (Some <$> codes_to_fields lower (dt_fields dt)) !! k = Some (Some f) ->
                            f ∈ dt_fields dt).
  { intros k Hk. rewrite lookup_fmap in Hk.
    destruct (codes_to_fields lower (dt_fields dt) !! k) as [g|] eqn:Eg; [| done].
    injection Hk as ->. by apply codes_to_fields_elem in Eg as [? _]. }
  destruct (dt_field_code_aliases dt) as [[|a aliases]|]; [by eapply Hbase | | by eapply Hbase].
  unfold with_aliases in E. apply with_aliases_foldl in E as [E | [k' E]].
  - by eapply Hbase.
  - by apply codes_to_fields_elem in E as [? _].
Qed.

(** The last alias entered for a key decides what the key resolves to, also
    when the key is the code of a field. *)
Lemma with_aliases_last (base : gmap string field) aliases a c :
  a <> "" -> c <> "" ->
  with_aliases lower base (aliases ++ [(a, c)]) !! lower a = Some (base !! lower c).
Proof.
  intros Ha Hc. unfold with_aliases. rewrite foldl_app. cbn [foldl fst snd].
  rewrite decide_True by done. apply lookup_insert_eq.
Qed.

Local Abbreviation entry_step := (load_entry lower extract to_json cast_msg).
Local Abbreviation entries_loop := (load_entries lower extract to_json cast_msg).

(** Every value of the mapping was extracted from an entry that resolves to
    its field. *)
Lemma load_entries_provenance dt ign m0 w0 es m w uid j :
  entries_loop dt ign (m0, w0) es = Ok (m, w) -> m !! uid = Some j ->
  m0 !! uid = Some j
  \/ exists alias v f, (alias, v) ∈ es /\ resolve lower dt alias = Some f /\ f_uid f = uid
       /\ extract_entry extract to_json f v = Ok (Some j).
Proof.
  revert m0 w0. induction es as [|[alias v] es IH]; intros m0 w0; cbn [load_entries].
  - intros [= <- <-]. by left.
  - destruct (entry_step dt ign (m0, w0) (alias, v)) as [[m1 w1]|] eqn:E; [| done].
    intros Hrest Hj. destruct (IH m1 w1 Hrest Hj) as [H1 | (a & v' & f & Hin & Hr & Hu & He)].
    2: { right. exists a, v', f. split; [by right | done]. }
    destruct (resolve lower dt alias) as [f|] eqn:Hr.
    + rewrite (load_entry_known lower extract to_json cast_msg dt ign m0 w0 alias v f Hr) in E.
      destruct (extract_entry extract to_json f v) as [[j'|]|e] eqn:He;
        [| | destruct ign]; simplify_eq; try by left.
      destruct (decide (f_uid f = uid)) as [Hu | Hne].
      * rewrite Hu, lookup_insert_eq in H1. injection H1 as ->.
        right. exists alias, v, f. split; [left | done].
      * rewrite lookup_insert_ne in H1 by done. by left.
    + destruct (decide (v = VNone)) as [-> | Hv].
      * rewrite load_entry_VNone in E. simplify_eq. by left.
      * rewrite (load_entry_unknown lower extract to_json cast_msg dt) in E by done.
        simplify_eq. by left.
Qed.

(** An entry that does not raise is handled alike with and without
    [ignore_parsing_errors]. *)
Lemma load_entries_ignore_agree dt st es r :
  entries_loop dt false st es = Ok r -> entries_loop dt true st es = Ok r.
Proof.
  revert st. induction es as [|[alias v] es IH]; intros [m w]; cbn [load_entries]; [done |].
  assert (Hstep : forall st', entry_step dt false (m, w) (alias, v) = Ok st' ->
                              entry_step dt true (m, w) (alias, v) = Ok st').
  { intros st'. destruct (resolve lower dt alias) as [f|] eqn:Hr.
    - rewrite !(load_entry_known lower extract to_json cast_msg dt _ m w alias v f Hr).
      by destruct (extract_entry extract to_json f v) as [[j|]|e].
    - destruct (decide (v = VNone)) as [-> | Hv].
      + by rewrite !load_entry_VNone.
      + by rewrite !(load_entry_unknown lower extract to_json cast_msg dt) by done. }
  destruct (entry_step dt false (m, w) (alias, v)) as [st'|] eqn:E; [| done].
  rewrite (Hstep st' eq_refl). apply IH.
Qed.
End LoadFieldValuesMore.

(** X11. [load_field_values] returns values only for fields of the
    document's type, and each of them was extracted from an entry of the
    incoming dict whose alias resolves to that field: a key of the mapping is
    the key of a field [f] of the type, for which some entry [(alias, v)]
    resolves to [f] and extracts exactly the stored value. *)
Theorem load_field_values_provenance
    {value json : Type} (lower : string -> string)
    (extract : LoadDocumentWithFields.field -> string -> result (option value))
    (to_json : LoadDocumentWithFields.field -> value -> result json)
    (cast_msg : LoadDocumentWithFields.field_input -> LoadDocumentWithFields.field -> string)
    (doc : LoadDocumentWithFields.document)
    (entries : list (string * LoadDocumentWithFields.field_input)) (ign : bool)
    (m : gmap string json) (w : list LoadDocumentWithFields.warning) (uid : string) (j : json) :
  LoadDocumentWithFields.load_field_values lower extract to_json cast_msg doc entries ign
  = Ok (m, w) ->
  m !! uid = Some j ->
  exists dt alias v f,
    LoadDocumentWithFields.doc_document_type doc = Some dt
    /\ f ∈ LoadDocumentWithFields.dt_fields dt
    /\ LoadDocumentWithFields.f_uid f = uid
    /\ (alias, v) ∈ entries
    /\ LoadDocumentWithFields.resolve lower dt alias = Some f
    /\ LoadDocumentWithFields.extract_entry extract to_json f v = Ok (Some j).
Proof.
  unfold LoadDocumentWithFields.load_field_values.
  destruct (LoadDocumentWithFields.doc_document_type doc) as [dt|].
  - intros Hrun Hj.
    destruct (load_entries_provenance lower extract to_json cast_msg dt ign ∅ [] entries m w
                uid j Hrun Hj) as [H0 | (alias & v & f & Hin & Hr & Hu & He)].
    + by rewrite lookup_empty in H0.
    + exists dt, alias, v, f. repeat split; try done. by eapply resolve_elem.
  - intros [= <- <-]. by rewrite lookup_empty.
Qed.

Lemma load_field_values_provenance_witness :
  exists dt alias v f,
    LoadDocumentWithFields.doc_document_type LoadExample.doc = Some dt
    /\ f ∈ LoadDocumentWithFields.dt_fields dt
    /\ LoadDocumentWithFields.f_uid f = "u1"
    /\ (alias, v) ∈ [("note", LoadDocumentWithFields.VText "x");
                     ("total", LoadDocumentWithFields.VList [""; "42"; "n/a"])]
    /\ LoadDocumentWithFields.resolve (fun s => s) dt alias = Some f
    /\ LoadDocumentWithFields.extract_entry LoadExample.extract LoadExample.to_json f v
       = Ok (Some 42).
Proof.
  apply (load_field_values_provenance (fun s => s) LoadExample.extract LoadExample.to_json
           LoadExample.cast_msg LoadExample.doc _ false {["u1" := 42]}
           [LoadDocumentWithFields.FieldAliasNotFound "note" "lease"]); reflexivity.
Defined.

(** X12. [ignore_parsing_errors] only matters when something fails to
    parse: whenever [load_field_values] returns without it, it returns the
    same mapping and the same warnings with it. *)
Theorem load_field_values_ignore_agrees
    {value json : Type} (lower : string -> string)
    (extract : LoadDocumentWithFields.field -> string -> result (option value))
    (to_json : LoadDocumentWithFields.field -> value -> result json)
    (cast_msg : LoadDocumentWithFields.field_input -> LoadDocumentWithFields.field -> string)
    (doc : LoadDocumentWithFields.document)
    (entries : list (string * LoadDocumentWithFields.field_input))
    (r : gmap string json * list LoadDocumentWithFields.warning) :
  LoadDocumentWithFields.load_field_values lower extract to_json cast_msg doc entries false = Ok r ->
  LoadDocumentWithFields.load_field_values lower extract to_json cast_msg doc entries true = Ok r.
Proof.
  unfold LoadDocumentWithFields.load_field_values.
  destruct (LoadDocumentWithFields.doc_document_type doc) as [dt|]; [| done].
  apply load_entries_ignore_agree.
Qed.

Lemma load_field_values_ignore_agrees_witness :
  LoadExample.load [("amount", LoadDocumentWithFields.VText "42")] true
  = Ok ({["u1" := 42]}, []).
Proof.
  apply (load_field_values_ignore_agrees (fun s => s) LoadExample.extract LoadExample.to_json
           LoadExample.cast_msg LoadExample.doc). reflexivity.
Defined.

(** X13. Aliases take precedence over field codes: the last entry of
    [field_code_aliases] (with non-empty alias and code) decides what its
    alias resolves to, namely the field whose lower-cased code is the
    lower-cased target, or nothing when there is no such field, even if
    the alias is itself the code of a field of the type. *)
Theorem resolve_alias_shadows_code
    (lower : string -> string) (dt : LoadDocumentWithFields.document_type)
    (aliases : list (string * string)) (a c alias : string) :
  LoadDocumentWithFields.dt_field_code_aliases dt = Some (aliases ++ [(a, c)]) ->
  a <> "" -> c <> "" -> lower alias = lower a ->
  LoadDocumentWithFields.resolve lower dt alias
  = LoadDocumentWithFields.codes_to_fields lower (LoadDocumentWithFields.dt_fields dt) !! lower c.
Proof.
  intros Hal Ha Hc Hlow. unfold LoadDocumentWithFields.resolve,
    LoadDocumentWithFields.field_codes_to_fields. rewrite Hal, Hlow.
  destruct (aliases ++ [(a, c)]) as [|x xs] eqn:E; [by destruct aliases |].
  rewrite <- E. by rewrite with_aliases_last.
Qed.

Lemma resolve_alias_shadows_code_witness :
  LoadDocumentWithFields.resolve (fun s => s)
    (LoadDocumentWithFields.mkDocumentType "lease" (Some [("amount", "price")])
       [LoadExample.amount]) "amount" = None.
Proof.
  rewrite (resolve_alias_shadows_code (fun s => s) _ [] "amount" "price" "amount");
    [reflexivity | reflexivity | discriminate | discriminate | reflexivity].
Defined.

(** ** [LoadDocumentWithFields.process] and [create_document]: the other exits *)

(** X14. The exits of [process] around the inline document.  Without the
    project the task raises [DoesNotExist] and does nothing.  With it, once
    the inline document (if any) is loaded: a request that carries no
    [source_data] key raises [KeyError] with the inline document left stored,
    and a [source_data] that is [None] or empty ends the task there, with no
    listing and no sub-task. *)
Theorem load_document_with_fields_process_exits
    {value json : Type} (lower : string -> string)
    (extract : LoadDocumentWithFields.field -> string -> result (option value))
    (to_json : LoadDocumentWithFields.field -> value -> result json)
    (cast_msg : LoadDocumentWithFields.field_input -> LoadDocumentWithFields.field -> string)
    (list_documents : string -> list string)
    (store_document : LoadDocumentWithFields.document -> gmap string json -> bool -> result unit)
    (kw : LoadProcess.kwargs) (w : @LoadProcess.world json) :
  let process := LoadProcess.process lower extract to_json cast_msg list_documents
                   store_document kw in
  (LoadProcess.projects w !! LoadProcess.project_id kw = None ->
   process w = (Raise DoesNotExist, w))
  /\ (forall project_type w1,
        LoadProcess.projects w !! LoadProcess.project_id kw = Some project_type ->
        match LoadProcess.document_fields kw with
        | [] => (Ok tt, w)
        | _ :: _ =>
            LoadProcess.load_doc lower extract to_json cast_msg store_document
              (LoadDocumentWithFields.mkDocument (LoadProcess.document_name kw)
                 (LoadProcess.project_id kw) project_type)
              (LoadProcess.document_fields kw) (LoadProcess.run_detect_field_values kw) w
        end = (Ok tt, w1) ->
        (LoadProcess.source_data kw = None ->
         process w = (Raise (KeyError "source_data"), w1))
        /\ (LoadProcess.source_data kw = Some None \/ LoadProcess.source_data kw = Some (Some "") ->
            process w = (Ok tt, w1))).
Proof.
  intros process. split.
  - intros Hp. unfold process, LoadProcess.process, LoadProcess.get_project.
    unfold bind at 1. by rewrite Hp.
  - intros project_type w1 Hp Hinline.
    assert (Hrun : process w
      = (let! path := lift (match LoadProcess.source_data kw with
                            | Some p => Ok p
                            | None => Raise (KeyError "source_data")
                            end) in
         match LoadProcess.truthy_path path with
         | None => ret tt
         | Some path =>
             let file_list := list_documents path in
             if decide (length file_list = 0%nat) then
               raise (RuntimeError ("Wrong file or directory name or directory is empty: "
                                    +:+ path))
             else
               LoadProcess.run_sub_tasks
                 (map (fun file_path => (file_path, LoadProcess.project_id kw,
                                         LoadProcess.run_detect_field_values kw)) file_list)
         end) w1).
    { unfold process, LoadProcess.process, LoadProcess.get_project.
      unfold bind at 1. rewrite Hp. unfold bind at 1.
      destruct (LoadProcess.document_fields kw); [unfold ret in *; by simplify_eq |].
      by rewrite Hinline. }
    rewrite Hrun. split.
    + intros ->. reflexivity.
    + intros [-> | ->]; reflexivity.
Qed.

Lemma load_document_with_fields_process_exits_witness :
  LoadProcess.process (fun s => s) LoadExample.extract LoadExample.to_json LoadExample.cast_msg
    (fun _ => ["a.json"]) (fun _ _ _ => Ok tt)
    (LoadProcess.mkKwargs (Some "inline") 1 false
       [("amount", LoadDocumentWithFields.VText "42")] None)
    (LoadProcess.mkWorld {[1 := Some LoadExample.lease]} [])
  = (Raise (KeyError "source_data"),
     LoadProcess.mkWorld {[1 := Some LoadExample.lease]}
       [LoadProcess.LoadedDocument
          (LoadDocumentWithFields.mkDocument (Some "inline") 1 (Some LoadExample.lease))
          {["u1" := 42]} false]).
Proof.
  eapply (load_document_with_fields_process_exits (fun s => s) LoadExample.extract
            LoadExample.to_json LoadExample.cast_msg (fun _ => ["a.json"]) (fun _ _ _ => Ok tt)
            (LoadProcess.mkKwargs (Some "inline") 1 false
               [("amount", LoadDocumentWithFields.VText "42")] None)
            (LoadProcess.mkWorld {[1 := Some LoadExample.lease]} [])); reflexivity.
Defined.

(** X15. What a [create_document] sub-task leaves behind.  It never
    touches the projects.  It ends normally exactly when the file was read
    and parsed, the project exists, every value was cast and the store went
    through, and then it logs the warnings of [load_field_values] and records
    one loaded document, named after the file and typed by the project.
    When it raises, whatever it added is log lines: no document is
    recorded as loaded. *)
Theorem create_document_outcome
    {value json : Type} (lower : string -> string)
    (extract : LoadDocumentWithFields.field -> string -> result (option value))
    (to_json : LoadDocumentWithFields.field -> value -> result json)
    (cast_msg : LoadDocumentWithFields.field_input -> LoadDocumentWithFields.field -> string)
    (store_document : LoadDocumentWithFields.document -> gmap string json -> bool -> result unit)
    (read_json : string -> result (string * list (string * LoadDocumentWithFields.field_input)))
    (uri : string) (project_id : Z) (run_detect : bool) (w : @LoadProcess.world json) :
  let run := CreateDocument.create_document lower extract to_json cast_msg store_document
               read_json uri project_id run_detect w in
  LoadProcess.projects run.2 = LoadProcess.projects w
  /\ (run.1 = Ok tt <->
      exists name data ty m ws,
        read_json uri = Ok (name, data)
        /\ LoadProcess.projects w !! project_id = Some ty
        /\ LoadDocumentWithFields.load_field_values lower extract to_json cast_msg
             (LoadDocumentWithFields.mkDocument (Some name) project_id ty) data false
           = Ok (m, ws)
        /\ store_document (LoadDocumentWithFields.mkDocument (Some name) project_id ty) m
             run_detect = Ok tt
        /\ LoadProcess.events run.2
           = LoadProcess.events w ++ map LoadProcess.Warned ws
             ++ [LoadProcess.LoadedDocument
                   (LoadDocumentWithFields.mkDocument (Some name) project_id ty) m run_detect])
  /\ (forall e, run.1 = Raise e ->
      exists ws, LoadProcess.events run.2 = LoadProcess.events w ++ map LoadProcess.Warned ws).
Proof.
  intros run. subst run.
  unfold CreateDocument.create_document, LoadProcess.get_project, LoadProcess.load_doc,
    LoadProcess.emit, bind, lift, modify.
  destruct (read_json uri) as [[name data]|e1] eqn:Hread; cbn [fst snd].
  2: { split; [done |]. split; [split; [done | by intros (? & ? & ? & ? & ? & ? & _)] |].
       intros _ _. exists []. by rewrite app_nil_r. }
  destruct (LoadProcess.projects w !! project_id) as [ty|] eqn:Hp; cbn [fst snd].
  2: { split; [done |]. split; [split; [done | by intros (? & ? & ? & ? & ? & _ & ? & _)] |].
       intros _ _. exists []. by rewrite app_nil_r. }
  destruct (LoadDocumentWithFields.load_field_values lower extract to_json cast_msg
              (LoadDocumentWithFields.mkDocument (Some name) project_id ty) data false)
    as [[m ws]|e2] eqn:Hload; cbn [fst snd].
  2: { split; [done |]. split.
       - split; [done |]. intros (n' & d' & ty' & m' & ws' & [= <- <-] & [= <-] & Hl & _).
         by rewrite Hload in Hl.
       - intros _ _. exists []. by rewrite app_nil_r. }
  destruct (store_document (LoadDocumentWithFields.mkDocument (Some name) project_id ty) m
              run_detect) as [[]|e3] eqn:Hstore; cbn [fst snd LoadProcess.projects LoadProcess.events].
  - split; [done |]. split; [| done]. split; [| done]. intros _.
    exists name, data, ty, m, ws. by rewrite <- app_assoc.
  - split; [done |]. split.
    + split; [done |]. intros (n' & d' & ty' & m' & ws' & [= <- <-] & [= <-] & Hl & Hs & _).
      rewrite Hload in Hl. injection Hl as <- <-. by rewrite Hstore in Hs.
    + intros _ _. by exists ws.
Qed.

(** ** Status and assignee changes: failing lookups and the sub-tasks *)

Section StatusSubTasksFacts.
Import StatusChanged StatusSubTasks.

Lemma status_sub_task_run rs docs us evs c sid uid is_active :
  rs !! sid = Some is_active ->
  (forall pk, uid = Some pk -> pk ∈ us) ->
  _process_documents_status_changed c sid uid (mkWorld rs docs us evs)
  = (Ok tt, mkWorld rs docs us (evs ++ chunk_events docs is_active sid uid c)).
Proof.
  intros Hstatus Huser.
  unfold _process_documents_status_changed, bind at 1.
  unfold get_review_status. cbn [review_statuses]. rewrite Hstatus.
  unfold bind at 1, get_changed_by_user. cbn [users].
  assert (Hu : (match uid with
                | None => (Ok None, mkWorld rs docs us evs)
                | Some pk => if decide (pk ∈ us) then (Ok (Some pk), mkWorld rs docs us evs)
                             else (Raise DoesNotExist, mkWorld rs docs us evs)
                end) = (Ok uid, mkWorld rs docs us evs)).
  { destruct uid as [pk|]; [| done]. by rewrite decide_True by auto. }
  rewrite Hu. unfold bind at 1, chunk_events.
  destruct is_active; cbn [negb].
  - unfold ret, bind, get, emit, modify. reflexivity.
  - unfold bind at 1, get. rewrite for_each_emit.
    unfold bind, get, emit, modify, docs_qr. cbn. by rewrite <- app_assoc.
Qed.

Lemma status_sub_tasks_run rs docs us sid uid is_active (cs : list (list Z)) evs :
  rs !! sid = Some is_active ->
  (forall pk, uid = Some pk -> pk ∈ us) ->
  run_sub_tasks (map (fun l => (l, sid, uid)) cs) (mkWorld rs docs us evs)
  = (Ok tt, mkWorld rs docs us
              (evs ++ concat (map (chunk_events docs is_active sid uid) cs))).
Proof.
  intros Hstatus Huser. revert evs.
  induction cs as [|c cs IH]; intros evs; unfold run_sub_tasks; cbn [map for_each concat].
  - unfold ret. by rewrite app_nil_r.
  - unfold bind at 1. cbn [fst snd].
    rewrite (status_sub_task_run rs docs us evs c sid uid is_active Hstatus Huser).
    fold (run_sub_tasks (map (fun l => (l, sid, uid)) cs)).
    rewrite IH. by rewrite <- app_assoc.
Qed.

Lemma fired_documents_app es1 es2 :
  fired_documents (es1 ++ es2) = fired_documents es1 ++ fired_documents es2.
Proof. unfold fired_documents. by rewrite flat_map_app. Qed.

Lemma hidden_values_deleted_app es1 es2 :
  hidden_values_deleted (es1 ++ es2) = hidden_values_deleted es1 ++ hidden_values_deleted es2.
Proof. unfold hidden_values_deleted. by rewrite flat_map_app. Qed.

Lemma signals_app es1 es2 : signals (es1 ++ es2) = (signals es1 + signals es2)%nat.
Proof. unfold signals. by rewrite flat_map_app, length_app. Qed.

Lemma fired_documents_deletes (l : list Z) :
  fired_documents (map DeleteHiddenFieldValuesIfNeeded l) = [].
Proof. induction l as [|x l IH]; [done | exact IH]. Qed.

Lemma hidden_values_deleted_deletes (l : list Z) :
  hidden_values_deleted (map DeleteHiddenFieldValuesIfNeeded l) = l.
Proof. induction l as [|x l IH]; [done |]. cbn. by f_equal. Qed.

Lemma signals_deletes (l : list Z) : signals (map DeleteHiddenFieldValuesIfNeeded l) = 0%nat.
Proof.
  induction l as [|x l IH]; [done | exact IH].
Qed.

Lemma chunk_events_figures docs is_active sid uid c :
  fired_documents (chunk_events docs is_active sid uid c) = filter (fun pk => pk ∈ c) docs
  /\ hidden_values_deleted (chunk_events docs is_active sid uid c)
     = (if is_active then [] else filter (fun pk => pk ∈ c) docs)
  /\ signals (chunk_events docs is_active sid uid c) = 1%nat.
Proof.
  unfold chunk_events.
  rewrite fired_documents_app, hidden_values_deleted_app, signals_app.
  destruct is_active.
  - cbn. by rewrite app_nil_r.
  - rewrite fired_documents_deletes, hidden_values_deleted_deletes, signals_deletes.
    cbn. by rewrite !app_nil_r.
Qed.

Lemma chunks_events_figures docs is_active sid uid (cs : list (list Z)) :
  let es := concat (map (chunk_events docs is_active sid uid) cs) in
  fired_documents es = concat (map (fun c => filter (fun pk => pk ∈ c) docs) cs)
  /\ hidden_values_deleted es
     = (if is_active then [] else concat (map (fun c => filter (fun pk => pk ∈ c) docs) cs))
  /\ signals es = length cs.
Proof.
  induction cs as [|c cs IH]; cbn [map concat length].
  - by destruct is_active.
  - cbn zeta in IH. destruct IH as (IH1 & IH2 & IH3).
    destruct (chunk_events_figures docs is_active sid uid c) as (H1 & H2 & H3).
    rewrite fired_documents_app, hidden_values_deleted_app, signals_app.
    rewrite H1, H2, H3, IH1, IH2, IH3. by destruct is_active.
Qed.

Lemma filter_elem_of_app_perm (docs c rest : list Z) :
  (forall pk, pk ∈ c -> pk ∈ rest -> False) ->
  filter (fun pk => pk ∈ c) docs ++ filter (fun pk => pk ∈ rest) docs
  ≡ₚ filter (fun pk => pk ∈ c ++ rest) docs.
Proof.
  intros Hdisj. induction docs as [|d docs IH]; [done |].
  destruct (decide (d ∈ c)) as [Hc | Hc]; destruct (decide (d ∈ rest)) as [Hr | Hr].
  - destruct (Hdisj d Hc Hr).
  - rewrite (filter_cons_True (fun pk => pk ∈ c)) by done.
    rewrite (filter_cons_False (fun pk => pk ∈ rest)) by done.
    rewrite (filter_cons_True (fun pk => pk ∈ c ++ rest)) by (apply elem_of_app; by left).
    cbn. by rewrite IH.
  - rewrite (filter_cons_False (fun pk => pk ∈ c)) by done.
    rewrite (filter_cons_True (fun pk => pk ∈ rest)) by done.
    rewrite (filter_cons_True (fun pk => pk ∈ c ++ rest)) by (apply elem_of_app; by right).
    rewrite <- Permutation_middle. by rewrite IH.
  - rewrite (filter_cons_False (fun pk => pk ∈ c)) by done.
    rewrite (filter_cons_False (fun pk => pk ∈ rest)) by done.
    rewrite (filter_cons_False (fun pk => pk ∈ c ++ rest))
      by (rewrite elem_of_app; tauto).
    exact IH.
Qed.

Lemma filter_chunks_perm (docs : list Z) (cs : list (list Z)) :
  NoDup (concat cs) ->
  concat (map (fun c => filter (fun pk => pk ∈ c) docs) cs)
  ≡ₚ filter (fun pk => pk ∈ concat cs) docs.
Proof.
  induction cs as [|c cs IH]; cbn [map concat]; intros Hnd.
  - induction docs as [|d docs IHd]; [done |].
    rewrite filter_cons_False by (apply not_elem_of_nil). exact IHd.
  - apply NoDup_app in Hnd as (_ & Hdisj & Hrest).
    rewrite (IH Hrest). apply filter_elem_of_app_perm. exact Hdisj.
Qed.
End StatusSubTasksFacts.

(** X16. [_process_documents_status_changed] looks both rows up before it
    touches anything: when the review status does not exist, or a changing
    user is named and does not exist, it raises [DoesNotExist] and has made
    no call, neither for hidden field values nor to the signal. *)
Theorem status_changed_missing_rows
    (doc_ids : list Z) (new_status_id : Z) (changed_by_user_id : option Z)
    (w : StatusChanged.world) :
  StatusChanged.review_statuses w !! new_status_id = None
  \/ (exists pk, changed_by_user_id = Some pk /\ pk ∉ StatusChanged.users w) ->
  StatusChanged._process_documents_status_changed doc_ids new_status_id changed_by_user_id w
  = (Raise DoesNotExist, w).
Proof.
  intros H. unfold StatusChanged._process_documents_status_changed, bind at 1.
  unfold StatusChanged.get_review_status.
  destruct (StatusChanged.review_statuses w !! new_status_id) as [is_active|] eqn:Hs; [| done].
  destruct H as [H | (pk & -> & Hpk)]; [done |].
  unfold bind at 1, StatusChanged.get_changed_by_user. by rewrite decide_False by done.
Qed.

Lemma status_changed_missing_rows_witness :
  let w := StatusChanged.mkWorld {[2 := false]} [10; 11] {[7]} [] in
  StatusChanged._process_documents_status_changed [10; 11] 2 (Some 8) w
  = (Raise DoesNotExist, w).
Proof.
  intros w. apply (status_changed_missing_rows [10; 11] 2 (Some 8) w).
  right. exists 8. split; [reflexivity |]. subst w. cbn. set_solver.
Defined.

(** X17. [process_documents_status_changed] followed by its sub-tasks
    ([chunks] modelled as the successive slices, the sub-tasks run in the
    order they were started): with a positive [DOC_NUMBER_PER_SUB_TASK],
    the status and the user found and no id listed twice, all sub-tasks end
    normally, there is one signal per chunk, the signals together name
    exactly the listed documents that exist (each once), and
    [delete_hidden_field_values_if_needed] was called for exactly those
    documents when the status is not active and for none when it is. *)
Theorem status_changed_sub_tasks_cover
    (N : nat) (doc_ids : list Z) (new_status_id : Z) (changed_by_user_id : option Z)
    (w : StatusChanged.world) (is_active : bool) :
  (0 < N)%nat ->
  StatusChanged.review_statuses w !! new_status_id = Some is_active ->
  (forall pk, changed_by_user_id = Some pk -> pk ∈ StatusChanged.users w) ->
  NoDup doc_ids ->
  exists es,
    StatusSubTasks.run_sub_tasks
      (StatusSubTasks.process_documents_status_changed N doc_ids new_status_id
         changed_by_user_id) w
    = (Ok tt, StatusChanged.mkWorld (StatusChanged.review_statuses w)
                (StatusChanged.documents w) (StatusChanged.users w)
                (StatusChanged.events w ++ es))
    /\ StatusSubTasks.signals es = length (chunks doc_ids N)
    /\ StatusSubTasks.fired_documents es ≡ₚ StatusChanged.docs_qr doc_ids w
    /\ StatusSubTasks.hidden_values_deleted es
       ≡ₚ (if is_active then [] else StatusChanged.docs_qr doc_ids w).
Proof.
  intros HN Hstatus Huser Hnd. destruct w as [rs docs us evs].
  cbn [StatusChanged.review_statuses StatusChanged.documents StatusChanged.users
       StatusChanged.events] in *.
  exists (concat (map (StatusSubTasks.chunk_events docs is_active new_status_id
                         changed_by_user_id)
                      (chunks doc_ids N))).
  destruct (chunks_events_figures docs is_active new_status_id changed_by_user_id
              (chunks doc_ids N)) as (H1 & H2 & H3).
  assert (Hperm : concat (map (fun c => filter (fun pk => pk ∈ c) docs) (chunks doc_ids N))
                  ≡ₚ StatusChanged.docs_qr doc_ids (StatusChanged.mkWorld rs docs us evs)).
  { unfold StatusChanged.docs_qr. cbn [StatusChanged.documents].
    rewrite filter_chunks_perm by (by rewrite chunks_concat).
    by rewrite chunks_concat. }
  split; [| split; [| split]].
  - unfold StatusSubTasks.process_documents_status_changed.
    by apply status_sub_tasks_run.
  - exact H3.
  - rewrite H1. exact Hperm.
  - rewrite H2. destruct is_active; [done | exact Hperm].
Qed.

Lemma status_changed_sub_tasks_cover_witness :
  let w := StatusChanged.mkWorld {[2 := false]} [10; 11; 12; 13] {[7]} [] in
  exists es,
    StatusSubTasks.run_sub_tasks
      (StatusSubTasks.process_documents_status_changed 2 [13; 10; 99; 12] 2 (Some 7)) w
    = (Ok tt, StatusChanged.mkWorld {[2 := false]} [10; 11; 12; 13] {[7]} ([] ++ es))
    /\ StatusSubTasks.signals es = 2%nat
    /\ StatusSubTasks.fired_documents es ≡ₚ [10; 12; 13]
    /\ StatusSubTasks.hidden_values_deleted es ≡ₚ [10; 12; 13].
Proof.
  intros w.
  apply (status_changed_sub_tasks_cover 2 [13; 10; 99; 12] 2 (Some 7) w false).
  - lia.
  - reflexivity.
  - intros pk [= <-]. subst w. cbn. set_solver.
  - by apply (bool_decide_unpack _).
Defined.

Section AssigneeFacts.
Import AssigneeChanged.

Lemma assignee_sub_task_run us evs c aid uid :
  (forall pk, uid = Some pk -> pk ∈ us) ->
  _process_documents_assignee_changed c aid uid (mkWorld us evs)
  = (Ok tt, mkWorld us (evs ++ [FireDocumentsAssigneeChanged c aid uid])).
Proof.
  intros Huser.
  unfold _process_documents_assignee_changed, bind, get_changed_by_user, emit, modify.
  cbn [users].
  destruct uid as [pk|]; [| done]. by rewrite decide_True by auto.
Qed.

Lemma assignee_sub_tasks_run us aid uid (cs : list (list Z)) evs :
  (forall pk, uid = Some pk -> pk ∈ us) ->
  run_sub_tasks (map (fun l => (l, aid, uid)) cs) (mkWorld us evs)
  = (Ok tt, mkWorld us (evs ++ map (fun c => FireDocumentsAssigneeChanged c aid uid) cs)).
Proof.
  intros Huser. revert evs.
  induction cs as [|c cs IH]; intros evs; unfold run_sub_tasks; cbn [map for_each].
  - unfold ret. by rewrite app_nil_r.
  - unfold bind at 1. cbn [fst snd].
    rewrite (assignee_sub_task_run us evs c aid uid Huser).
    fold (run_sub_tasks (map (fun l => (l, aid, uid)) cs)).
    rewrite IH. by rewrite <- app_assoc.
Qed.

Lemma signalled_doc_ids_fires aid uid (cs : list (list Z)) :
  signalled_doc_ids (map (fun c => FireDocumentsAssigneeChanged c aid uid) cs) = concat cs.
Proof. induction cs as [|c cs IH]; [done |]. cbn. by f_equal. Qed.
End AssigneeFacts.

(** X18. [process_documents_assignee_changed] followed by its sub-tasks
    ([chunks] modelled as the successive slices, the sub-tasks run in the
    order they were started): with a positive [DOC_NUMBER_PER_SUB_TASK] and
    the changing user found (or not given), every sub-task sends one
    assignee-changed signal with the new assignee and the user; no signal
    names more than [DOC_NUMBER_PER_SUB_TASK] ids, and the signals together
    name the given ids as they were given, in order, whether or not such
    documents exist.  With a named user that does not exist a sub-task
    raises [DoesNotExist] and sends nothing. *)
Theorem assignee_changed_sub_tasks
    (N : nat) (doc_ids : list Z) (new_assignee_id changed_by_user_id : option Z)
    (w : AssigneeChanged.world) :
  (0 < N)%nat ->
  let started := AssigneeChanged.process_documents_assignee_changed N doc_ids new_assignee_id
                   changed_by_user_id in
  ((forall pk, changed_by_user_id = Some pk -> pk ∈ AssigneeChanged.users w) ->
   exists es,
     AssigneeChanged.run_sub_tasks started w
     = (Ok tt, AssigneeChanged.mkWorld (AssigneeChanged.users w)
                 (AssigneeChanged.events w ++ es))
     /\ length es = length started
     /\ AssigneeChanged.signalled_doc_ids es = doc_ids
     /\ Forall (fun e => match e with
                         | AssigneeChanged.FireDocumentsAssigneeChanged ids a u =>
                             (0 < length ids <= N)%nat /\ a = new_assignee_id
                             /\ u = changed_by_user_id
                         end) es)
  /\ (forall pk ids, changed_by_user_id = Some pk -> pk ∉ AssigneeChanged.users w ->
      AssigneeChanged._process_documents_assignee_changed ids new_assignee_id
        changed_by_user_id w = (Raise DoesNotExist, w)).
Proof.
  intros HN started. split.
  - intros Huser. destruct w as [us evs]. cbn [AssigneeChanged.users AssigneeChanged.events] in *.
    exists (map (fun c => AssigneeChanged.FireDocumentsAssigneeChanged c new_assignee_id
                            changed_by_user_id) (chunks doc_ids N)).
    split; [| split; [| split]].
    + subst started. unfold AssigneeChanged.process_documents_assignee_changed.
      by apply assignee_sub_tasks_run.
    + subst started. unfold AssigneeChanged.process_documents_assignee_changed.
      by rewrite !length_map.
    + rewrite signalled_doc_ids_fires. by apply chunks_concat.
    + apply Forall_fmap. eapply Forall_impl; [apply (chunks_bounds doc_ids N HN) |].
      intros c Hc. cbn. done.
  - intros pk ids -> Hpk.
    unfold AssigneeChanged._process_documents_assignee_changed, bind,
      AssigneeChanged.get_changed_by_user. by rewrite decide_False by done.
Qed.

Lemma assignee_changed_sub_tasks_witness :
  AssigneeChanged.run_sub_tasks
    (AssigneeChanged.process_documents_assignee_changed 2 [5; 3; 9] (Some 4) (Some 7))
    (AssigneeChanged.mkWorld {[7]} [])
  = (Ok tt, AssigneeChanged.mkWorld {[7]}
              [AssigneeChanged.FireDocumentsAssigneeChanged [5; 3] (Some 4) (Some 7);
               AssigneeChanged.FireDocumentsAssigneeChanged [9] (Some 4) (Some 7)]).
Proof.
  destruct (assignee_changed_sub_tasks 2 [5; 3; 9] (Some 4) (Some 7)
              (AssigneeChanged.mkWorld {[7]} [])) as [H _]; [lia |].
  destruct H as (es & Hrun & _).
  - intros pk [= <-]. cbn. set_solver.
  - rewrite Hrun. vm_compute in Hrun. injection Hrun as Hes. by rewrite <- Hes.
Defined.

(** ** [identify_document_classes]: selection, progress and what is stored *)

Section IdentifyMore.
Import IdentifyClasses IdentifyFigures.
Context {json : Type}.
Variable CONTRACT GENERIC PROB_KEY : string.
Variable is_contract : string -> result (option (bool * json)).

Local Abbreviation classify_doc := (classify CONTRACT GENERIC PROB_KEY is_contract).
Local Abbreviation classify_loop := (classify_all CONTRACT GENERIC PROB_KEY is_contract).

Lemma py_round_div_bounds n d :
  0 <= n -> 0 < d -> n <= 100 * d -> 0 <= py_round_div n d <= 100.
Proof.
  intros Hn Hd Hle. unfold py_round_div.
  pose proof (Z.div_mod n d ltac:(lia)) as Hdm.
  pose proof (Z.mod_pos_bound n d Hd) as Hr.
  assert (Hq0 : 0 <= n / d) by (apply Z.div_pos; lia).
  assert (Hq : n / d <= 100) by (apply Z.div_le_upper_bound; lia).
  destruct (Z.ltb_spec (2 * (n mod d)) d) as [H1 | H1]; [lia |].
  assert (Hq' : n / d <= 99) by nia.
  destruct (Z.ltb_spec d (2 * (n mod d))); [lia |].
  destruct (Z.even (n / d)); lia.
Qed.

Lemma report_progress_cases counter total (w : @world json) :
  report_progress counter total w = (Ok tt, w)
  \/ report_progress counter total w
     = (Ok tt, mkWorld (documents w) (metadata w) (py_round_div (counter * 100) total)
                 (events w ++ [ProgressSaved (py_round_div (counter * 100) total)])).
Proof.
  unfold report_progress, bind, get, modify, emit.
  destruct (decide (py_round_div (counter * 100) total <> progress w)); [by right | by left].
Qed.

Lemma classify_cases doc (w : @world json) r w' :
  classify_doc doc w = (r, w') ->
  documents w' = documents w /\ progress w' = progress w
  /\ (events w' = events w \/ exists d, events w' = events w ++ [CacheDocumentFields d]).
Proof.
  unfold classify.
  destruct (is_contract (default "" (doc_full_text doc))) as [[res|]|e];
    [| intros [= <- <-]; auto | intros [= <- <-]; auto].
  unfold bind at 1, get_metadata.
  destruct (metadata w !! doc_pk doc) as [meta|]; [| intros [= <- <-]; auto].
  intros [= <- <-]. cbn. eauto.
Qed.

(** The loop never writes a [Document] row, and what it writes to the task
    row is a percentage. *)
Lemma classify_all_invariants total docs counter (w : @world json) r w' :
  0 <= counter -> counter + Z.of_nat (length docs) <= total ->
  classify_loop counter total docs w = (r, w') ->
  documents w' = documents w
  /\ (0 <= progress w <= 100 -> 0 <= progress w' <= 100)
  /\ exists es, events w' = events w ++ es /\ progress_in_range es.
Proof.
  revert counter w r w'. induction docs as [|doc docs IH]; intros counter w r w' H0 Hle.
  - intros [= <- <-]. split; [done |]. split; [done |]. exists [].
    split; [by rewrite app_nil_r | constructor].
  - cbn [length] in Hle. cbn [classify_all]. unfold bind at 1.
    assert (Hp : 0 <= py_round_div (counter * 100) total <= 100)
      by (apply py_round_div_bounds; lia).
    assert (Hrep : exists w0, report_progress counter total w = (Ok tt, w0)
              /\ documents w0 = documents w
              /\ (0 <= progress w <= 100 -> 0 <= progress w0 <= 100)
              /\ exists es, events w0 = events w ++ es /\ progress_in_range es).
    { destruct (report_progress_cases counter total w) as [-> | ->]; eexists;
        (split; [reflexivity |]); (split; [reflexivity |]).
      - split; [done |]. exists []. split; [by rewrite app_nil_r | constructor].
      - split; [done |]. eexists. split; [reflexivity |].
        constructor; [exact Hp | constructor]. }
    destruct Hrep as (w0 & -> & Hd0 & Hp0 & es0 & He0 & Hr0).
    unfold bind at 1.
    destruct (classify_doc doc w0) as [[doc'|e] w1] eqn:Hc;
      apply classify_cases in Hc as (Hd1 & Hp1 & He1).
    + unfold bind at 1.
      assert (Hfin : forall r2 w2, classify_loop (counter + 1) total docs w1 = (r2, w2) ->
                documents w2 = documents w
                /\ (0 <= progress w <= 100 -> 0 <= progress w2 <= 100)
                /\ exists es, events w2 = events w ++ es /\ progress_in_range es).
      { intros r2 w2 Hrest.
        apply IH in Hrest as (Hd2 & Hp2 & es2 & He2 & Hr2); [| lia | lia].
        split; [congruence |]. split; [intros H; apply Hp2; rewrite Hp1; by apply Hp0 |].
        destruct He1 as [He1 | [d He1]].
        - exists (es0 ++ es2). split; [by rewrite He2, He1, He0, <- app_assoc |].
          by apply Forall_app.
        - exists (es0 ++ [CacheDocumentFields d] ++ es2).
          split; [by rewrite He2, He1, He0, <- !app_assoc |].
          apply Forall_app. split; [done |]. by constructor. }
      destruct (classify_loop (counter + 1) total docs w1) as [[rest|e] w2] eqn:Hrest;
        intros [= <- <-]; by eapply Hfin.
    + intros [= <- <-]. split; [congruence |].
      split; [intros H; rewrite Hp1; by apply Hp0 |].
      destruct He1 as [He1 | [d He1]].
      * exists es0. split; [by rewrite He1, He0 |]. done.
      * exists (es0 ++ [CacheDocumentFields d]).
        split; [by rewrite He1, He0, <- app_assoc |].
        apply Forall_app. split; [done |]. by constructor.
Qed.

Lemma cached_documents_app es1 es2 :
  cached_documents (es1 ++ es2) = cached_documents es1 ++ cached_documents es2.
Proof. unfold cached_documents. by rewrite flat_map_app. Qed.

(** One iteration on a document that has a metadata row. *)
Lemma classify_step counter total doc (w : @world json) meta :
  metadata w !! doc_pk doc = Some meta ->
  exists doc' p es,
    (run! report_progress counter total in classify_doc doc) w
    = (Ok doc', mkWorld (documents w)
                  (<[doc_pk doc := stored_metadata PROB_KEY is_contract doc meta]> (metadata w))
                  p (events w ++ es))
    /\ classified CONTRACT GENERIC is_contract doc doc'
    /\ cached_documents es = with_result CONTRACT GENERIC is_contract [doc].
Proof.
  intros Hmeta. unfold bind at 1.
  assert (Hrep : exists p es0, report_progress counter total w
                 = (Ok tt, mkWorld (documents w) (metadata w) p (events w ++ es0))
                 /\ cached_documents es0 = []).
  { destruct (report_progress_cases counter total w) as [-> | ->].
    - exists (progress w), []. split; [| done]. destruct w; cbn. by rewrite app_nil_r.
    - eexists _, [_]. split; reflexivity. }
  destruct Hrep as (p & es0 & -> & Hes0). cbv beta iota.
  set (w0 := mkWorld (documents w) (metadata w) p (events w ++ es0)).
  unfold classified, stored_metadata, with_result. cbn [flat_map].
  destruct (is_contract (default "" (doc_full_text doc))) as [[[flag prob]|]|e] eqn:Hres.
  - eexists _, p, (es0 ++ [_]).
    rewrite (classify_with_metadata CONTRACT GENERIC PROB_KEY is_contract doc w0 flag prob meta
               Hres Hmeta).
    subst w0. cbn [documents metadata progress events fst snd]. rewrite <- app_assoc.
    split; [reflexivity |]. split; [reflexivity |].
    rewrite cached_documents_app, Hes0. reflexivity.
  - exists doc, p, es0.
    rewrite (classify_skipped CONTRACT GENERIC PROB_KEY is_contract doc w0 (or_introl Hres)).
    rewrite insert_id by done. split; [reflexivity |]. split; [reflexivity |].
    by rewrite Hes0.
  - exists doc, p, es0.
    rewrite (classify_skipped CONTRACT GENERIC PROB_KEY is_contract doc w0
               (or_intror (ex_intro _ e Hres))).
    rewrite insert_id by done. split; [reflexivity |]. split; [reflexivity |].
    by rewrite Hes0.
Qed.

Lemma classify_all_stores total docs counter (w : @world json) :
  Forall (fun doc => is_Some (metadata w !! doc_pk doc)) docs ->
  NoDup (map doc_pk docs) ->
  exists docs' w' es,
    classify_loop counter total docs w = (Ok docs', w')
    /\ Forall2 (classified CONTRACT GENERIC is_contract) docs docs'
    /\ events w' = events w ++ es
    /\ cached_documents es = with_result CONTRACT GENERIC is_contract docs
    /\ (forall pk, pk ∉ map doc_pk docs -> metadata w' !! pk = metadata w !! pk)
    /\ (forall doc meta, doc ∈ docs -> metadata w !! doc_pk doc = Some meta ->
        metadata w' !! doc_pk doc = Some (stored_metadata PROB_KEY is_contract doc meta)).
Proof.
  revert counter w. induction docs as [|doc docs IH]; intros counter w Hmeta Hnd.
  - exists [], w, []. split; [reflexivity |]. split; [constructor |].
    split; [by rewrite app_nil_r |]. split; [reflexivity |]. split; [done |].
    intros doc meta Hin. by apply elem_of_nil in Hin.
  - apply Forall_cons in Hmeta as [[meta Hdoc] Hrest].
    cbn [map] in Hnd. apply NoDup_cons in Hnd as [Hhead Hnd].
    destruct (classify_step counter total doc w meta Hdoc) as (doc' & p & es & Hstep & Hcl & Hca).
    set (w1 := mkWorld (documents w)
                 (<[doc_pk doc := stored_metadata PROB_KEY is_contract doc meta]> (metadata w))
                 p (events w ++ es)) in *.
    destruct (IH (counter + 1) w1) as (docs' & w' & es' & Hrun & Hall & Hev & Hcache & Hother & Hst).
    { eapply Forall_impl; [exact Hrest |]. intros d [md Hd]. subst w1. cbn [metadata].
      destruct (decide (doc_pk doc = doc_pk d)) as [-> | Hne].
      - rewrite lookup_insert_eq. by eexists.
      - rewrite lookup_insert_ne by done. by eexists. }
    { exact Hnd. }
    exists (doc' :: docs'), w', (es ++ es').
    split; [| split; [| split; [| split; [| split]]]].
    + cbn [classify_all].
      unfold bind at 1. unfold bind at 1 in Hstep.
      destruct (report_progress counter total w) as [[[]|e0] w0]; [| discriminate].
      unfold bind at 1. rewrite Hstep. unfold bind at 1. by rewrite Hrun.
    + by constructor.
    + rewrite Hev. subst w1. cbn [events]. by rewrite <- app_assoc.
    + rewrite cached_documents_app, Hca, Hcache. unfold with_result. cbn [flat_map].
      by rewrite app_nil_r.
    + intros pk Hpk. cbn [map] in Hpk. apply not_elem_of_cons in Hpk as [Hne Hpk].
      rewrite (Hother pk Hpk). subst w1. cbn [metadata]. by rewrite lookup_insert_ne.
    + intros d md Hin Hd. apply elem_of_cons in Hin as [-> | Hin].
      * rewrite (Hother (doc_pk doc) Hhead). subst w1. cbn [metadata].
        rewrite lookup_insert_eq. congruence.
      * apply Hst; [done |]. subst w1. cbn [metadata].
        rewrite lookup_insert_ne; [done |].
        intros Heq. apply Hhead. rewrite Heq. by apply list_elem_of_fmap_2.
Qed.

Lemma select_documents_complete code force pid docs doc :
  doc ∈ docs ->
  (force = false -> doc_document_class doc = Some "" \/ doc_document_class doc = None) ->
  (forall c, code = Some c -> c <> "" -> doc_type_code doc = c) ->
  (forall p, pid = Some p -> p <> 0 -> doc_project_id doc = p) ->
  doc ∈ select_documents code force pid docs.
Proof.
  unfold select_documents. intros Hin Hf Hc Hp.
  destruct force, code as [c|], pid as [p|]; cbn [negb];
    repeat case_decide; subst;
    repeat (apply list_elem_of_filter; split); auto.
Qed.
End IdentifyMore.


(** X20. Every progress value [identify_document_classes] writes to the
    task row is a percentage between 0 and 100 (the division by the number
    of selected documents is never a division by zero, since it happens
    inside the loop over them), and a progress that was a percentage before
    the task is one after it, whether the task ends normally or raises. *)
Theorem identify_document_classes_progress
    {json : Type} (CONTRACT GENERIC PROB_KEY : string)
    (is_contract : string -> result (option (bool * json)))
    (document_type_code : option string) (force_recheck : bool) (project_id : option Z)
    (w : @IdentifyClasses.world json) :
  let run := IdentifyClasses.identify_document_classes CONTRACT GENERIC PROB_KEY is_contract
               document_type_code force_recheck project_id w in
  (0 <= IdentifyClasses.progress w <= 100 -> 0 <= IdentifyClasses.progress run.2 <= 100)
  /\ exists es, IdentifyClasses.events run.2 = IdentifyClasses.events w ++ es
                /\ IdentifyFigures.progress_in_range es.
Proof.
  intros run. subst run. unfold IdentifyClasses.identify_document_classes, bind, get.
  destruct (IdentifyClasses.classify_all _ _ _ _ _ _ _ w) as [r w'] eqn:Hrun.
  apply classify_all_invariants in Hrun as (_ & Hp & Hes); [| lia | lia].
  cbn [snd]. split; [exact Hp | exact Hes].
Qed.

(** X21. When every selected document has a [DocumentMetadata] row (and
    no two selected documents share a key), [identify_document_classes]
    ends normally; each selected document is classified by [is_contract] or
    left as it was where that raised or returned nothing; the metadata row
    of a document with a result holds the probability under
    [DOC_METADATA_DOCUMENT_CLASS_PROB] and its other keys as before, the
    rows of all other documents are as before; and [cache_document_fields]
    was called for exactly the documents with a result, in order. *)
Theorem identify_document_classes_stores_probabilities
    {json : Type} (CONTRACT GENERIC PROB_KEY : string)
    (is_contract : string -> result (option (bool * json)))
    (document_type_code : option string) (force_recheck : bool) (project_id : option Z)
    (w : @IdentifyClasses.world json) :
  let docs := IdentifyClasses.select_documents document_type_code force_recheck project_id
                (IdentifyClasses.documents w) in
  Forall (fun doc => is_Some (IdentifyClasses.metadata w !! IdentifyClasses.doc_pk doc)) docs ->
  NoDup (map IdentifyClasses.doc_pk docs) ->
  exists docs' w' es,
    IdentifyClasses.identify_document_classes CONTRACT GENERIC PROB_KEY is_contract
      document_type_code force_recheck project_id w = (Ok docs', w')
    /\ Forall2 (classified CONTRACT GENERIC is_contract) docs docs'
    /\ IdentifyClasses.events w' = IdentifyClasses.events w ++ es
    /\ IdentifyFigures.cached_documents es
       = IdentifyFigures.with_result CONTRACT GENERIC is_contract docs
    /\ (forall pk, pk ∉ map IdentifyClasses.doc_pk docs ->
        IdentifyClasses.metadata w' !! pk = IdentifyClasses.metadata w !! pk)
    /\ (forall doc meta, doc ∈ docs ->
        IdentifyClasses.metadata w !! IdentifyClasses.doc_pk doc = Some meta ->
        IdentifyClasses.metadata w' !! IdentifyClasses.doc_pk doc
        = Some (IdentifyFigures.stored_metadata PROB_KEY is_contract doc meta)).
Proof.
  intros docs Hmeta Hnd.
  unfold IdentifyClasses.identify_document_classes, bind at 1, get.
  by apply classify_all_stores.
Qed.

Lemma identify_document_classes_stores_probabilities_witness :
  let is_contract := fun s : string =>
    if decide (s = "") then Ok None else Ok (Some (String.prefix "This Agreement" s, 9)) in
  let d1 := IdentifyClasses.mkDocument 1 "nda.pdf" None "generic" 3
              (Some "This Agreement is made") in
  let d2 := IdentifyClasses.mkDocument 2 "scan.pdf" (Some "") "generic" 3 None in
  let d3 := IdentifyClasses.mkDocument 3 "old.pdf" (Some "CONTRACT") "generic" 3
              (Some "Letter") in
  let w := IdentifyClasses.mkWorld [d1; d2; d3]
             {[1 := {["parsed_by" := 0]}; 2 := ∅]} 0 [] in
  exists docs' w' es,
    IdentifyClasses.identify_document_classes "CONTRACT" "GENERIC" "document_class_prob"
      is_contract None false None w = (Ok docs', w')
    /\ Forall2 (classified "CONTRACT" "GENERIC" is_contract) [d1; d2] docs'
    /\ IdentifyClasses.events w' = [] ++ es
    /\ IdentifyFigures.cached_documents es
       = [IdentifyClasses.set_document_class "CONTRACT" d1]
    /\ (forall pk, pk ∉ [1; 2] ->
        IdentifyClasses.metadata w' !! pk = IdentifyClasses.metadata w !! pk)
    /\ (forall doc meta, doc ∈ [d1; d2] ->
        IdentifyClasses.metadata w !! IdentifyClasses.doc_pk doc = Some meta ->
        IdentifyClasses.metadata w' !! IdentifyClasses.doc_pk doc
        = Some (IdentifyFigures.stored_metadata "document_class_prob" is_contract doc meta)).
Proof.
  intros is_contract d1 d2 d3 w.
  apply (identify_document_classes_stores_probabilities "CONTRACT" "GENERIC"
           "document_class_prob" is_contract None false None w).
  - repeat constructor; eexists; reflexivity.
  - by apply (bool_decide_unpack _).
Defined.

(** X22. The selection of [identify_document_classes]: a document is
    processed exactly when it is in the table, has an empty or null class
    unless [force_recheck] is set, has the given type code when one is given
    and not empty, and belongs to the given project when an id is given and
    not zero.  An empty code and a zero project id select as if they were
    not given. *)
Theorem select_documents_iff
    (document_type_code : option string) (force_recheck : bool) (project_id : option Z)
    (docs : list IdentifyClasses.document) (doc : IdentifyClasses.document) :
  doc ∈ IdentifyClasses.select_documents document_type_code force_recheck project_id docs
  <-> doc ∈ docs
      /\ (force_recheck = false ->
          IdentifyClasses.doc_document_class doc = Some ""
          \/ IdentifyClasses.doc_document_class doc = None)
      /\ (forall c, document_type_code = Some c -> c <> "" ->
          IdentifyClasses.doc_type_code doc = c)
      /\ (forall p, project_id = Some p -> p <> 0 -> IdentifyClasses.doc_project_id doc = p).
Proof.
  split.
  - apply select_documents_spec.
  - intros (Hin & Hf & Hc & Hp). by apply select_documents_complete.
Qed.

(** ** [ImportCSVFieldDetectionConfig.process] *)

(** X23. [ImportCSVFieldDetectionConfig.process] with a [cache_key] in
    its file argument removes that cache entry on every exit.  Without a
    [pk] in the field argument it raises [KeyError], and without the field
    row [DoesNotExist], the database untouched; with the row, the outcome
    and the database are those of the importer, which is given the cached
    bytes.  Since the entry is gone afterwards, the importer of a second run
    with the same arguments is given no bytes. *)
Theorem import_csv_config_cleans_cache
    {DB DocumentField : Type}
    (get_document_field : string -> DB -> option DocumentField)
    (process_csv : DocumentField -> ImportCSVFieldDetectionConfig.options
                   -> option ExportDocuments.bytes -> DB -> result unit * DB)
    (document_field config_csv_file : gmap string string)
    (opts : ImportCSVFieldDetectionConfig.options)
    (w : @ImportCSVFieldDetectionConfig.world DB) (key : string) :
  config_csv_file !! "cache_key" = Some key ->
  let process := ImportCSVFieldDetectionConfig.process get_document_field process_csv
                   document_field config_csv_file opts in
  let run := process w in
  ImportCSVFieldDetectionConfig.db_cache run.2
  = delete key (ImportCSVFieldDetectionConfig.db_cache w)
  /\ (document_field !! "pk" = None ->
      run.1 = Raise (KeyError "pk")
      /\ ImportCSVFieldDetectionConfig.db run.2 = ImportCSVFieldDetectionConfig.db w)
  /\ (forall pk, document_field !! "pk" = Some pk ->
      get_document_field pk (ImportCSVFieldDetectionConfig.db w) = None ->
      run.1 = Raise DoesNotExist
      /\ ImportCSVFieldDetectionConfig.db run.2 = ImportCSVFieldDetectionConfig.db w)
  /\ (forall pk f, document_field !! "pk" = Some pk ->
      get_document_field pk (ImportCSVFieldDetectionConfig.db w) = Some f ->
      (run.1, ImportCSVFieldDetectionConfig.db run.2)
      = process_csv f opts (ImportCSVFieldDetectionConfig.db_cache w !! key)
          (ImportCSVFieldDetectionConfig.db w))
  /\ (forall pk f, document_field !! "pk" = Some pk ->
      get_document_field pk (ImportCSVFieldDetectionConfig.db run.2) = Some f ->
      let again := process run.2 in
      (again.1, ImportCSVFieldDetectionConfig.db again.2)
      = process_csv f opts None (ImportCSVFieldDetectionConfig.db run.2)).
Proof.
  intros Hkey process run.
  assert (Hgen : forall w0 : @ImportCSVFieldDetectionConfig.world DB,
    ImportCSVFieldDetectionConfig.db_cache (process w0).2
    = delete key (ImportCSVFieldDetectionConfig.db_cache w0)
    /\ (document_field !! "pk" = None ->
        (process w0).1 = Raise (KeyError "pk")
        /\ ImportCSVFieldDetectionConfig.db (process w0).2 = ImportCSVFieldDetectionConfig.db w0)
    /\ (forall pk, document_field !! "pk" = Some pk ->
        get_document_field pk (ImportCSVFieldDetectionConfig.db w0) = None ->
        (process w0).1 = Raise DoesNotExist
        /\ ImportCSVFieldDetectionConfig.db (process w0).2 = ImportCSVFieldDetectionConfig.db w0)
    /\ (forall pk f, document_field !! "pk" = Some pk ->
        get_document_field pk (ImportCSVFieldDetectionConfig.db w0) = Some f ->
        ((process w0).1, ImportCSVFieldDetectionConfig.db (process w0).2)
        = process_csv f opts (ImportCSVFieldDetectionConfig.db_cache w0 !! key)
            (ImportCSVFieldDetectionConfig.db w0))).
  { intros w0. subst process.
    unfold ImportCSVFieldDetectionConfig.process, try_finally, bind, lift, get, modify,
      ImportCSVFieldDetectionConfig.item, DbCache.get, DbCache.clean_cache.
    rewrite Hkey.
    destruct (document_field !! "pk") as [pk|] eqn:Hpk.
    - destruct (get_document_field pk (ImportCSVFieldDetectionConfig.db w0)) as [f|] eqn:Hf.
      + destruct (process_csv f opts (ImportCSVFieldDetectionConfig.db_cache w0 !! key)
                    (ImportCSVFieldDetectionConfig.db w0)) as [r d] eqn:Hrun.
        cbn. split; [done |]. split; [done |]. split.
        * intros pk' [= <-]. congruence.
        * intros pk' f' [= <-] Hf'. rewrite Hf in Hf'. injection Hf' as <-. by rewrite Hrun.
      + cbn. split; [done |]. split; [done |]. split; [done |].
        intros pk' f' [= <-]. congruence.
    - cbn. split; [done |]. split; [done |]. split; done. }
  subst run. destruct (Hgen w) as (Hcache & Hnopk & Hnofield & Hfield).
  split; [exact Hcache |]. split; [exact Hnopk |]. split; [exact Hnofield |].
  split; [exact Hfield |].
  intros pk f Hpk Hf again. subst again.
  destruct (Hgen (process w).2) as (_ & _ & _ & Hagain).
  rewrite (Hagain pk f Hpk Hf), Hcache.
  by rewrite lookup_delete_eq.
Qed.

Lemma import_csv_config_cleans_cache_witness :
  let get_field := fun (pk : string) (d : list string) =>
                     if decide (pk = "f1") then Some 1%nat else None in
  let process_csv := fun (f : nat) (_ : ImportCSVFieldDetectionConfig.options)
                         (b : option ExportDocuments.bytes) (d : list string) =>
                       match b with
                       | Some _ => (Ok tt, d ++ ["detectors"])
                       | None => (Raise AttributeError, d)
                       end in
  let opts := ImportCSVFieldDetectionConfig.mkOptions true false false None true true in
  let w := ImportCSVFieldDetectionConfig.World {["k" := [Byte.x61]]} ([] : list string) in
  let run := ImportCSVFieldDetectionConfig.process get_field process_csv
               {["pk" := "f1"]} {["cache_key" := "k"]} opts w in
  ImportCSVFieldDetectionConfig.db_cache run.2 = delete "k" {["k" := [Byte.x61]]}.
Proof.
  intros get_field process_csv opts w run.
  apply (import_csv_config_cleans_cache get_field process_csv {["pk" := "f1"]}
           {["cache_key" := "k"]} opts w "k"). reflexivity.
Defined.

(** X24. Without a [cache_key] in its file argument
    [ImportCSVFieldDetectionConfig.process] always raises [KeyError] for that
    key, whatever else is wrong (the [finally] clause raises it), and has
    changed neither the cache nor the database: the importer was not run. *)
Theorem import_csv_config_missing_cache_key
    {DB DocumentField : Type}
    (get_document_field : string -> DB -> option DocumentField)
    (process_csv : DocumentField -> ImportCSVFieldDetectionConfig.options
                   -> option ExportDocuments.bytes -> DB -> result unit * DB)
    (document_field config_csv_file : gmap string string)
    (opts : ImportCSVFieldDetectionConfig.options)
    (w : @ImportCSVFieldDetectionConfig.world DB) :
  config_csv_file !! "cache_key" = None ->
  ImportCSVFieldDetectionConfig.process get_document_field process_csv
    document_field config_csv_file opts w
  = (Raise (KeyError "cache_key"), w).
Proof.
  intros Hkey.
  unfold ImportCSVFieldDetectionConfig.process, try_finally, bind, lift, get, modify,
    ImportCSVFieldDetectionConfig.item.
  rewrite Hkey.
  destruct (document_field !! "pk") as [pk|]; [| done].
  by destruct (get_document_field pk (ImportCSVFieldDetectionConfig.db w)).
Qed.

Lemma import_csv_config_missing_cache_key_witness :
  let w := ImportCSVFieldDetectionConfig.World {["k" := [Byte.x61]]} ([] : list string) in
  ImportCSVFieldDetectionConfig.process
    (fun (_ : string) (_ : list string) => Some 1%nat)
    (fun _ _ _ d => (Ok tt, d ++ ["detectors"]))
    {["pk" := "f1"]} ∅
    (ImportCSVFieldDetectionConfig.mkOptions true false false None true true) w
  = (Raise (KeyError "cache_key"), w).
Proof.
  intros w. by apply import_csv_config_missing_cache_key.
Defined.

(** ** [FindBrokenDocumentFieldValues] *)

Section FindBrokenTables.
Import FindBrokenDocumentFieldValues.
Context {Field Json : Type}.

Lemma delete_keys_lookup (pks : list Z) (t : gmap Z (Field * Json)) pk :
  delete_keys pks t !! pk = if decide (pk ∈ pks) then None else t !! pk.
Proof.
  revert t. induction pks as [|p pks IH]; intros t.
  - by rewrite decide_False by apply not_elem_of_nil.
  - change (delete_keys (p :: pks) t) with (delete_keys pks (delete p t)). rewrite IH.
    destruct (decide (pk ∈ pks)) as [Hin | Hnin].
    + by rewrite decide_True by (by right).
    + destruct (decide (pk = p)) as [-> | Hne].
      * rewrite decide_True by left. apply lookup_delete_eq.
      * rewrite decide_False by (rewrite elem_of_cons; tauto).
        by apply lookup_delete_ne.
Qed.

Lemma broken_loop cls (ok : Field -> Json -> bool) del rows (w : @world Field Json) :
  exists w',
    for_each rows (fun row =>
      let obj := mkObject cls row.1 row.2.1 row.2.2 in
      if negb (ok (obj_field obj) (obj_value obj))
      then process_broken obj del
      else ret tt) w = (Ok tt, w')
    /\ log w' = log w ++ map (fun row => FoundBroken cls row.1 del) (broken_rows ok rows)
    /\ (forall c, c <> cls -> table c w' = table c w)
    /\ table cls w' = if del then delete_keys (broken_rows ok rows).*1 (table cls w)
                      else table cls w.
Proof.
  revert w. induction rows as [|[pk [f v]] rows IH]; intros w.
  - exists w. split; [reflexivity |]. split; [by rewrite app_nil_r |]. split; [done |].
    by destruct del.
  - cbn [for_each]. unfold bind at 1. cbn [fst snd obj_field obj_value].
    unfold broken_rows. destruct (ok f v) eqn:Hok; cbn [negb].
    + rewrite filter_cons_False by (cbn; congruence).
      unfold ret. apply IH.
    + rewrite filter_cons_True by done.
      set (w1 := (process_broken (mkObject cls pk f v) del w).2).
      assert (H1 : process_broken (mkObject cls pk f v) del w = (Ok tt, w1)
                   /\ log w1 = log w ++ [FoundBroken cls pk del]
                   /\ (forall c, c <> cls -> table c w1 = table c w)
                   /\ table cls w1 = if del then delete pk (table cls w) else table cls w).
      { subst w1. unfold process_broken, bind, delete_object, log_info, modify.
        destruct del, cls; cbn; (split; [reflexivity |]); (split; [reflexivity |]);
          (split; [| reflexivity]); intros []; done. }
      destruct H1 as (-> & Hlog1 & Hoth1 & Htab1).
      destruct (IH w1) as (w' & Hrun & Hlog & Hoth & Htab).
      exists w'. split; [exact Hrun |]. split; [| split].
      * rewrite Hlog, Hlog1. cbn [map]. by rewrite <- app_assoc.
      * intros c Hc. by rewrite Hoth, Hoth1.
      * rewrite Htab, Htab1. by destruct del.
Qed.

Lemma broken_loop_checked cls (ok : Field -> Json -> bool) del rows (w : @world Field Json) :
  exists w',
    for_each rows (fun row =>
      let obj := mkObject cls row.1 row.2.1 row.2.2 in
      if negb (ok (obj_field obj) (obj_value obj))
      then process_broken obj del
      else ret tt) w = (Ok tt, w')
    /\ checked cls ok rows del w w'.
Proof.
  destruct (broken_loop cls ok del rows w) as (w' & Hrun & Hlog & Hoth & Htab).
  exists w'. split; [exact Hrun |]. split; [exact Hlog |]. split; [exact Hoth |].
  split; intros ->; [exact Htab |].
  intros pk. rewrite Htab. apply delete_keys_lookup.
Qed.

(** With a query that returns the rows of the given ids, a deleting check
    leaves exactly the rows that are valid or not among the ids. *)
Lemma checked_only_valid cls (ok : Field -> Json -> bool) get ids (w w' : @world Field Json) :
  rows_by_ids get ->
  checked cls ok (get ids (table cls w)) true w w' ->
  only_valid_left ok ids (table cls w) (table cls w').
Proof.
  intros Hget (_ & _ & _ & Htab) pk x. rewrite (Htab eq_refl pk).
  destruct (decide (pk ∈ (broken_rows ok (get ids (table cls w))).*1)) as [Hin | Hnin].
  - apply list_elem_of_fmap in Hin as ([pk' y] & -> & Hin).
    apply list_elem_of_filter in Hin as [Hbroken Hin]. cbn in Hbroken.
    apply Hget in Hin as [Hy Hids]. cbn [fst].
    split; [done |]. intros [Hx Hok]. rewrite Hy in Hx. injection Hx as <-.
    rewrite Hok in Hbroken by done. done.
  - split.
    + intros Hx. split; [done |]. intros Hids.
      destruct (ok x.1 x.2) eqn:Hok; [done |]. destruct Hnin.
      apply (list_elem_of_fmap_2 fst _ (pk, x)). apply list_elem_of_filter.
      split; [exact Hok |]. apply Hget. done.
    + by intros [Hx _].
Qed.

Lemma only_valid_left_app (ok : Field -> Json -> bool) ids1 ids2 (t t1 t2 : gmap Z (Field * Json)) :
  only_valid_left ok ids1 t t1 -> only_valid_left ok ids2 t1 t2 ->
  only_valid_left ok (ids1 ++ ids2) t t2.
Proof.
  intros H1 H2 pk x. rewrite (H2 pk x), (H1 pk x), elem_of_app. tauto.
Qed.

Lemma only_valid_left_nil (ok : Field -> Json -> bool) (t : gmap Z (Field * Json)) :
  only_valid_left ok [] t t.
Proof. intros pk x. rewrite elem_of_nil. tauto. Qed.

End FindBrokenTables.

Section FindBrokenFacts.
Import FindBrokenDocumentFieldValues.
Context {Field Json : Type}.
Variable is_json_field_value_ok : Field -> Json -> bool.
Variable is_json_annotation_value_ok : Field -> Json -> bool.
Variable get_field_values_by_ids : list Z -> gmap Z (Field * Json) -> list (Z * (Field * Json)).
Variable get_ants_by_ids : list Z -> gmap Z (Field * Json) -> list (Z * (Field * Json)).

Local Abbreviation run_all :=
  (run_sub_tasks is_json_field_value_ok is_json_annotation_value_ok
     get_field_values_by_ids get_ants_by_ids).

Lemma run_field_value_checks (cs : list (list Z)) (w : @world Field Json) :
  rows_by_ids get_field_values_by_ids ->
  exists w',
    run_all (map (fun c => CheckFieldValues c true) cs) w = (Ok tt, w')
    /\ annotations w' = annotations w
    /\ only_valid_left is_json_field_value_ok (concat cs) (field_values w) (field_values w').
Proof.
  intros Hget. revert w. induction cs as [|c cs IH]; intros w.
  - exists w. split; [reflexivity |]. split; [done |]. apply only_valid_left_nil.
  - unfold run_sub_tasks. cbn [map for_each]. unfold bind at 1.
    destruct (broken_loop_checked FieldValue is_json_field_value_ok true
                (get_field_values_by_ids c (field_values w)) w) as (w1 & Hrun1 & Hch).
    assert (E : run_sub_task is_json_field_value_ok is_json_annotation_value_ok
                  get_field_values_by_ids get_ants_by_ids (CheckFieldValues c true) w
                = (Ok tt, w1)) by exact Hrun1.
    rewrite E.
    pose proof (checked_only_valid FieldValue _ _ c w w1 Hget Hch) as Hval.
    destruct Hch as (_ & Hoth & _).
    destruct (IH w1) as (w' & Hrun & Hants & Hrest).
    exists w'. split; [exact Hrun |]. split.
    + rewrite Hants. apply (Hoth FieldAnnotation). done.
    + cbn [concat]. eapply only_valid_left_app; [exact Hval | exact Hrest].
Qed.

Lemma run_annotation_checks (cs : list (list Z)) (w : @world Field Json) :
  rows_by_ids get_ants_by_ids ->
  exists w',
    run_all (map (fun c => CheckAnnotations c true) cs) w = (Ok tt, w')
    /\ field_values w' = field_values w
    /\ only_valid_left is_json_annotation_value_ok (concat cs) (annotations w) (annotations w').
Proof.
  intros Hget. revert w. induction cs as [|c cs IH]; intros w.
  - exists w. split; [reflexivity |]. split; [done |]. apply only_valid_left_nil.
  - unfold run_sub_tasks. cbn [map for_each]. unfold bind at 1.
    destruct (broken_loop_checked FieldAnnotation is_json_annotation_value_ok true
                (get_ants_by_ids c (annotations w)) w) as (w1 & Hrun1 & Hch).
    assert (E : run_sub_task is_json_field_value_ok is_json_annotation_value_ok
                  get_field_values_by_ids get_ants_by_ids (CheckAnnotations c true) w
                = (Ok tt, w1)) by exact Hrun1.
    rewrite E.
    pose proof (checked_only_valid FieldAnnotation _ _ c w w1 Hget Hch) as Hval.
    destruct Hch as (_ & Hoth & _).
    destruct (IH w1) as (w' & Hrun & Hfvs & Hrest).
    exists w'. split; [exact Hrun |]. split.
    + rewrite Hfvs. apply (Hoth FieldValue). done.
    + cbn [concat]. eapply only_valid_left_app; [exact Hval | exact Hrest].
Qed.

Lemma for_each_app_Ok {S A} (l1 l2 : list A) (f : A -> M S unit) (s s1 : S) :
  for_each l1 f s = (Ok tt, s1) -> for_each (l1 ++ l2) f s = for_each l2 f s1.
Proof.
  revert s. induction l1 as [|a l1 IH]; intros s; cbn [for_each app].
  - by intros [= ->].
  - unfold bind. destruct (f a s) as [[[]|e] s']; [| done]. apply IH.
Qed.
End FindBrokenFacts.


(** X26. [FindBrokenDocumentFieldValues.process] with [delete_broken],
    followed by its sub-tasks ([chunks] modelled as the successive slices,
    the sub-tasks run in the order they were started), for repository
    queries that return the rows of the ids they are given: all sub-tasks
    end normally, and afterwards a field value is in its table exactly when
    it was there before and is valid or not among the ids of the document
    field; likewise for the annotations.  No valid row is deleted and no
    broken one of the document field is left. *)
Theorem find_broken_process_deletes_broken
    {Field Json : Type}
    (is_json_field_value_ok is_json_annotation_value_ok : Field -> Json -> bool)
    (get_field_values_by_ids get_ants_by_ids
       : list Z -> gmap Z (Field * Json) -> list (Z * (Field * Json)))
    (get_field_value_ids_by_doc_field get_fieldant_ids_by_doc_field
       : option Z -> gmap Z (Field * Json) -> list Z)
    (document_field_arg : option (gmap string Z)) (document_field_id : option Z)
    (w : @FindBrokenDocumentFieldValues.world Field Json) :
  FindBrokenDocumentFieldValues.rows_by_ids get_field_values_by_ids ->
  FindBrokenDocumentFieldValues.rows_by_ids get_ants_by_ids ->
  FindBrokenDocumentFieldValues.document_field_id_of document_field_arg = Ok document_field_id ->
  exists sts w',
    FindBrokenDocumentFieldValues.process get_field_value_ids_by_doc_field
      get_fieldant_ids_by_doc_field document_field_arg true w = Ok sts
    /\ FindBrokenDocumentFieldValues.run_sub_tasks is_json_field_value_ok
         is_json_annotation_value_ok get_field_values_by_ids get_ants_by_ids sts w
       = (Ok tt, w')
    /\ FindBrokenDocumentFieldValues.only_valid_left is_json_field_value_ok
         (get_field_value_ids_by_doc_field document_field_id
            (FindBrokenDocumentFieldValues.field_values w))
         (FindBrokenDocumentFieldValues.field_values w)
         (FindBrokenDocumentFieldValues.field_values w')
    /\ FindBrokenDocumentFieldValues.only_valid_left is_json_annotation_value_ok
         (get_fieldant_ids_by_doc_field document_field_id
            (FindBrokenDocumentFieldValues.annotations w))
         (FindBrokenDocumentFieldValues.annotations w)
         (FindBrokenDocumentFieldValues.annotations w').
Proof.
  intros Hfv Hant Hid.
  unfold FindBrokenDocumentFieldValues.process. rewrite Hid.
  set (fv_ids := get_field_value_ids_by_doc_field document_field_id
                   (FindBrokenDocumentFieldValues.field_values w)).
  set (ant_ids := get_fieldant_ids_by_doc_field document_field_id
                    (FindBrokenDocumentFieldValues.annotations w)).
  destruct (run_field_value_checks is_json_field_value_ok is_json_annotation_value_ok
              get_field_values_by_ids get_ants_by_ids (chunks fv_ids 100) w Hfv)
    as (w1 & Hrun1 & Hants1 & Hval1).
  destruct (run_annotation_checks is_json_field_value_ok is_json_annotation_value_ok
              get_field_values_by_ids get_ants_by_ids (chunks ant_ids 100) w1 Hant)
    as (w2 & Hrun2 & Hfvs2 & Hval2).
  eexists _, w2. split; [reflexivity |]. split; [| split].
  - unfold FindBrokenDocumentFieldValues.run_sub_tasks in *.
    by rewrite (for_each_app_Ok _ _ _ _ _ Hrun1).
  - rewrite Hfvs2. rewrite chunks_concat in Hval1 by lia. exact Hval1.
  - rewrite <- Hants1. rewrite chunks_concat in Hval2 by lia. exact Hval2.
Qed.

Lemma find_broken_process_deletes_broken_witness :
  let ok := fun (_ : string) (v : Z) => 0 <=? v in
  let by_ids := fun (ids : list Z) (t : gmap Z (string * Z)) =>
                  filter (fun row => row.1 ∈ ids) (map_to_list t) in
  let ids_of := fun (_ : option Z) (t : gmap Z (string * Z)) => (map_to_list t).*1 in
  let w := FindBrokenDocumentFieldValues.mkWorld
             {[1 := ("amount", 5); 2 := ("amount", -1)]} {[7 := ("amount", -3)]} [] in
  exists sts w',
    FindBrokenDocumentFieldValues.process ids_of ids_of (Some {["pk" := 4]}) true w = Ok sts
    /\ FindBrokenDocumentFieldValues.run_sub_tasks ok ok by_ids by_ids sts w = (Ok tt, w')
    /\ FindBrokenDocumentFieldValues.only_valid_left ok
         (ids_of (Some 4) (FindBrokenDocumentFieldValues.field_values w))
         (FindBrokenDocumentFieldValues.field_values w)
         (FindBrokenDocumentFieldValues.field_values w')
    /\ FindBrokenDocumentFieldValues.only_valid_left ok
         (ids_of (Some 4) (FindBrokenDocumentFieldValues.annotations w))
         (FindBrokenDocumentFieldValues.annotations w)
         (FindBrokenDocumentFieldValues.annotations w').
Proof.
  intros ok by_ids ids_of w.
  assert (Hrows : FindBrokenDocumentFieldValues.rows_by_ids by_ids).
  { intros ids t pk x. subst by_ids. cbn beta.
    rewrite list_elem_of_filter, elem_of_map_to_list. cbn [fst]. tauto. }
  apply (find_broken_process_deletes_broken ok ok by_ids by_ids ids_of ids_of
           (Some {["pk" := 4]}) (Some 4) w Hrows Hrows).
  reflexivity.
Defined.

(** ** [TrainDirtyDocumentFieldDetectorModel.process] and its sub-tasks *)

Section TrainDirtyFacts.
Import Training TrainDirty.
Variable trainer :
  db -> DocumentField -> option (list Z) -> train_options -> result (option ClassifierModel).
Variable can_retrain : DocumentField -> bool.
Variable approved_number : db -> DocumentField -> Z.

Local Abbreviation task := (train_model_for_dirty_field trainer can_retrain approved_number).
Local Abbreviation run_all := (run_sub_tasks trainer can_retrain approved_number).

(** One sub-task writes at most the row of its own field. *)
Lemma train_model_for_dirty_field_fields uid field d :
  document_fields d !! uid = Some field -> df_uid field = uid ->
  document_fields (task uid d).2
  = if can_retrain field then <[uid := set_dirty false field]> (document_fields d)
    else document_fields d.
Proof.
  intros Hf Hu. destruct (can_retrain field) eqn:Hc.
  - rewrite (train_model_for_dirty_field_run trainer can_retrain approved_number uid field d
               Hf Hc).
    rewrite Hu.
    destruct (Z.leb _ _); [| reflexivity].
    by destruct (trainer _ _ None DefaultOptions) as [[m|]|e].
  - by rewrite (train_model_for_dirty_field_blocked trainer can_retrain approved_number
                  uid field d Hf Hc).
Qed.

Lemma run_sub_tasks_fields uids d :
  NoDup uids ->
  (forall uid, uid ∈ uids -> exists f, document_fields d !! uid = Some f /\ df_uid f = uid) ->
  (forall uid f, uid ∈ uids -> document_fields d !! uid = Some f ->
   document_fields (run_all uids d) !! uid
   = Some (if can_retrain f then set_dirty false f else f))
  /\ (forall uid, uid ∉ uids ->
      document_fields (run_all uids d) !! uid = document_fields d !! uid).
Proof.
  revert d. induction uids as [|u uids IH]; intros d Hnd Hrows.
  - split; [intros uid f Hin; by apply elem_of_nil in Hin | done].
  - apply NoDup_cons in Hnd as [Hu Hnd].
    destruct (Hrows u ltac:(left)) as (fu & Hfu & Hku).
    pose proof (train_model_for_dirty_field_fields u fu d Hfu Hku) as Hstep.
    set (d1 := (task u d).2) in *.
    assert (Hother : forall uid, uid <> u -> document_fields d1 !! uid = document_fields d !! uid).
    { intros uid Hne. rewrite Hstep. destruct (can_retrain fu); [| done].
      by rewrite lookup_insert_ne. }
    assert (Hown : document_fields d1 !! u
                   = Some (if can_retrain fu then set_dirty false fu else fu)).
    { rewrite Hstep. destruct (can_retrain fu); [by rewrite lookup_insert_eq | done]. }
    destruct (IH d1 Hnd) as [IHin IHout].
    { intros uid Hin. rewrite Hother by (intros ->; done).
      apply Hrows. by right. }
    change (run_all (u :: uids) d) with (run_all uids d1).
    split.
    + intros uid f Hin Hf. apply elem_of_cons in Hin as [-> | Hin].
      * rewrite IHout by done. rewrite Hown. rewrite Hfu in Hf. by injection Hf as <-.
      * apply IHin; [done |]. rewrite Hother by (intros ->; done). done.
    + intros uid Hnin. apply not_elem_of_cons in Hnin as [Hne Hnin].
      rewrite IHout by done. by apply Hother.
Qed.
End TrainDirtyFacts.

(** X27. [TrainDirtyDocumentFieldDetectorModel.process] followed by its
    sub-tasks (run in the order they were started, each whether or not the
    ones before it raised), when [get_dirty_fields] returns rows of the
    field table and no row twice: afterwards every one of these fields that
    can be retrained has its dirty flag cleared, also when its training
    raised or was skipped for lack of approved documents; the ones that
    cannot be retrained, and all fields that were not returned, are as they
    were. *)
Theorem train_dirty_process_clears_flags
    (trainer : Training.db -> Training.DocumentField -> option (list Z) ->
               Training.train_options -> result (option Training.ClassifierModel))
    (can_retrain : Training.DocumentField -> bool)
    (approved_number : Training.db -> Training.DocumentField -> Z)
    (get_dirty_fields : Training.db -> list Training.DocumentField)
    (d : Training.db) :
  (forall f, f ∈ get_dirty_fields d ->
   Training.document_fields d !! Training.df_uid f = Some f) ->
  NoDup (map Training.df_uid (get_dirty_fields d)) ->
  let d' := TrainDirty.run_sub_tasks trainer can_retrain approved_number
              (TrainDirty.process get_dirty_fields d) d in
  (forall f, f ∈ get_dirty_fields d ->
   Training.document_fields d' !! Training.df_uid f
   = Some (if can_retrain f then Training.set_dirty false f else f))
  /\ (forall uid, uid ∉ map Training.df_uid (get_dirty_fields d) ->
      Training.document_fields d' !! uid = Training.document_fields d !! uid).
Proof.
  intros Hrows Hnd d'.
  assert (Hproc : TrainDirty.process get_dirty_fields d
                  = map Training.df_uid (get_dirty_fields d)).
  { unfold TrainDirty.process. by destruct (get_dirty_fields d). }
  subst d'. rewrite Hproc.
  destruct (run_sub_tasks_fields trainer can_retrain approved_number
              (map Training.df_uid (get_dirty_fields d)) d Hnd) as [Hin Hout].
  { intros uid Huid. apply list_elem_of_fmap in Huid as (f & -> & Hf).
    exists f. split; [by apply Hrows | done]. }
  split; [| exact Hout].
  intros f Hf. apply Hin; [by apply list_elem_of_fmap_2 | by apply Hrows].
Qed.

Lemma train_dirty_process_clears_flags_witness :
  let f1 := Training.mkDocumentField "f1" "amount" "lease" true 5 in
  let f2 := Training.mkDocumentField "f2" "party" "lease" true 0 in
  let f3 := Training.mkDocumentField "f3" "date" "lease" false 0 in
  let d := Training.mkDb {["f1" := f1; "f2" := f2; "f3" := f3]} ∅ [] in
  let dirty := fun d0 : Training.db =>
    filter (fun f => Training.df_dirty f = true)
           (map snd (map_to_list (Training.document_fields d0))) in
  let d' := TrainDirty.run_sub_tasks (fun _ _ _ _ => Raise (External "trainer"))
              (fun f => negb (String.eqb (Training.df_uid f) "f2")) (fun _ _ => 7)
              (TrainDirty.process dirty d) d in
  Training.document_fields d' !! "f1" = Some (Training.set_dirty false f1)
  /\ Training.document_fields d' !! "f2" = Some f2.
Proof.
  intros f1 f2 f3 d dirty d'.
  destruct (train_dirty_process_clears_flags (fun _ _ _ _ => Raise (External "trainer"))
              (fun f => negb (String.eqb (Training.df_uid f) "f2")) (fun _ _ => 7) dirty d)
    as [Hin _].
  - intros f Hf. vm_compute in Hf.
    repeat (apply elem_of_cons in Hf as [-> | Hf]; [reflexivity |]).
    by apply elem_of_nil in Hf.
  - vm_compute. by apply (bool_decide_unpack _).
  - split.
    + apply (Hin f1). vm_compute. repeat constructor.
    + apply (Hin f2). vm_compute. repeat constructor.
Defined.
